(** * FutureTools scraper: extraction pipeline of [scraper.py]

    A shallow embedding of [FutureToolsScraper] and the properties of its
    extraction pipeline.

    - Python [str] is [string] (8-bit characters; [lower] and [strip] act
      on the ASCII range), Python [int] is [Z].
    - The [tool_data] dict has a fixed key set and is a record.
    - [pricing_keywords] is a dict iterated in insertion order: an
      association list.
    - A parsed page is a tree of tags and text; the BeautifulSoup calls the
      scraper makes ([find], [find_all], [get_text]) are functions on it.
    - Selenium, the clock and exceptions are effects: a state-and-exception
      monad over an explicit browser environment. Every Selenium call may
      raise, except [quit]; the exceptions are those derived from
      [Exception].
    - [print] and [time.sleep] have no part in what is returned and are
      left out.

    Layout: the model ([Py], [Soup], the monad, [FutureToolsScraper]), the
    vocabulary of the properties ([Props]) with concrete pages and browsers
    ([Examples]), then the proofs. *)

From Stdlib Require Import String Ascii ZArith Bool.
From stdpp Require Import base list strings gmap.

Local Open Scope string_scope.
Local Open Scope list_scope.
Local Set Warnings "-register-all".

(** ** Python strings *)

Module Py.

(** [sub in s] *)
Fixpoint contains (sub s : string) : bool :=
  String.prefix sub s ||
  match s with
  | EmptyString => false
  | String _ rest => contains sub rest
  end.

(** [s.startswith(p)] *)
Definition startswith (p s : string) : bool := String.prefix p s.

(** [bool(s)] for a string: non-empty. *)
Definition truthy (s : string) : bool :=
  match s with EmptyString => false | String _ _ => true end.

(** [bool(l)] for a list: non-empty. *)
Definition nonempty {A} (l : list A) : bool :=
  match l with [] => false | _ :: _ => true end.

(** [x in l] for a list of strings. *)
Definition mem (x : string) (l : list string) : bool :=
  existsb (String.eqb x) l.

Definition lower_ascii (c : ascii) : ascii :=
  let n := nat_of_ascii c in
  if (65 <=? n)%nat && (n <=? 90)%nat then ascii_of_nat (n + 32) else c.

(** [s.lower()] *)
Fixpoint lower (s : string) : string :=
  match s with
  | EmptyString => EmptyString
  | String c rest => String (lower_ascii c) (lower rest)
  end.

(** [c.isspace()]: tab, LF, VT, FF, CR, the separators FS..US, space. *)
Definition isspace (c : ascii) : bool :=
  let n := nat_of_ascii c in
  ((9 <=? n)%nat && (n <=? 13)%nat) || ((28 <=? n)%nat && (n <=? 32)%nat).

Fixpoint lstrip (s : string) : string :=
  match s with
  | EmptyString => EmptyString
  | String c rest => if isspace c then lstrip rest else s
  end.

(** Drops trailing white space: a character is kept when it is not a
    space or something is kept after it. *)
Fixpoint rstrip (s : string) : string :=
  match s with
  | EmptyString => EmptyString
  | String c rest =>
      match rstrip rest with
      | EmptyString => if isspace c then EmptyString else String c EmptyString
      | kept => String c kept
      end
  end.

(** [s.strip()] *)
Definition strip (s : string) : string := rstrip (lstrip s).

(** [sep.join(l)] *)
Fixpoint join (sep : string) (l : list string) : string :=
  match l with
  | [] => EmptyString
  | [x] => x
  | x :: rest => x +:+ sep +:+ join sep rest
  end.

(** [s.split(sep)] for a non-empty [sep]: left to right, occurrences do
    not overlap. [skip] counts the characters of a separator still to be
    dropped, [cur] is the piece being read. *)
Fixpoint split_go (sep : string) (skip : nat) (cur s : string) : list string :=
  match s with
  | EmptyString => [cur]
  | String c rest =>
      match skip with
      | S k => split_go sep k cur rest
      | O =>
          if String.prefix sep s
          then cur :: split_go sep (String.length sep - 1) EmptyString rest
          else split_go sep 0 (cur +:+ String c EmptyString) rest
      end
  end.

Definition split (sep s : string) : list string :=
  split_go sep 0 EmptyString s.

End Py.

(** ** The parsed page *)

(** A page element as BeautifulSoup exposes it. Of a tag's attributes the
    scraper reads [class] (multi-valued: a list of class names, absent when
    the attribute is not set) and [href]. *)
Inductive node : Type :=
| NText (s : string)
| NTag (tag : string) (cls : option (list string)) (href : option string)
       (children : list node).

Module Soup.

(** All elements below [n], in document order. *)
Fixpoint descendants (n : node) : list node :=
  match n with
  | NText _ => []
  | NTag _ _ _ children =>
      (fix below (l : list node) : list node :=
         match l with
         | [] => []
         | c :: rest => c :: descendants c ++ below rest
         end) children
  end.

(** The text pieces below [n], in document order. *)
Fixpoint strings (n : node) : list string :=
  match n with
  | NText s => [s]
  | NTag _ _ _ children =>
      (fix below (l : list node) : list string :=
         match l with
         | [] => []
         | c :: rest => strings c ++ below rest
         end) children
  end.

(** [n.get_text()] *)
Definition get_text (n : node) : string := Py.join "" (strings n).

(** [n.get_text(strip=True)]: every piece stripped, empty pieces dropped. *)
Definition get_text_strip (n : node) : string :=
  Py.join "" (List.filter Py.truthy (map Py.strip (strings n))).

(** An attribute filter: a predicate on the value, [None] when the
    attribute is absent (the lambdas of the scraper start with [x and]). *)
Definition attr_filter := option string -> bool.

(** A function filter on [class]: tried on every class name, then on the
    whole value joined by spaces. *)
Definition class_matches (f : attr_filter) (cls : option (list string)) : bool :=
  match cls with
  | None => f None
  | Some l => existsb (fun c => f (Some c)) l || f (Some (Py.join " " l))
  end.

(** [class_="name"]: a string filter, an exact match. *)
Definition class_is (name : string) : attr_filter :=
  fun x => match x with None => false | Some v => String.eqb name v end.

(** Does [n] match [find_all(tag, class_=fc, href=fh)]? *)
Definition matches (tag : string) (fc : option attr_filter)
           (fh : option attr_filter) (n : node) : bool :=
  match n with
  | NText _ => false
  | NTag t cls href _ =>
      String.eqb tag t
      && match fc with None => true | Some f => class_matches f cls end
      && match fh with None => true | Some f => f href end
  end.

Definition find_all (tag : string) (fc fh : option attr_filter) (n : node)
  : list node :=
  List.filter (matches tag fc fh) (descendants n).

(** [n.find(...)]: the first match or [None]. *)
Definition find (tag : string) (fc fh : option attr_filter) (n : node)
  : option node :=
  head (find_all tag fc fh n).

End Soup.

(** ** The output record *)

(** The [tool_data] dict of [_parse_tool_card]: six fixed keys. *)
Module ToolData.
Record t : Type := {
  name : string;
  description : string;
  categories : string;
  pricing : string;
  url : string;
  scraped_at : string
}.
End ToolData.

(** ** Effects: exceptions, the browser, the clock *)

Inductive exn : Type :=
| WebDriverException (msg : string)
| AttributeError (msg : string)
| OtherException (msg : string).

(** A call either returns, raises, or (for a loop cut off by its fuel) has
    not finished. *)
Inductive outcome (A : Type) : Type :=
| Ret (a : A)
| Raise (e : exn)
| Diverge.
Arguments Ret {A} a.
Arguments Raise {A} e.
Arguments Diverge {A}.

(** What is asked of the outside world. *)
Inductive event : Type :=
| EvChrome                    (* webdriver.Chrome(service=..., options=...) *)
| EvGet (url : string)        (* driver.get(url) *)
| EvHeight                    (* execute_script("return document.body.scrollHeight") *)
| EvScroll                    (* execute_script("window.scrollTo(0, ...)") *)
| EvFindButtons               (* driver.find_elements(By.XPATH, ...) *)
| EvDisplayed (elem : nat)    (* element.is_displayed() *)
| EvClick (elem : nat)        (* element.click() *)
| EvSource                    (* BeautifulSoup(driver.page_source, 'lxml') *)
| EvNow                       (* datetime.now() *)
| EvQuit (session : nat).     (* driver.quit() *)

(** The outside world. Every answer may depend on how many requests were
    made before it (the first argument), which makes the environment as
    general as a deterministic program can observe. [driver.quit()] does
    not raise: Selenium's Chrome driver swallows the errors of quitting. *)
Record Env : Type := {
  chrome_start : nat -> exn + unit;
  driver_get : nat -> string -> exn + unit;
  scroll_height : nat -> exn + Z;
  scroll_to_bottom : nat -> exn + unit;
  find_buttons : nat -> exn + list nat;
  is_displayed : nat -> nat -> exn + bool;
  click : nat -> nat -> exn + unit;
  page_soup : nat -> exn + node;
  now : nat -> string
}.

(** The scraper object ([self.driver]; a session is a number), the result
    list of the scrape call that is running ([tools] / [all_tools], a local
    that statements append to and that survives an exception), and the world
    around them: the sessions that are open, the requests made so far
    (latest first). *)
Record State : Type := {
  driver : option nat;
  tools : list ToolData.t;
  live : gset nat;
  log : list event
}.

Definition M (A : Type) : Type := State -> outcome A * State.

Definition ret {A} (a : A) : M A := fun s => (Ret a, s).

Definition raise {A} (e : exn) : M A := fun s => (Raise e, s).

Definition bind {A B} (m : M A) (k : A -> M B) : M B :=
  fun s =>
    match m s with
    | (Ret a, s') => k a s'
    | (Raise e, s') => (Raise e, s')
    | (Diverge, s') => (Diverge, s')
    end.

Notation "x <- m ;; k" := (bind m (fun x => k))
  (at level 100, m at next level, right associativity).
Notation "m ;;; k" := (bind m (fun _ => k))
  (at level 100, right associativity).

(** [try: m  except Exception as e: h e] *)
Definition try_except {A} (m : M A) (h : exn -> M A) : M A :=
  fun s =>
    match m s with
    | (Raise e, s') => h e s'
    | r => r
    end.

(** [try: m  finally: fin]. The clean-up runs after a return and after an
    exception; an exception of the clean-up replaces the outcome. *)
Definition try_finally {A} (m : M A) (fin : M unit) : M A :=
  fun s =>
    match m s with
    | (Diverge, s') => (Diverge, s')
    | (r, s') =>
        match fin s' with
        | (Ret _, s'') => (r, s'')
        | (Raise e, s'') => (Raise e, s'')
        | (Diverge, s'') => (Diverge, s'')
        end
    end.

Definition record_event (ev : event) (s : State) : State :=
  {| driver := driver s; tools := tools s; live := live s;
     log := ev :: log s |}.

(** A request to the world: logged, answered by the environment. *)
Definition request {A} (ev : event) (answer : nat -> exn + A) : M A :=
  fun s =>
    match answer (length (log s)) with
    | inl e => (Raise e, record_event ev s)
    | inr a => (Ret a, record_event ev s)
    end.

(** [self.driver] where a method is called on it: [None] has none. *)
Definition the_driver : M nat :=
  fun s =>
    match driver s with
    | Some d => (Ret d, s)
    | None => (Raise (AttributeError "'NoneType' object has no attribute"), s)
    end.

(** [for x in l: body x] *)
Fixpoint for_each {A} (l : list A) (body : A -> M unit) : M unit :=
  match l with
  | [] => ret tt
  | x :: rest => body x ;;; for_each rest body
  end.

(** [tools = []], [tools.append(t)], [return tools] *)
Definition set_tools (l : list ToolData.t) : M unit :=
  fun s =>
    (Ret tt, {| driver := driver s; tools := l; live := live s; log := log s |}).

Definition append_tool (t : ToolData.t) : M unit :=
  fun s =>
    (Ret tt, {| driver := driver s; tools := tools s ++ [t]; live := live s;
                log := log s |}).

Definition get_tools : M (list ToolData.t) := fun s => (Ret (tools s), s).

(** What [_parse_tool_card] may be handed: the method is untyped, and a
    value without a [find] attribute fails at the first statement. *)
Inductive pyobj : Type :=
| PyNone
| PyTag (n : node).

(** How one turn of a [while] body ends. *)
Inductive loop_ctl : Type :=
| Break
| Next (new_height : Z) (no_change_count : Z).

(** ** The scraper *)

Module FutureToolsScraper.

Definition BASE_URL : string := "https://www.futuretools.io".
Definition NEWLY_ADDED_URL : string := BASE_URL +:+ "/newly-added".

Definition CATEGORIES : list string :=
  [ "AI Detection"; "Aggregators"; "Automation & Agents"; "Avatar"; "Chat";
    "Copywriting"; "Finance"; "For Fun"; "Gaming"; "Generative Art";
    "Generative Code"; "Generative Video"; "Image Improvement"; "Image Scanning";
    "Inspiration"; "Marketing"; "Motion Capture"; "Music"; "Podcasting";
    "Productivity"; "Prompt Guides"; "Research"; "Self-Improvement";
    "Social Media"; "Speech-To-Text"; "Text-To-Speech"; "Translation";
    "Video Editing"; "Voice Modulation" ].

Definition PRICING_FILTERS : list string :=
  [ "Free"; "Freemium"; "GitHub"; "Google Colab"; "Open Source"; "Paid" ].

(** *** The attribute filters (the lambdas passed to [find] / [find_all]) *)

(** [lambda x: x and k in str(x)] *)
Definition has (k : string) : Soup.attr_filter :=
  fun x =>
    match x with
    | None => false
    | Some v => Py.truthy v && Py.contains k v
    end.

(** [lambda x: x and "tool-item-link" in str(x)
               and "tool-item-link-block" not in str(x)] *)
Definition title_link : Soup.attr_filter :=
  fun x =>
    match x with
    | None => false
    | Some v =>
        Py.truthy v && Py.contains "tool-item-link" v
        && negb (Py.contains "tool-item-link-block" v)
    end.

(** [lambda x: x and "tool" in str(x) and "w-dyn-item" in str(x)] *)
Definition tool_item : Soup.attr_filter :=
  fun x =>
    match x with
    | None => false
    | Some v => Py.truthy v && Py.contains "tool" v && Py.contains "w-dyn-item" v
    end.

(** [lambda x: x and x.startswith("/tools/")] *)
Definition tool_path : Soup.attr_filter :=
  fun x =>
    match x with
    | None => false
    | Some v => Py.truthy v && Py.startswith "/tools/" v
    end.

(** [a or b] on result lists: the first when it is not empty. *)
Definition or_else {A} (a b : list A) : list A :=
  if Py.nonempty a then a else b.

(** *** The fields of a card *)

(** The name element: the title link, else the first [h3], else the first
    [h2]. A tag is truthy whatever its content. *)
Definition name_element (card : node) : option node :=
  match Soup.find "a" (Some title_link) None card with
  | Some e => Some e
  | None =>
      match Soup.find "h3" None None card with
      | Some e => Some e
      | None => Soup.find "h2" None None card
      end
  end.

(** [for cat_div in category_divs: ...] *)
Definition container_labels (category_divs : list node) : list string :=
  fold_left
    (fun categories cat_div =>
       let cat_text := Soup.get_text_strip cat_div in
       if Py.truthy cat_text && negb (Py.mem cat_text categories)
       then categories ++ [cat_text] else categories)
    category_divs [].

(** [for link in category_links: ...] *)
Definition link_labels (category_links : list node) : list string :=
  fold_left
    (fun categories link =>
       let cat_text := Soup.get_text_strip link in
       if Py.truthy cat_text && negb (Py.mem cat_text [""; "category"])
          && negb (Py.mem cat_text categories)
       then categories ++ [cat_text] else categories)
    category_links [].

Definition category_labels (card : node) : list string :=
  let categories :=
    match Soup.find "div" (Some (has "collection-list-8")) None card with
    | Some category_container =>
        container_labels
          (or_else
             (Soup.find_all "div" (Some (has "text-block-53")) None category_container)
             (Soup.find_all "div" (Some (has "black-text-db-gc")) None category_container))
    | None => []
    end in
  if negb (Py.nonempty categories)
  then link_labels (Soup.find_all "a" None (Some (has "?tags=")) card)
  else categories.

Definition pricing_keywords : list (string * string) :=
  [ ("paid", "Paid"); ("free trial", "Free Trial"); ("freemium", "Freemium");
    ("open source", "Open Source"); ("github", "GitHub") ].

(** [for keyword, label in pricing_keywords.items(): ...] *)
Definition keyword_labels (all_text : string) : list string :=
  fold_left
    (fun pricing kl =>
       if Py.contains (fst kl) all_text && negb (Py.mem (snd kl) pricing)
       then pricing ++ [snd kl] else pricing)
    pricing_keywords [].

Definition pricing_labels (all_text : string) : list string :=
  let pricing := keyword_labels all_text in
  if negb (Py.nonempty pricing) && Py.contains "free" all_text
     && negb (Py.contains "free trial" all_text)
  then pricing ++ ["Free"] else pricing.

(** [", ".join(l) if l else sentinel] *)
Definition joined_or (sentinel : string) (l : list string) : string :=
  if Py.nonempty l then Py.join ", " l else sentinel.

Definition card_url (card : node) : string :=
  match Soup.find "a" None (Some tool_path) card with
  | Some (NTag _ _ (Some href) _) =>
      if Py.truthy href then BASE_URL +:+ href else ""
  | _ => ""
  end.

Section WithEnv.

Context (env : Env).

(** A method call on [self.driver]. *)
Definition driver_request {A} (ev : event) (answer : nat -> exn + A) : M A :=
  the_driver ;;; request ev answer.

(** [card.find]: present on a tag only. *)
Definition card_tag (card : pyobj) : M node :=
  match card with
  | PyTag n => ret n
  | PyNone => raise (AttributeError "'NoneType' object has no attribute 'find'")
  end.

Definition _setup_driver : M nat :=
  request EvChrome (chrome_start env) ;;;
  fun s =>
    let session := fresh (live s) in
    (Ret session,
     {| driver := Some session; tools := tools s;
        live := {[session]} ∪ live s; log := log s |}).

Definition _close_driver : M unit :=
  fun s =>
    match driver s with
    | Some d =>
        (Ret tt,
         {| driver := None; tools := tools s; live := live s ∖ {[d]};
            log := EvQuit d :: log s |})
    | None => (Ret tt, s)
    end.

(** The [try] block of the scroll loop, entered when the height stood
    still three times. *)
Definition try_load_more : M loop_ctl :=
  try_except
    (load_more_buttons <- driver_request EvFindButtons (find_buttons env) ;;
     match load_more_buttons with
     | first :: _ =>
         shown <- request (EvDisplayed first) (fun t => is_displayed env t first) ;;
         if shown : bool then
           request (EvClick first) (fun t => click env t first) ;;;
           new_height <- driver_request EvHeight (scroll_height env) ;;
           ret (Next new_height 0)
         else ret Break
     | [] => ret Break
     end)
    (fun _ => ret Break).

(** [while scrolls < max_scrolls: ...]; [fuel] bounds the turns. *)
Fixpoint scroll_loop (fuel : nat) (max_scrolls scrolls no_change_count last_height : Z)
  : M unit :=
  if (scrolls <? max_scrolls)%Z then
    match fuel with
    | O => fun s => (Diverge, s)
    | S fuel' =>
        driver_request EvScroll (scroll_to_bottom env) ;;;
        new_height <- driver_request EvHeight (scroll_height env) ;;
        ctl <- (if (new_height =? last_height)%Z then
                  let no_change_count := (no_change_count + 1)%Z in
                  if (no_change_count >=? 3)%Z then try_load_more
                  else ret (Next new_height no_change_count)
                else ret (Next new_height 0)) ;;
        match ctl with
        | Break => ret tt
        | Next new_height no_change_count =>
            scroll_loop fuel' max_scrolls (scrolls + 1) no_change_count new_height
        end
    end
  else ret tt.

Definition _scroll_to_load_all (max_scrolls : Z) : M unit :=
  last_height <- driver_request EvHeight (scroll_height env) ;;
  scroll_loop (Z.to_nat max_scrolls) max_scrolls 0 0 last_height.

(** The [try] block of [_parse_tool_card]. *)
Definition _parse_tool_card_try (card : pyobj) : M (option ToolData.t) :=
  tag <- card_tag card ;;
  match name_element tag with
  | None => ret None
  | Some name_elem =>
      let name := Soup.get_text_strip name_elem in
      let description :=
        match Soup.find "div" (Some (has "tool-item-description-box")) None tag with
        | Some desc_elem => Soup.get_text_strip desc_elem
        | None => ""
        end in
      let categories := joined_or "Uncategorized" (category_labels tag) in
      let all_text := Py.lower (Soup.get_text tag) in
      let pricing := joined_or "Check tool page" (pricing_labels all_text) in
      let url := card_url tag in
      scraped_at <- request EvNow (fun t => inr (now env t)) ;;
      ret (Some {| ToolData.name := name;
                   ToolData.description := description;
                   ToolData.categories := categories;
                   ToolData.pricing := pricing;
                   ToolData.url := url;
                   ToolData.scraped_at := scraped_at |})
  end.

Definition _parse_tool_card (card : pyobj) : M (option ToolData.t) :=
  try_except (_parse_tool_card_try card) (fun _ => ret None).

(** The selector cascade for the cards of a page. *)
Definition tool_cards (soup : node) : list node :=
  or_else (Soup.find_all "div" (Some tool_item) None soup)
    (or_else (Soup.find_all "div" (Some (Soup.class_is "tool-card")) None soup)
       (or_else (Soup.find_all "div" (Some (Soup.class_is "tool-item")) None soup)
          (or_else (Soup.find_all "div" (Some (Soup.class_is "collection-item")) None soup)
             (Soup.find_all "article" None None soup)))).

(** [for card in tool_cards: ...] of the unfiltered scrapes. *)
Definition parse_all (cards : list pyobj) : M unit :=
  for_each cards
    (fun card =>
       tool_data <- _parse_tool_card card ;;
       match tool_data with
       | Some t => append_tool t
       | None => ret tt
       end).

Definition scrape_newly_added : M (list ToolData.t) :=
  set_tools [] ;;;
  try_finally
    (try_except
       (_setup_driver ;;;
        driver_request (EvGet NEWLY_ADDED_URL)
          (fun t => driver_get env t NEWLY_ADDED_URL) ;;;
        _scroll_to_load_all 10 ;;;
        soup <- driver_request EvSource (page_soup env) ;;
        parse_all (map PyTag (tool_cards soup)))
       (fun _ => ret tt))
    _close_driver ;;;
  get_tools.

(** [any(x in wanted for x in field.split(", "))] *)
Definition any_label_in (wanted : list string) (field : string) : bool :=
  existsb (fun x => Py.mem x wanted) (Py.split ", " field).

(** [bool(l)] for an optional list argument: neither [None] nor empty. *)
Definition given (l : option (list string)) : bool :=
  match l with
  | Some l => Py.nonempty l
  | None => false
  end.

(** [for card in tool_cards: ...] of [scrape_by_category], [continue]
    being the branches that append nothing. *)
Definition parse_matching (categories : list string)
           (pricing_filters : option (list string)) (cards : list pyobj) : M unit :=
  for_each cards
    (fun card =>
       tool_data <- _parse_tool_card card ;;
       match tool_data with
       | Some t =>
           if Py.nonempty categories
              && negb (bool_decide (categories = CATEGORIES))
              && negb (any_label_in categories (ToolData.categories t))
           then ret tt
           else if given pricing_filters
                   && negb (any_label_in (default [] pricing_filters)
                              (ToolData.pricing t))
           then ret tt
           else append_tool t
       | None => ret tt
       end).

Definition scrape_by_category (categories pricing_filters : option (list string))
  : M (list ToolData.t) :=
  let categories :=
    match categories with None => CATEGORIES | Some c => c end in
  set_tools [] ;;;
  try_finally
    (try_except
       (_setup_driver ;;;
        driver_request (EvGet BASE_URL) (fun t => driver_get env t BASE_URL) ;;;
        _scroll_to_load_all 100 ;;;
        soup <- driver_request EvSource (page_soup env) ;;
        parse_matching categories pricing_filters (map PyTag (tool_cards soup)))
       (fun _ => ret tt))
    _close_driver ;;;
  get_tools.

Definition scrape_all_tools (max_pages : option Z) : M (list ToolData.t) :=
  set_tools [] ;;;
  try_finally
    (try_except
       (_setup_driver ;;;
        driver_request (EvGet BASE_URL) (fun t => driver_get env t BASE_URL) ;;;
        _scroll_to_load_all 100 ;;;
        soup <- driver_request EvSource (page_soup env) ;;
        parse_all (map PyTag (tool_cards soup)))
       (fun _ => ret tt))
    _close_driver ;;;
  get_tools.

End WithEnv.

End FutureToolsScraper.

(** ** The dashboard ([app.py])

    The computations of [main] on [st.session_state.tools_data]:
    statistics, filter options, filters, pagination. The widgets' values
    are arguments.

    A row of the data is a dict with the six keys. It comes from a scrape,
    and then every value is a string, or from the cache file through
    [pd.read_csv], which gives a float for an empty cell and numbers for a
    column of digits. The scraper writes no empty [categories], [pricing]
    or [scraped_at]; [name], [description] and [url] can be empty. *)

Module Row.

Inductive cell : Type :=
| Text (s : string)
| Float
| Int.

Record t := {
  name : cell;
  description : cell;
  categories : string;
  pricing : string;
  url : cell;
  scraped_at : string
}.

(** The row of a record that a scrape returned. *)
Definition of_tool (r : ToolData.t) : t :=
  {| name := Text (ToolData.name r);
     description := Text (ToolData.description r);
     categories := ToolData.categories r;
     pricing := ToolData.pricing r;
     url := Text (ToolData.url r);
     scraped_at := ToolData.scraped_at r |}.

End Row.

Module App.

(** [l[start:stop]] on integers of either sign. *)
Definition slice_index (n i : Z) : Z :=
  if (i <? 0)%Z then Z.max 0 (i + n) else Z.min i n.

Definition slice {A} (l : list A) (start stop : Z) : list A :=
  let n := Z.of_nat (length l) in
  let a := slice_index n start in
  let b := slice_index n stop in
  take (Z.to_nat (b - a)) (drop (Z.to_nat a) l).

(** [set.update([x for x in field.split(', ') if x and x != skipped])] *)
Definition options_of (skipped : string) (fields : list string) : gset string :=
  fold_left
    (fun all field =>
       all ∪ list_to_set
               (List.filter (fun x => Py.truthy x && negb (String.eqb x skipped))
                  (Py.split ", " field)))
    fields ∅.

Definition all_categories (tools_data : list Row.t) : gset string :=
  options_of "Uncategorized" (map Row.categories tools_data).

Definition all_pricing (tools_data : list Row.t) : gset string :=
  options_of "Not specified" (map Row.pricing tools_data).

(** [len([t for t in tools_data if 'Free' in t.get('pricing', '')])] *)
Definition free_tools (tools_data : list Row.t) : nat :=
  length (List.filter (fun t => Py.contains "Free" (Row.pricing t)) tools_data).

Definition paid_tools (tools_data : list Row.t) : nat :=
  length (List.filter (fun t => Py.contains "Paid" (Row.pricing t)) tools_data).

(** [v.lower()]: a method of [str]; a float or an int has none. *)
Definition lower_of (v : Row.cell) : exn + string :=
  match v with
  | Row.Text s => inr (Py.lower s)
  | Row.Float => inl (AttributeError "'float' object has no attribute 'lower'")
  | Row.Int => inl (AttributeError "'int' object has no attribute 'lower'")
  end.

(** [search_query.lower() in name.lower() or ... in description.lower()]:
    [or] evaluates its second operand only when the first is false. *)
Definition matches_search (search_query : string) (t : Row.t) : exn + bool :=
  match lower_of (Row.name t) with
  | inl e => inl e
  | inr name =>
      if Py.contains (Py.lower search_query) name then inr true
      else
        match lower_of (Row.description t) with
        | inl e => inl e
        | inr description => inr (Py.contains (Py.lower search_query) description)
        end
  end.

(** [[t for t in l if test(t)]] for a test that can raise: the first row on
    which it raises ends the comprehension. *)
Fixpoint comprehension {A} (test : A -> exn + bool) (l : list A) : exn + list A :=
  match l with
  | [] => inr []
  | t :: l =>
      match test t with
      | inl e => inl e
      | inr keep =>
          match comprehension test l with
          | inl e => inl e
          | inr rest => inr (if keep then t :: rest else rest)
          end
      end
  end.

(** [any(x in field for x in wanted)]: [in] on a string, a substring test. *)
Definition any_within (wanted : list string) (field : string) : bool :=
  existsb (fun x => Py.contains x field) wanted.

(** "Apply filters": each filter applies when its widget is not empty. *)
Definition filtered_tools (search_query : string)
           (filter_categories filter_pricing : list string)
           (tools_data : list Row.t) : exn + list Row.t :=
  let filtered_tools := tools_data in
  match (if Py.truthy search_query
         then comprehension (matches_search search_query) filtered_tools
         else inr filtered_tools) with
  | inl e => inl e
  | inr filtered_tools =>
      let filtered_tools :=
        if Py.nonempty filter_categories
        then List.filter (fun t => any_within filter_categories (Row.categories t))
               filtered_tools
        else filtered_tools in
      inr (if Py.nonempty filter_pricing
           then List.filter (fun t => any_within filter_pricing (Row.pricing t))
                  filtered_tools
           else filtered_tools)
  end.

(** Pagination; [//] is the floor division. *)
Definition tools_per_page : Z := 10.

Definition total_pages (n : Z) : Z := ((n - 1) / tools_per_page + 1)%Z.

Definition start_idx (page : Z) : Z := ((page - 1) * tools_per_page)%Z.

Definition end_idx (page n : Z) : Z := Z.min (start_idx page + tools_per_page) n.

(** [filtered_tools[start_idx:end_idx]] *)
Definition page_tools {A} (filtered_tools : list A) (page : Z) : list A :=
  slice filtered_tools (start_idx page)
    (end_idx page (Z.of_nat (length filtered_tools))).

End App.

(** ** Vocabulary of the properties *)

Module Props.

Import FutureToolsScraper.

(** The labels of the keyword map, in its order. *)
Definition canonical_labels : list string :=
  ["Paid"; "Free Trial"; "Freemium"; "Open Source"; "GitHub"].

(** The labels a pricing field may hold. *)
Definition vocabulary : list string := canonical_labels ++ ["Free"].

(** The record [_parse_tool_card] builds for a tag whose name element is
    [name_elem], stamped [scraped_at]. *)
Definition tool_record (tag name_elem : node) (scraped_at : string) : ToolData.t :=
  {| ToolData.name := Soup.get_text_strip name_elem;
     ToolData.description :=
       match Soup.find "div" (Some (has "tool-item-description-box")) None tag with
       | Some desc_elem => Soup.get_text_strip desc_elem
       | None => ""
       end;
     ToolData.categories := joined_or "Uncategorized" (category_labels tag);
     ToolData.pricing :=
       joined_or "Check tool page" (pricing_labels (Py.lower (Soup.get_text tag)));
     ToolData.url := card_url tag;
     ToolData.scraped_at := scraped_at |}.

(** Two records that differ at most in [scraped_at]. *)
Definition same_fields (a b : ToolData.t) : Prop :=
  ToolData.name a = ToolData.name b
  /\ ToolData.description a = ToolData.description b
  /\ ToolData.categories a = ToolData.categories b
  /\ ToolData.pricing a = ToolData.pricing b
  /\ ToolData.url a = ToolData.url b.

(** No keyword of the map occurs in the text. *)
Definition no_keyword (all_text : string) : Prop :=
  Forall (fun kl => Py.contains (fst kl) all_text = false) pricing_keywords.

(** [m] comes back: it returns or raises, whatever the state. *)
Definition finishes {A} (m : M A) : Prop :=
  forall s, fst (m s) <> Diverge.

(** [m] always returns a value. *)
Definition returns {A} (m : M A) : Prop :=
  forall s, exists a, fst (m s) = Ret a.

(** [m] neither opens nor closes a session and leaves [self.driver]. *)
Definition keeps_sessions {A} (m : M A) : Prop :=
  forall s, driver (snd (m s)) = driver s /\ live (snd (m s)) = live s.

(** [m] leaves the result list. *)
Definition keeps_tools {A} (m : M A) : Prop :=
  forall s, tools (snd (m s)) = tools s.

Definition is_scroll (ev : event) : bool :=
  match ev with EvScroll => true | _ => false end.

Definition is_click (ev : event) : bool :=
  match ev with EvClick _ => true | _ => false end.

(** The scroll requests in a log. *)
Definition scroll_count (l : list event) : nat := length (List.filter is_scroll l).

(** [m] scrolls at most [n] times. *)
Definition scrolls_at_most {A} (n : nat) (m : M A) : Prop :=
  forall s, scroll_count (log (snd (m s))) <= scroll_count (log s) + n.

(** The control the scroll loop clicks when asked at request [t]: the first
    one located, provided it is displayed. *)
Definition clickable (env : Env) (t : nat) : option nat :=
  match find_buttons env t with
  | inr (first :: _) =>
      match is_displayed env (S t) first with
      | inr true => Some first
      | _ => None
      end
  | _ => None
  end.

(** [s] after the requests [evs] (latest first). *)
Definition after (evs : list event) (s : State) : State :=
  {| driver := driver s; tools := tools s; live := live s; log := evs ++ log s |}.

(** The [try] block the three scrape methods share, up to what is done
    with the parsed page. *)
Definition scrape_body (env : Env) (url : string) (max_scrolls : Z)
           (k : node -> M unit) : M unit :=
  _setup_driver env ;;;
  driver_request (EvGet url) (fun t => driver_get env t url) ;;;
  _scroll_to_load_all env max_scrolls ;;;
  soup <- driver_request EvSource (page_soup env) ;;
  k soup.

(** The skeleton of the three scrape methods. *)
Definition scrape_with (env : Env) (url : string) (max_scrolls : Z)
           (k : node -> M unit) : M (list ToolData.t) :=
  set_tools [] ;;;
  try_finally
    (try_except (scrape_body env url max_scrolls k) (fun _ => ret tt))
    _close_driver ;;;
  get_tools.

(** How the sessions may differ between the start of a scrape and a later
    point of its [try] block: not at all, or by the one session started. *)
Definition started (s0 s1 : State) : Prop :=
  (driver s1 = driver s0 /\ live s1 = live s0)
  \/ exists session,
       (session ∉ live s0) /\ driver s1 = Some session
       /\ live s1 = {[session]} ∪ live s0.

(** [s] after a card was parsed into [r]: the clock was read, the record
    appended. *)
Definition emit (r : ToolData.t) (s : State) : State :=
  {| driver := driver s; tools := tools s ++ [r]; live := live s;
     log := EvNow :: log s |}.

(** The two tests of [scrape_by_category] that drop a record. *)
Definition dropped (categories : list string) (pricing_filters : option (list string))
           (r : ToolData.t) : bool :=
  Py.nonempty categories && negb (bool_decide (categories = CATEGORIES))
  && negb (any_label_in categories (ToolData.categories r))
  || given pricing_filters
     && negb (any_label_in (default [] pricing_filters) (ToolData.pricing r)).

(** At least one label of the comma-separated [field] is in [wanted]. *)
Definition has_label_in (wanted : list string) (field : string) : Prop :=
  Exists (fun x => x ∈ wanted) (Py.split ", " field).

(** The filter of [scrape_by_category] as the specification words it. *)
Definition claimed_keep (categories pricing_filters : option (list string))
           (r : ToolData.t) : Prop :=
  (categories = None \/ has_label_in (default [] categories) (ToolData.categories r))
  /\ (pricing_filters = None
      \/ has_label_in (default [] pricing_filters) (ToolData.pricing r)).

(** The filter of [scrape_by_category] as the code applies it: an empty
    list and the full category list filter nothing. *)
Definition kept (categories pricing_filters : option (list string))
           (r : ToolData.t) : Prop :=
  (categories = None \/ categories = Some [] \/ categories = Some CATEGORIES
   \/ has_label_in (default [] categories) (ToolData.categories r))
  /\ (pricing_filters = None \/ pricing_filters = Some []
      \/ has_label_in (default [] pricing_filters) (ToolData.pricing r)).

#[export] Instance has_label_in_dec wanted field : Decision (has_label_in wanted field).
Proof. unfold has_label_in. apply _. Defined.

#[export] Instance claimed_keep_dec c p r : Decision (claimed_keep c p r).
Proof. unfold claimed_keep. apply _. Defined.

#[export] Instance kept_dec c p r : Decision (kept c p r).
Proof. unfold kept. apply _. Defined.

End Props.

(** ** Concrete pages and browsers *)

Module Examples.

Import FutureToolsScraper.

(** A scraper as [__init__] leaves it, no session open. *)
Definition idle : State := {| driver := None; tools := []; live := ∅; log := [] |}.

Definition page_of (cards : list node) : node :=
  NTag "[document]" None None
    [NTag "html" None None [NTag "body" None None cards]].

(** A browser where every call succeeds: the page never grows, shows no
    load-more control and renders as [soup]. *)
Definition static_env (soup : node) : Env :=
  {| chrome_start := fun _ => inr tt;
     driver_get := fun _ _ => inr tt;
     scroll_height := fun _ => inr 1080%Z;
     scroll_to_bottom := fun _ => inr tt;
     find_buttons := fun _ => inr [];
     is_displayed := fun _ _ => inr true;
     click := fun _ _ => inr tt;
     page_soup := fun _ => inr soup;
     now := fun _ => "2024-05-01 12:00:00" |}.

(** A scraper in the middle of a scrape: session 0 is open. *)
Definition session_open : State :=
  {| driver := Some 0; tools := []; live := {[0]}; log := [] |}.

(** A still page with two load-more controls, the first one hidden. *)
Definition hidden_first_env : Env :=
  {| chrome_start := fun _ => inr tt;
     driver_get := fun _ _ => inr tt;
     scroll_height := fun _ => inr 1080%Z;
     scroll_to_bottom := fun _ => inr tt;
     find_buttons := fun _ => inr [1; 2];
     is_displayed := fun _ elem => inr (Nat.eqb elem 2);
     click := fun _ _ => inr tt;
     page_soup := fun _ => inr (NTag "[document]" None None []);
     now := fun _ => "2024-05-01 12:00:00" |}.

(** A page with one visible load-more control; the page is taller from the
    twelfth request on. *)
Definition load_more_env : Env :=
  {| chrome_start := fun _ => inr tt;
     driver_get := fun _ _ => inr tt;
     scroll_height := fun t => inr (if Nat.ltb t 12 then 1080%Z else 2160%Z);
     scroll_to_bottom := fun _ => inr tt;
     find_buttons := fun _ => inr [7];
     is_displayed := fun _ _ => inr true;
     click := fun _ _ => inr tt;
     page_soup := fun _ => inr (NTag "[document]" None None []);
     now := fun _ => "2024-05-01 12:00:00" |}.

(** A host where Chrome does not start. *)
Definition no_chrome_env : Env :=
  {| chrome_start := fun _ => inl (WebDriverException "chromedriver not found");
     driver_get := fun _ _ => inr tt;
     scroll_height := fun _ => inr 1080%Z;
     scroll_to_bottom := fun _ => inr tt;
     find_buttons := fun _ => inr [];
     is_displayed := fun _ _ => inr true;
     click := fun _ _ => inr tt;
     page_soup := fun _ => inr (NTag "[document]" None None []);
     now := fun _ => "2024-05-01 12:00:00" |}.

(** A second clock on the same browser. *)
Definition later_env (soup : node) : Env :=
  {| chrome_start := fun _ => inr tt;
     driver_get := fun _ _ => inr tt;
     scroll_height := fun _ => inr 1080%Z;
     scroll_to_bottom := fun _ => inr tt;
     find_buttons := fun _ => inr [];
     is_displayed := fun _ _ => inr true;
     click := fun _ _ => inr tt;
     page_soup := fun _ => inr soup;
     now := fun _ => "2024-05-02 08:30:00" |}.

(** A card whose only content is a heading. *)
Definition heading_card (text : string) : node :=
  NTag "div" (Some ["tool"; "w-dyn-item"]) None
    [NTag "h3" None None [NText text]].

(** A card whose title link is there and has no text. *)
Definition untitled_card : node :=
  NTag "div" (Some ["tool"; "w-dyn-item"]) None
    [NTag "a" (Some ["tool-item-link"]) (Some "/tools/ghost") []].

(** The two pricing scenarios of the specification. *)
Definition trial_card : node := heading_card "Freemium, free trial pricing available".
Definition free_card : node := heading_card "completely free to use".

(** A card with categories, pricing words and a link. *)
Definition full_card : node :=
  NTag "div" (Some ["tool"; "w-dyn-item"]) None
    [ NTag "a" (Some ["tool-item-link-block"]) (Some "/tools/scribe") [];
      NTag "a" (Some ["tool-item-link"]) (Some "/tools/scribe") [NText " Scribe "];
      NTag "div" (Some ["tool-item-description-box"]) None
        [NText "Notes from GitHub issues. Paid plans."];
      NTag "div" (Some ["collection-list-8"]) None
        [ NTag "div" (Some ["text-block-53"]) None [NText "Chat"];
          NTag "div" (Some ["text-block-53"]) None [NText "Productivity"];
          NTag "div" (Some ["text-block-53"]) None [NText "Chat"] ] ].

End Examples.

(** ** Vocabulary of the further properties *)

Module MoreProps.

Import FutureToolsScraper Props.

(** [r] is a record [_parse_tool_card] builds: from a tag with a name
    element, at some time. *)
Definition scraped (r : ToolData.t) : Prop :=
  exists tag name_elem stamp,
    name_element tag = Some name_elem /\ r = tool_record tag name_elem stamp.

(** The record a card gives, its time left open; [None] for a card that
    is skipped. *)
Definition card_record (card : pyobj) : option ToolData.t :=
  match card with
  | PyNone => None
  | PyTag tag =>
      match name_element tag with
      | Some name_elem => Some (tool_record tag name_elem "")
      | None => None
      end
  end.

(** The first occurrence of every text of a list, in the order of the
    list: the head, then the first occurrences of the rest without it. *)
Fixpoint first_occurrences (l : list string) : list string :=
  match l with
  | [] => []
  | x :: l => x :: List.filter (fun y => negb (String.eqb y x)) (first_occurrences l)
  end.

(** The url of a record is empty or points below [/tools/] of the site. *)
Definition tool_url (u : string) : Prop :=
  u = "" \/ exists href, u = BASE_URL +:+ href /\ Py.startswith "/tools/" href = true.

(** The requests of a kind in a log, and a bound on those [m] makes. *)
Definition count_events (p : event -> bool) (l : list event) : nat :=
  length (List.filter p l).

Definition emits_at_most {A} (p : event -> bool) (n : nat) (m : M A) : Prop :=
  forall s, count_events p (log (snd (m s))) <= count_events p (log s) + n.

Definition any_event (ev : event) : bool := true.

(** A row with the categories and the pricing of a record of the
    scraper: as a scrape returned it, or read back from the cache. *)
Definition scraped_row (row : Row.t) : Prop :=
  exists r, scraped r
            /\ Row.categories row = ToolData.categories r
            /\ Row.pricing row = ToolData.pricing r.

(** The search can test the row: its name is a string, and so is its
    description when the name does not hold the text. *)
Definition searchable (search_query : string) (row : Row.t) : Prop :=
  exists name,
    Row.name row = Row.Text name
    /\ (Py.contains (Py.lower search_query) (Py.lower name) = true
        \/ exists description, Row.description row = Row.Text description).

(** The three labels whose text holds the word "Free". *)
Definition free_labels : list string := ["Free"; "Free Trial"; "Freemium"].

End MoreProps.

(** ** More browsers and data *)

Module MoreExamples.

Import Examples.

(** A page that is taller at every request. *)
Definition growing_env : Env :=
  {| chrome_start := fun _ => inr tt;
     driver_get := fun _ _ => inr tt;
     scroll_height := fun t => inr (Z.of_nat t);
     scroll_to_bottom := fun _ => inr tt;
     find_buttons := fun _ => inr [];
     is_displayed := fun _ _ => inr true;
     click := fun _ _ => inr tt;
     page_soup := fun _ => inr (NTag "[document]" None None []);
     now := fun _ => "2024-05-01 12:00:00" |}.

(** A row of the dashboard's data after a scrape. *)
Definition tool (name categories pricing : string) : Row.t :=
  {| Row.name := Row.Text name; Row.description := Row.Text "";
     Row.categories := categories; Row.pricing := pricing;
     Row.url := Row.Text ""; Row.scraped_at := "2024-05-01 12:00:00" |}.

(** The same row read back from the cache: the empty description and url
    are floats. *)
Definition cached (name categories pricing : string) : Row.t :=
  {| Row.name := Row.Text name; Row.description := Row.Float;
     Row.categories := categories; Row.pricing := pricing;
     Row.url := Row.Float; Row.scraped_at := "2024-05-01 12:00:00" |}.

(** The rows of the cards of a page, as the dashboard holds them after a
    scrape. *)
Definition records_of (cards : list node) : list Row.t :=
  map Row.of_tool (omap (fun card => MoreProps.card_record (PyTag card)) cards).

End MoreExamples.

(** ** Strings *)

Section PyFacts.

Lemma join_nil_iff (sep : string) (l : list string) :
  Forall (fun x => x <> "") l -> l <> [] -> Py.join sep l <> "".
Proof.
  intros Hall Hne.
  destruct l as [|x rest]; [congruence|].
  inversion Hall as [|? ? Hx _]; subst.
  destruct x as [|c x']; [congruence|].
  destruct rest; simpl; discriminate.
Qed.

Lemma nonempty_true {A} (l : list A) : Py.nonempty l = true <-> l <> [].
Proof. destruct l; simpl; split; congruence. Qed.

Lemma mem_true (x : string) (l : list string) : Py.mem x l = true <-> x ∈ l.
Proof.
  unfold Py.mem. rewrite existsb_exists. split.
  - intros (y & Hy & Heq). apply String.eqb_eq in Heq. subst.
    by apply list_elem_of_In.
  - intros Hin. exists x. split; [by apply list_elem_of_In|apply String.eqb_refl].
Qed.

End PyFacts.

(** ** Pricing *)

Module PricingFacts.

Import FutureToolsScraper Props.

(** The keyword loop keeps the labels of the keywords that occur, in the
    order of the map. *)
Lemma keyword_labels_filter (all_text : string) :
  keyword_labels all_text =
  map snd (List.filter (fun kl => Py.contains (fst kl) all_text) pricing_keywords).
Proof.
  unfold keyword_labels, pricing_keywords. simpl.
  destruct (Py.contains "paid" all_text), (Py.contains "free trial" all_text),
    (Py.contains "freemium" all_text), (Py.contains "open source" all_text),
    (Py.contains "github" all_text); reflexivity.
Qed.

Lemma keyword_labels_sublist (all_text : string) :
  sublist (keyword_labels all_text) canonical_labels.
Proof.
  rewrite keyword_labels_filter.
  change canonical_labels with (map snd pricing_keywords).
  apply (fmap_sublist snd).
  induction pricing_keywords as [|kl rest IH]; simpl; [constructor|].
  destruct (Py.contains kl.1 all_text); by constructor.
Qed.

Lemma keyword_labels_nil (all_text : string) :
  keyword_labels all_text = [] <-> no_keyword all_text.
Proof.
  rewrite keyword_labels_filter. unfold no_keyword, pricing_keywords. simpl.
  destruct (Py.contains "paid" all_text) eqn:E1,
    (Py.contains "free trial" all_text) eqn:E2,
    (Py.contains "freemium" all_text) eqn:E3,
    (Py.contains "open source" all_text) eqn:E4,
    (Py.contains "github" all_text) eqn:E5; simpl;
    (split; [try discriminate; intros _; repeat constructor; simpl; assumption
            | intros H; try reflexivity;
              repeat match goal with
                     | H : Forall _ (_ :: _) |- _ => inversion H; clear H; subst
                     end; simpl in *; congruence]).
Qed.

Lemma pricing_labels_eq (all_text : string) :
  pricing_labels all_text =
  if negb (Py.nonempty (keyword_labels all_text)) && Py.contains "free" all_text
     && negb (Py.contains "free trial" all_text)
  then ["Free"] else keyword_labels all_text.
Proof.
  unfold pricing_labels. cbv zeta.
  destruct (keyword_labels all_text) as [|l ls] eqn:E; [|reflexivity].
  simpl. by destruct (Py.contains "free" all_text && _).
Qed.

Lemma free_not_canonical : "Free" ∉ canonical_labels.
Proof.
  unfold canonical_labels. intros H.
  repeat (apply elem_of_cons in H as [H|H]; [discriminate|]).
  by apply elem_of_nil in H.
Qed.

(** "Free" is appended exactly under the guard of the source. *)
Lemma free_label_iff (all_text : string) :
  "Free" ∈ pricing_labels all_text <->
  no_keyword all_text /\ Py.contains "free" all_text = true
  /\ Py.contains "free trial" all_text = false.
Proof.
  rewrite pricing_labels_eq. rewrite <- keyword_labels_nil.
  destruct (keyword_labels all_text) as [|l ls] eqn:E; simpl.
  - destruct (Py.contains "free" all_text), (Py.contains "free trial" all_text);
      simpl; split; try (intros (_ & ? & ?); discriminate);
      try (intros H; by apply elem_of_nil in H).
    + intros _. done.
    + intros _. apply list_elem_of_singleton. reflexivity.
  - split; [|intros (? & _); discriminate].
    intros Hin. exfalso. apply free_not_canonical.
    eapply sublist_subseteq; [|exact Hin].
    rewrite <- E. apply keyword_labels_sublist.
Qed.

(** No combination of keyword labels prints as "Free". *)
Lemma keyword_join_not_free (all_text : string) :
  joined_or "Check tool page" (keyword_labels all_text) <> "Free".
Proof.
  rewrite keyword_labels_filter. unfold pricing_keywords. simpl.
  destruct (Py.contains "paid" all_text), (Py.contains "free trial" all_text),
    (Py.contains "freemium" all_text), (Py.contains "open source" all_text),
    (Py.contains "github" all_text); vm_compute; discriminate.
Qed.

Lemma pricing_labels_vocabulary (all_text : string) :
  Forall (fun x => x ∈ vocabulary) (pricing_labels all_text).
Proof.
  rewrite pricing_labels_eq. unfold vocabulary.
  destruct (_ && _ && _).
  - constructor; [|constructor]. apply elem_of_app. right.
    apply list_elem_of_singleton. reflexivity.
  - apply Forall_forall. intros x Hx. apply elem_of_app. left.
    eapply sublist_subseteq; [apply keyword_labels_sublist|exact Hx].
Qed.

Lemma vocabulary_truthy : Forall (fun x => x <> "") vocabulary.
Proof. repeat constructor; discriminate. Qed.

End PricingFacts.

(** ** One card *)

Module CardFacts.

Import FutureToolsScraper Props PricingFacts.

Section WithEnv.

Context (env : Env).

Lemma parse_tag (tag : node) (s : State) :
  _parse_tool_card env (PyTag tag) s =
  match name_element tag with
  | Some name_elem =>
      (Ret (Some (tool_record tag name_elem (now env (length (log s))))),
       record_event EvNow s)
  | None => (Ret None, s)
  end.
Proof.
  unfold _parse_tool_card, _parse_tool_card_try, try_except, bind, card_tag, ret.
  simpl. destruct (name_element tag); reflexivity.
Qed.

Lemma parse_no_find (s : State) : _parse_tool_card env PyNone s = (Ret None, s).
Proof. reflexivity. Qed.

(** No title link, no [h3], no [h2]: the card is skipped. *)
Lemma no_name_element_no_record (tag : node) (s : State) :
  name_element tag = None ->
  _parse_tool_card env (PyTag tag) s = (Ret None, s).
Proof. intros H. by rewrite parse_tag, H. Qed.

(** A name element is enough for a record, whatever its text. *)
Lemma name_element_text_unchecked (tag name_elem : node) (s : State) :
  name_element tag = Some name_elem ->
  exists r,
    fst (_parse_tool_card env (PyTag tag) s) = Ret (Some r)
    /\ ToolData.name r = Soup.get_text_strip name_elem.
Proof. intros H. rewrite parse_tag, H. by eexists. Qed.

(** An emitted record comes from a tag with a name element. *)
Lemma parse_emits (card : pyobj) (s : State) (r : ToolData.t) :
  fst (_parse_tool_card env card s) = Ret (Some r) ->
  exists tag name_elem,
    card = PyTag tag /\ name_element tag = Some name_elem
    /\ r = tool_record tag name_elem (now env (length (log s))).
Proof.
  destruct card as [|tag]; [discriminate|].
  rewrite parse_tag. destruct (name_element tag) as [e|] eqn:He; [|discriminate].
  simpl. intros [= <-]. by exists tag, e.
Qed.

End WithEnv.

Lemma fold_left_truthy {A} (step : list string -> A -> list string)
      (l : list A) (acc : list string) :
  (forall acc x, Forall (fun x => x <> "") acc ->
                 Forall (fun x => x <> "") (step acc x)) ->
  Forall (fun x => x <> "") acc ->
  Forall (fun x => x <> "") (fold_left step l acc).
Proof.
  intros Hstep. revert acc.
  induction l as [|x l IH]; intros acc Hacc; simpl; [done|].
  apply IH, Hstep, Hacc.
Qed.

Lemma snoc_truthy (acc : list string) (t : string) :
  Forall (fun x => x <> "") acc -> Py.truthy t = true ->
  Forall (fun x => x <> "") (acc ++ [t]).
Proof.
  intros Hacc Ht. apply Forall_app. split; [done|].
  constructor; [|constructor]. intros ->. discriminate.
Qed.

Lemma container_labels_truthy (divs : list node) :
  Forall (fun x => x <> "") (container_labels divs).
Proof.
  apply fold_left_truthy; [|constructor].
  intros acc x Hacc. cbv zeta.
  destruct (Py.truthy (Soup.get_text_strip x)) eqn:Ht; [|done].
  rewrite andb_true_l.
  destruct (negb _); [|done]. by apply snoc_truthy.
Qed.

Lemma link_labels_truthy (links : list node) :
  Forall (fun x => x <> "") (link_labels links).
Proof.
  apply fold_left_truthy; [|constructor].
  intros acc x Hacc. cbv zeta.
  destruct (Py.truthy (Soup.get_text_strip x)) eqn:Ht; [|done].
  rewrite andb_true_l.
  destruct (negb _ && negb _); [|done]. by apply snoc_truthy.
Qed.

Lemma category_labels_truthy (card : node) :
  Forall (fun x => x <> "") (category_labels card).
Proof.
  unfold category_labels.
  destruct (Soup.find "div" _ None card) as [c|].
  - destruct (Py.nonempty (container_labels _)); simpl;
      [apply container_labels_truthy|apply link_labels_truthy].
  - simpl. apply link_labels_truthy.
Qed.

End CardFacts.

(** ** Claims about one card *)

Module CardClaims.

Import FutureToolsScraper Props PricingFacts CardFacts Examples.

(** C1 (the code departs from it). A card whose title link exists and has
    no text is not skipped: [scrape_newly_added] returns a record for it
    and the record's name is the empty string. The test [if name_elem]
    asks whether the element was found, not whether it has text. *)
Theorem untitled_card_is_emitted :
  exists r,
    name_element untitled_card
      = Some (NTag "a" (Some ["tool-item-link"]) (Some "/tools/ghost") [])
    /\ fst (scrape_newly_added (static_env (page_of [untitled_card])) idle) = Ret [r]
    /\ ToolData.name r = "".
Proof. eexists. repeat split; vm_compute; reflexivity. Qed.

(** C3 (as stated, refuted). The card whose text is "Freemium, free trial
    pricing available" gets the pricing "Free Trial, Freemium", not
    "Freemium, Free Trial". *)
Lemma trial_card_pricing_order :
  exists r,
    fst (_parse_tool_card (static_env (page_of [])) (PyTag trial_card) idle)
      = Ret (Some r)
    /\ Py.lower (Soup.get_text trial_card) = "freemium, free trial pricing available"
    /\ ToolData.pricing r = "Free Trial, Freemium"
    /\ ToolData.pricing r <> "Freemium, Free Trial".
Proof. eexists. repeat split; vm_compute; (reflexivity || discriminate). Qed.

(** C3 (amended). A card whose lower-cased text contains "freemium" and
    "free trial" and none of "paid", "open source", "github" gets the
    pricing "Free Trial, Freemium": both labels, in the order of the
    keyword map, and no "Free". *)
Theorem freemium_trial_pricing (env : Env) (tag : node) (s : State) (r : ToolData.t) :
  fst (_parse_tool_card env (PyTag tag) s) = Ret (Some r) ->
  Py.contains "freemium" (Py.lower (Soup.get_text tag)) = true ->
  Py.contains "free trial" (Py.lower (Soup.get_text tag)) = true ->
  Py.contains "paid" (Py.lower (Soup.get_text tag)) = false ->
  Py.contains "open source" (Py.lower (Soup.get_text tag)) = false ->
  Py.contains "github" (Py.lower (Soup.get_text tag)) = false ->
  ToolData.pricing r = "Free Trial, Freemium".
Proof.
  intros Hr Hfm Hft Hp Hos Hgh.
  apply parse_emits in Hr as (tag' & e & [= <-] & _ & ->). simpl.
  rewrite pricing_labels_eq, keyword_labels_filter.
  unfold pricing_keywords. simpl. rewrite Hfm, Hft, Hp, Hos, Hgh. reflexivity.
Qed.

(** The card of the scenario meets the conditions. *)
Lemma freemium_trial_pricing_witness :
  exists r,
    fst (_parse_tool_card (static_env (page_of [])) (PyTag trial_card) idle)
      = Ret (Some r)
    /\ ToolData.pricing r = "Free Trial, Freemium".
Proof.
  eexists. split; [vm_compute; reflexivity|].
  apply (freemium_trial_pricing (static_env (page_of [])) trial_card idle);
    vm_compute; reflexivity.
Defined.

(** C4. In the record of a card, "Free" is among the pricing labels
    exactly when no keyword of the map occurs in the lower-cased text, the
    text contains "free" and it does not contain "free trial"; the pricing
    field then reads "Free" and reads so only then. A card whose text is
    "completely free to use" has the pricing "Free". *)
Theorem free_label_exactly (env : Env) (tag : node) (s : State) (r : ToolData.t) :
  fst (_parse_tool_card env (PyTag tag) s) = Ret (Some r) ->
  let all_text := Py.lower (Soup.get_text tag) in
  let guard := no_keyword all_text /\ Py.contains "free" all_text = true
               /\ Py.contains "free trial" all_text = false in
  ToolData.pricing r = joined_or "Check tool page" (pricing_labels all_text)
  /\ ("Free" ∈ pricing_labels all_text <-> guard)
  /\ (ToolData.pricing r = "Free" <-> guard)
  /\ (all_text = "completely free to use" -> ToolData.pricing r = "Free").
Proof.
  intros Hr all_text guard.
  apply parse_emits in Hr as (tag' & e & [= <-] & _ & ->). simpl.
  fold all_text.
  assert (Hiff : joined_or "Check tool page" (pricing_labels all_text) = "Free"
                 <-> guard).
  { unfold guard. rewrite <- free_label_iff, pricing_labels_eq.
    destruct (_ && _ && _).
    - split; [intros _; apply list_elem_of_singleton; reflexivity|reflexivity].
    - split.
      + intros H. by apply keyword_join_not_free in H.
      + intros H. exfalso. apply free_not_canonical.
        eapply sublist_subseteq; [apply keyword_labels_sublist|exact H]. }
  split; [reflexivity|]. split; [apply free_label_iff|]. split; [exact Hiff|].
  intros Htext. apply Hiff. unfold guard. rewrite Htext.
  repeat split; repeat constructor.
Qed.

(** The card whose text is "completely free to use". *)
Lemma free_label_exactly_witness :
  exists r,
    fst (_parse_tool_card (static_env (page_of [])) (PyTag free_card) idle)
      = Ret (Some r)
    /\ Py.lower (Soup.get_text free_card) = "completely free to use"
    /\ ToolData.pricing r = "Free".
Proof.
  eexists. split; [vm_compute; reflexivity|]. split; [vm_compute; reflexivity|].
  refine (proj2 (proj2 (proj2
            (free_label_exactly (static_env (page_of [])) free_card idle _ _))) _);
    vm_compute; reflexivity.
Defined.

(** C5. In every record [_parse_tool_card] emits, [categories] is
    "Uncategorized" or the join by ", " of a non-empty list of non-empty
    labels, [pricing] is "Check tool page" or the join by ", " of a
    non-empty list of labels of the vocabulary Paid, Free Trial, Freemium,
    Open Source, GitHub, Free, and neither field is the empty string. *)
Theorem emitted_fields_filled (env : Env) (card : pyobj) (s : State) (r : ToolData.t) :
  fst (_parse_tool_card env card s) = Ret (Some r) ->
  (ToolData.categories r = "Uncategorized"
   \/ exists labels, labels <> [] /\ Forall (fun x => x <> "") labels
                     /\ ToolData.categories r = Py.join ", " labels)
  /\ (ToolData.pricing r = "Check tool page"
      \/ exists labels, labels <> [] /\ Forall (fun x => x ∈ vocabulary) labels
                        /\ ToolData.pricing r = Py.join ", " labels)
  /\ ToolData.categories r <> "" /\ ToolData.pricing r <> "".
Proof.
  intros Hr. apply parse_emits in Hr as (tag & e & -> & _ & ->). simpl.
  pose proof (category_labels_truthy tag) as Hc.
  pose proof (pricing_labels_vocabulary (Py.lower (Soup.get_text tag))) as Hp.
  unfold joined_or.
  destruct (Py.nonempty (category_labels tag)) eqn:Ec,
    (Py.nonempty (pricing_labels _)) eqn:Ep;
    try apply nonempty_true in Ec; try apply nonempty_true in Ep;
    repeat split; try discriminate; try (by left);
    try (right; eexists; by repeat split);
    try (by apply join_nil_iff).
  all: apply join_nil_iff; [|done].
  all: eapply Forall_impl; [exact Hp|].
  all: intros x Hx; exact (proj1 (Forall_forall _ _) vocabulary_truthy x Hx).
Qed.

(** A card with two distinct categories and two pricing words. *)
Lemma emitted_fields_filled_witness :
  exists r,
    fst (_parse_tool_card (static_env (page_of [])) (PyTag full_card) idle)
      = Ret (Some r)
    /\ ToolData.categories r = "Chat, Productivity"
    /\ ToolData.pricing r = "Paid, GitHub"
    /\ ToolData.categories r <> "" /\ ToolData.pricing r <> "".
Proof.
  eexists. split; [vm_compute; reflexivity|].
  split; [vm_compute; reflexivity|]. split; [vm_compute; reflexivity|].
  refine (proj2 (proj2
            (emitted_fields_filled (static_env (page_of [])) (PyTag full_card) idle
               _ _))).
  vm_compute; reflexivity.
Defined.

(** C10. The pricing labels of a record are the labels of the keywords
    that occur in the card's text, listed in the order of the keyword map
    (Paid, Free Trial, Freemium, Open Source, GitHub) whatever the order of
    the keywords in the text; the only other label list is the single
    "Free". *)
Theorem pricing_order_canonical (env : Env) (card : pyobj) (s : State) (r : ToolData.t) :
  fst (_parse_tool_card env card s) = Ret (Some r) ->
  exists tag labels,
    card = PyTag tag
    /\ ToolData.pricing r = joined_or "Check tool page" labels
    /\ (labels = ["Free"]
        \/ labels = map snd (List.filter
                               (fun kl => Py.contains (fst kl) (Py.lower (Soup.get_text tag)))
                               pricing_keywords)
           /\ sublist labels canonical_labels).
Proof.
  intros Hr. apply parse_emits in Hr as (tag & e & -> & _ & ->).
  exists tag, (pricing_labels (Py.lower (Soup.get_text tag))).
  split; [reflexivity|]. split; [reflexivity|].
  rewrite pricing_labels_eq.
  destruct (_ && _ && _); [by left|right].
  split; [apply keyword_labels_filter|apply keyword_labels_sublist].
Qed.

(** "github" comes before "paid" in the text of this card, and after it
    in the pricing field. *)
Lemma pricing_order_canonical_witness :
  exists r,
    fst (_parse_tool_card (static_env (page_of [])) (PyTag full_card) idle)
      = Ret (Some r)
    /\ Py.lower (Soup.get_text full_card)
       = " scribe notes from github issues. paid plans.chatproductivitychat"
    /\ ToolData.pricing r = "Paid, GitHub"
    /\ exists tag labels,
         PyTag full_card = PyTag tag
         /\ ToolData.pricing r = joined_or "Check tool page" labels
         /\ (labels = ["Free"]
             \/ labels = map snd (List.filter
                                    (fun kl => Py.contains (fst kl)
                                                 (Py.lower (Soup.get_text tag)))
                                    pricing_keywords)
                /\ sublist labels canonical_labels).
Proof.
  eexists. split; [vm_compute; reflexivity|]. split; [vm_compute; reflexivity|].
  split; [vm_compute; reflexivity|].
  apply (pricing_order_canonical (static_env (page_of [])) (PyTag full_card) idle).
  vm_compute; reflexivity.
Defined.

End CardClaims.

(** ** The monad: what each combinator preserves *)

Module EffectFacts.

Import Props.

Create HintDb scraper discriminated.

Section Finishes.

Context {A B : Type}.

Lemma finishes_ret (a : A) : finishes (ret a).
Proof. intros s. discriminate. Qed.

Lemma finishes_raise (e : exn) : finishes (@raise A e).
Proof. intros s. discriminate. Qed.

Lemma finishes_request (ev : event) (answer : nat -> exn + A) :
  finishes (request ev answer).
Proof. intros s. unfold request. destruct (answer _); discriminate. Qed.

Lemma finishes_bind (m : M A) (k : A -> M B) :
  finishes m -> (forall a, finishes (k a)) -> finishes (bind m k).
Proof.
  intros Hm Hk s. unfold bind. specialize (Hm s).
  destruct (m s) as [[a|e|] s']; simpl in *; [apply Hk|discriminate|congruence].
Qed.

Lemma finishes_try_except (m : M A) (h : exn -> M A) :
  finishes m -> (forall e, finishes (h e)) -> finishes (try_except m h).
Proof.
  intros Hm Hh s. unfold try_except. specialize (Hm s).
  destruct (m s) as [[a|e|] s']; simpl in *; [discriminate|apply Hh|congruence].
Qed.

Lemma finishes_try_finally (m : M A) (fin : M unit) :
  finishes m -> finishes fin -> finishes (try_finally m fin).
Proof.
  intros Hm Hf s. unfold try_finally. specialize (Hm s).
  destruct (m s) as [[a|e|] s']; simpl in *; [| |congruence];
    specialize (Hf s'); destruct (fin s') as [[[]|e'|] s'']; simpl in *;
    congruence.
Qed.

End Finishes.

Lemma finishes_for_each {A} (l : list A) (body : A -> M unit) :
  (forall x, finishes (body x)) -> finishes (for_each l body).
Proof.
  intros Hb. induction l as [|x l IH]; simpl; [apply finishes_ret|].
  apply finishes_bind; [apply Hb|intros _; apply IH].
Qed.

Lemma finishes_the_driver : finishes the_driver.
Proof. intros s. unfold the_driver. destruct (driver s); discriminate. Qed.

Lemma finishes_set_tools l : finishes (set_tools l).
Proof. intros s. discriminate. Qed.

Lemma finishes_append_tool t : finishes (append_tool t).
Proof. intros s. discriminate. Qed.

Lemma finishes_get_tools : finishes get_tools.
Proof. intros s. discriminate. Qed.

#[export] Hint Resolve finishes_ret finishes_raise finishes_request finishes_bind
  finishes_try_except finishes_try_finally finishes_for_each finishes_the_driver
  finishes_set_tools finishes_append_tool finishes_get_tools : scraper.

Section KeepsSessions.

Context {A B : Type}.

Lemma sessions_ret (a : A) : keeps_sessions (ret a).
Proof. by intros s. Qed.

Lemma sessions_raise (e : exn) : keeps_sessions (@raise A e).
Proof. by intros s. Qed.

Lemma sessions_request (ev : event) (answer : nat -> exn + A) :
  keeps_sessions (request ev answer).
Proof. intros s. unfold request. by destruct (answer _). Qed.

Lemma sessions_bind (m : M A) (k : A -> M B) :
  keeps_sessions m -> (forall a, keeps_sessions (k a)) -> keeps_sessions (bind m k).
Proof.
  intros Hm Hk s. unfold bind. destruct (Hm s) as [Hd Hl].
  destruct (m s) as [[a|e|] s']; simpl in *; [|done..].
  destruct (Hk a s') as [Hd' Hl']. split; congruence.
Qed.

Lemma sessions_try_except (m : M A) (h : exn -> M A) :
  keeps_sessions m -> (forall e, keeps_sessions (h e)) ->
  keeps_sessions (try_except m h).
Proof.
  intros Hm Hh s. unfold try_except. destruct (Hm s) as [Hd Hl].
  destruct (m s) as [[a|e|] s']; simpl in *; [done| |done].
  destruct (Hh e s') as [Hd' Hl']. split; congruence.
Qed.

End KeepsSessions.

Lemma sessions_for_each {A} (l : list A) (body : A -> M unit) :
  (forall x, keeps_sessions (body x)) -> keeps_sessions (for_each l body).
Proof.
  intros Hb. induction l as [|x l IH]; simpl; [by intros s|].
  apply sessions_bind; [apply Hb|intros _; apply IH].
Qed.

Lemma sessions_the_driver : keeps_sessions the_driver.
Proof. intros s. unfold the_driver. by destruct (driver s) eqn:E. Qed.

Lemma sessions_set_tools l : keeps_sessions (set_tools l).
Proof. by intros s. Qed.

Lemma sessions_append_tool t : keeps_sessions (append_tool t).
Proof. by intros s. Qed.

Lemma sessions_get_tools : keeps_sessions get_tools.
Proof. by intros s. Qed.

#[export] Hint Resolve sessions_ret sessions_raise sessions_request sessions_bind
  sessions_try_except sessions_for_each sessions_the_driver sessions_set_tools
  sessions_append_tool sessions_get_tools : scraper.

Section KeepsTools.

Context {A B : Type}.

Lemma tools_ret (a : A) : keeps_tools (ret a).
Proof. by intros s. Qed.

Lemma tools_raise (e : exn) : keeps_tools (@raise A e).
Proof. by intros s. Qed.

Lemma tools_request (ev : event) (answer : nat -> exn + A) :
  keeps_tools (request ev answer).
Proof. intros s. unfold request. by destruct (answer _). Qed.

Lemma tools_bind (m : M A) (k : A -> M B) :
  keeps_tools m -> (forall a, keeps_tools (k a)) -> keeps_tools (bind m k).
Proof.
  intros Hm Hk s. unfold bind. specialize (Hm s).
  destruct (m s) as [[a|e|] s']; simpl in *; [|done..].
  rewrite Hk. done.
Qed.

Lemma tools_try_except (m : M A) (h : exn -> M A) :
  keeps_tools m -> (forall e, keeps_tools (h e)) -> keeps_tools (try_except m h).
Proof.
  intros Hm Hh s. unfold try_except. specialize (Hm s).
  destruct (m s) as [[a|e|] s']; simpl in *; [done| |done].
  rewrite Hh. done.
Qed.

End KeepsTools.

Lemma tools_the_driver : keeps_tools the_driver.
Proof. intros s. unfold the_driver. by destruct (driver s). Qed.

#[export] Hint Resolve tools_ret tools_raise tools_request tools_bind
  tools_try_except tools_the_driver : scraper.

Section ScrollBound.

Context {A B : Type}.

Lemma scrolls_weaken (n n' : nat) (m : M A) :
  n <= n' -> scrolls_at_most n m -> scrolls_at_most n' m.
Proof. intros Hle Hm s. specialize (Hm s). lia. Qed.

Lemma scrolls_ret (a : A) : scrolls_at_most 0 (ret a).
Proof. intros s. simpl. lia. Qed.

Lemma scrolls_request (ev : event) (answer : nat -> exn + A) :
  scrolls_at_most (if is_scroll ev then 1 else 0) (request ev answer).
Proof.
  intros s. unfold request, scroll_count.
  destruct (answer _); simpl; destruct (is_scroll ev); simpl; lia.
Qed.

Lemma scrolls_bind (n1 n2 : nat) (m : M A) (k : A -> M B) :
  scrolls_at_most n1 m -> (forall a, scrolls_at_most n2 (k a)) ->
  scrolls_at_most (n1 + n2) (bind m k).
Proof.
  intros Hm Hk s. unfold bind. specialize (Hm s).
  destruct (m s) as [[a|e|] s']; simpl in *; [|lia..].
  specialize (Hk a s'). lia.
Qed.

Lemma scrolls_try_except (n1 n2 : nat) (m : M A) (h : exn -> M A) :
  scrolls_at_most n1 m -> (forall e, scrolls_at_most n2 (h e)) ->
  scrolls_at_most (n1 + n2) (try_except m h).
Proof.
  intros Hm Hh s. unfold try_except. specialize (Hm s).
  destruct (m s) as [[a|e|] s']; simpl in *; [lia| |lia].
  specialize (Hh e s'). lia.
Qed.

End ScrollBound.

Lemma scrolls_the_driver : scrolls_at_most 0 the_driver.
Proof. intros s. unfold the_driver. destruct (driver s); simpl; lia. Qed.

(** Two continuations that agree give the same computation. *)
Lemma bind_ext {A B} (m : M A) (k1 k2 : A -> M B) (s : State) :
  (forall a s', k1 a s' = k2 a s') -> bind m k1 s = bind m k2 s.
Proof. intros H. unfold bind. destruct (m s) as [[a|e|] s']; auto. Qed.

Lemma bind_assoc {A B C} (m : M A) (f : A -> M B) (g : B -> M C) (s : State) :
  bind (bind m f) g s = bind m (fun a => bind (f a) g) s.
Proof. unfold bind. by destruct (m s) as [[a|e|] s']. Qed.

(** A block guarded by [except Exception] with a handler that only logs
    returns whenever the block comes back. *)
Lemma guarded_run (m : M unit) (s : State) :
  fst (m s) <> Diverge ->
  try_except m (fun _ => ret tt) s = (Ret tt, snd (m s)).
Proof.
  unfold try_except. destruct (m s) as [[[]|e|] s']; simpl; intros H; done.
Qed.

End EffectFacts.

(** ** The methods of the scraper *)

Module ScraperFacts.

Import FutureToolsScraper Props EffectFacts CardFacts.

Section WithEnv.

Context (env : Env).

Lemma finishes_driver_request {A} ev (answer : nat -> exn + A) :
  finishes (driver_request ev answer).
Proof. unfold driver_request. auto with scraper. Qed.

Lemma sessions_driver_request {A} ev (answer : nat -> exn + A) :
  keeps_sessions (driver_request ev answer).
Proof. unfold driver_request. auto with scraper. Qed.

Lemma tools_driver_request {A} ev (answer : nat -> exn + A) :
  keeps_tools (driver_request ev answer).
Proof. unfold driver_request. auto with scraper. Qed.

Lemma scrolls_driver_request {A} ev (answer : nat -> exn + A) :
  scrolls_at_most (if is_scroll ev then 1 else 0) (driver_request ev answer).
Proof.
  unfold driver_request.
  apply (scrolls_bind 0 _ the_driver); [apply scrolls_the_driver|].
  intros _. apply scrolls_request.
Qed.

Hint Resolve finishes_driver_request sessions_driver_request
  tools_driver_request : scraper.

(** *** The load-more attempt *)

Lemma finishes_try_load_more : finishes (try_load_more env).
Proof.
  unfold try_load_more. apply finishes_try_except; [|auto with scraper].
  apply finishes_bind; [auto with scraper|]. intros [|first rest]; [auto with scraper|].
  apply finishes_bind; [auto with scraper|]. intros []; auto 6 with scraper.
Qed.

Lemma sessions_try_load_more : keeps_sessions (try_load_more env).
Proof.
  unfold try_load_more. apply sessions_try_except; [|auto with scraper].
  apply sessions_bind; [auto with scraper|]. intros [|first rest]; [auto with scraper|].
  apply sessions_bind; [auto with scraper|]. intros []; auto 6 with scraper.
Qed.

Lemma tools_try_load_more : keeps_tools (try_load_more env).
Proof.
  unfold try_load_more. apply tools_try_except; [|auto with scraper].
  apply tools_bind; [auto with scraper|]. intros [|first rest]; [auto with scraper|].
  apply tools_bind; [auto with scraper|]. intros []; auto 6 with scraper.
Qed.

Lemma scrolls_try_load_more : scrolls_at_most 0 (try_load_more env).
Proof.
  unfold try_load_more.
  apply (scrolls_try_except 0 0); [|intros _; apply scrolls_ret].
  apply (scrolls_bind 0 0); [apply (scrolls_driver_request EvFindButtons)|].
  intros [|first rest]; [apply scrolls_ret|].
  apply (scrolls_bind 0 0); [apply (scrolls_request (EvDisplayed first))|].
  intros []; [|apply scrolls_ret].
  apply (scrolls_bind 0 0); [apply (scrolls_request (EvClick first))|]. intros _.
  apply (scrolls_bind 0 0); [apply (scrolls_driver_request EvHeight)|]. intros h.
  apply scrolls_ret.
Qed.

Section LoadMore.

Context (s : State) (d : nat).
Context (Hdriver : driver s = Some d).

(** No control to click: the attempt says [break]; nothing was scrolled
    or clicked. *)
Lemma load_more_none :
  clickable env (length (log s)) = None ->
  exists s',
    try_load_more env s = (Ret Break, s')
    /\ driver s' = driver s
    /\ scroll_count (log s') = scroll_count (log s)
    /\ List.filter is_click (log s') = List.filter is_click (log s).
Proof.
  unfold clickable, try_load_more, try_except, bind, driver_request, bind,
    the_driver, request.
  rewrite Hdriver. simpl.
  destruct (find_buttons env _) as [e|[|first rest]]; simpl;
    [intros _; eexists; by repeat split..|].
  destruct (is_displayed env _ first) as [e|[|]]; simpl;
    [|discriminate|]; intros _; eexists; by repeat split.
Qed.

(** The first control is displayed and the click goes through: the height
    is read again and the counter restarts at zero. *)
Lemma load_more_click (first : nat) (h : Z) :
  clickable env (length (log s)) = Some first ->
  click env (S (S (length (log s)))) first = inr tt ->
  scroll_height env (S (S (S (length (log s))))) = inr h ->
  try_load_more env s
  = (Ret (Next h 0),
     after [EvHeight; EvClick first; EvDisplayed first; EvFindButtons] s).
Proof.
  unfold clickable, try_load_more, try_except, bind, driver_request, bind,
    the_driver, request.
  rewrite Hdriver. simpl.
  destruct (find_buttons env _) as [e|[|b rest]]; simpl; try discriminate.
  destruct (is_displayed env _ b) as [e|[|]]; simpl; try discriminate.
  intros [= ->] Hclick Hh. rewrite Hclick. simpl. rewrite Hdriver. simpl.
  rewrite Hh. reflexivity.
Qed.

(** The click, or the reading of the height after it, raises: [break]. *)
Lemma load_more_click_fails (first : nat) (e : exn) :
  clickable env (length (log s)) = Some first ->
  click env (S (S (length (log s)))) first = inl e
  \/ click env (S (S (length (log s)))) first = inr tt
     /\ scroll_height env (S (S (S (length (log s))))) = inl e ->
  exists s',
    try_load_more env s = (Ret Break, s')
    /\ scroll_count (log s') = scroll_count (log s).
Proof.
  unfold clickable, try_load_more, try_except, bind, driver_request, bind,
    the_driver, request.
  rewrite Hdriver. simpl.
  destruct (find_buttons env _) as [e'|[|b rest]]; simpl; try discriminate.
  destruct (is_displayed env _ b) as [e'|[|]]; simpl; try discriminate.
  intros [= ->] [Hclick|[Hclick Hh]]; rewrite Hclick; simpl.
  - eexists. by split.
  - rewrite Hdriver. simpl. rewrite Hh. eexists. by split.
Qed.

End LoadMore.

(** *** The scroll loop *)

Lemma finishes_scroll_loop (fuel : nat) (max_scrolls scrolls nc last : Z) :
  (Z.to_nat (max_scrolls - scrolls) <= fuel)%nat ->
  finishes (scroll_loop env fuel max_scrolls scrolls nc last).
Proof.
  revert scrolls nc last.
  induction fuel as [|fuel IH]; intros scrolls nc last Hfuel; simpl;
    destruct (Z.ltb_spec scrolls max_scrolls) as [Hlt|Hge];
    try apply finishes_ret; [lia|].
  apply finishes_bind; [auto with scraper|]. intros _.
  apply finishes_bind; [auto with scraper|]. intros new_height.
  apply finishes_bind.
  - destruct (new_height =? last)%Z; [|auto with scraper].
    destruct (nc + 1 >=? 3)%Z; [apply finishes_try_load_more|auto with scraper].
  - intros [|h c]; [auto with scraper|]. apply IH. lia.
Qed.

Lemma sessions_scroll_loop (fuel : nat) (max_scrolls scrolls nc last : Z) :
  keeps_sessions (scroll_loop env fuel max_scrolls scrolls nc last).
Proof.
  revert scrolls nc last.
  induction fuel as [|fuel IH]; intros scrolls nc last; simpl;
    destruct (scrolls <? max_scrolls)%Z; try apply sessions_ret; [by intros s|].
  apply sessions_bind; [auto with scraper|]. intros _.
  apply sessions_bind; [auto with scraper|]. intros new_height.
  apply sessions_bind.
  - destruct (new_height =? last)%Z; [|auto with scraper].
    destruct (nc + 1 >=? 3)%Z; [apply sessions_try_load_more|auto with scraper].
  - intros [|h c]; [auto with scraper|]. apply IH.
Qed.

Lemma tools_scroll_loop (fuel : nat) (max_scrolls scrolls nc last : Z) :
  keeps_tools (scroll_loop env fuel max_scrolls scrolls nc last).
Proof.
  revert scrolls nc last.
  induction fuel as [|fuel IH]; intros scrolls nc last; simpl;
    destruct (scrolls <? max_scrolls)%Z; try apply tools_ret; [by intros s|].
  apply tools_bind; [auto with scraper|]. intros _.
  apply tools_bind; [auto with scraper|]. intros new_height.
  apply tools_bind.
  - destruct (new_height =? last)%Z; [|auto with scraper].
    destruct (nc + 1 >=? 3)%Z; [apply tools_try_load_more|auto with scraper].
  - intros [|h c]; [auto with scraper|]. apply IH.
Qed.

Lemma scrolls_scroll_loop (fuel : nat) (max_scrolls scrolls nc last : Z) :
  scrolls_at_most (Z.to_nat (max_scrolls - scrolls))
    (scroll_loop env fuel max_scrolls scrolls nc last).
Proof.
  revert scrolls nc last.
  induction fuel as [|fuel IH]; intros scrolls nc last; simpl;
    destruct (Z.ltb_spec scrolls max_scrolls) as [Hlt|Hge];
    try (eapply scrolls_weaken; [|apply scrolls_ret]; lia);
    [intros s; simpl; lia|].
  apply (scrolls_weaken (1 + (0 + (0 + Z.to_nat (max_scrolls - (scrolls + 1)))))); [lia|].
  apply scrolls_bind; [apply (scrolls_driver_request EvScroll)|]. intros _.
  apply scrolls_bind; [apply (scrolls_driver_request EvHeight)|]. intros new_height.
  apply scrolls_bind.
  - destruct (new_height =? last)%Z; [|apply scrolls_ret].
    destruct (nc + 1 >=? 3)%Z; [apply scrolls_try_load_more|apply scrolls_ret].
  - intros [|h c]; [eapply scrolls_weaken; [|apply scrolls_ret]; lia|]. apply IH.
Qed.

(** Fuel beyond the scroll budget changes nothing. *)
Lemma scroll_loop_fuel (fuel1 fuel2 : nat) (max_scrolls scrolls nc last : Z) (s : State) :
  (Z.to_nat (max_scrolls - scrolls) <= fuel1)%nat ->
  (Z.to_nat (max_scrolls - scrolls) <= fuel2)%nat ->
  scroll_loop env fuel1 max_scrolls scrolls nc last s
  = scroll_loop env fuel2 max_scrolls scrolls nc last s.
Proof.
  revert fuel2 scrolls nc last s.
  induction fuel1 as [|fuel1 IH]; intros [|fuel2] scrolls nc last s H1 H2; simpl;
    destruct (Z.ltb_spec scrolls max_scrolls) as [Hlt|Hge];
    try reflexivity; try lia.
  apply bind_ext. intros _ s1. apply bind_ext. intros new_height s2.
  apply bind_ext. intros [|h c] s3; [reflexivity|]. apply IH; lia.
Qed.

(** *** One turn of the loop *)

Section Turn.

Context (fuel : nat) (max_scrolls scrolls nc last new : Z) (s : State) (d : nat).
Context (Hdriver : driver s = Some d).
Context (Hbudget : (scrolls < max_scrolls)%Z).
Context (Hscroll : scroll_to_bottom env (length (log s)) = inr tt).
Context (Hheight : scroll_height env (S (length (log s))) = inr new).

(** A turn whose two requests succeed: the page is scrolled, the height is
    read, and the three branches of the source follow. *)
Lemma turn :
  scroll_loop env (S fuel) max_scrolls scrolls nc last s
  = (ctl <- (if (new =? last)%Z then
               if (nc + 1 >=? 3)%Z then try_load_more env
               else ret (Next new (nc + 1))
             else ret (Next new 0)) ;;
     match ctl with
     | Break => ret tt
     | Next new_height no_change_count =>
         scroll_loop env fuel max_scrolls (scrolls + 1) no_change_count new_height
     end) (after [EvHeight; EvScroll] s).
Proof.
  cbn [scroll_loop].
  destruct (Z.ltb_spec scrolls max_scrolls) as [_|?]; [|lia].
  unfold driver_request at 1 2. unfold bind at 1 2 3 4. unfold the_driver at 1.
  rewrite Hdriver. unfold request at 1. rewrite Hscroll.
  unfold the_driver at 1. simpl driver. rewrite Hdriver.
  unfold request at 1. simpl log. simpl length. rewrite Hheight.
  reflexivity.
Qed.

(** The height changed: the counter restarts. *)
Lemma turn_changed :
  new <> last ->
  scroll_loop env (S fuel) max_scrolls scrolls nc last s
  = scroll_loop env fuel max_scrolls (scrolls + 1) 0 new
      (after [EvHeight; EvScroll] s).
Proof.
  intros Hne. rewrite turn.
  destruct (Z.eqb_spec new last) as [?|_]; [done|]. reflexivity.
Qed.

(** The height stood still, for less than the third time in a row: the
    counter goes up by one. *)
Lemma turn_still :
  new = last -> (nc + 1 < 3)%Z ->
  scroll_loop env (S fuel) max_scrolls scrolls nc last s
  = scroll_loop env fuel max_scrolls (scrolls + 1) (nc + 1) new
      (after [EvHeight; EvScroll] s).
Proof.
  intros Heq Hlt. rewrite turn.
  destruct (Z.eqb_spec new last) as [_|?]; [|done].
  destruct (Z.geb_spec (nc + 1) 3) as [?|_]; [lia|]. reflexivity.
Qed.

(** The height stood still for the third time in a row: the load-more
    attempt decides. *)
Lemma turn_stalled :
  new = last -> (nc + 1 >= 3)%Z ->
  scroll_loop env (S fuel) max_scrolls scrolls nc last s
  = (ctl <- try_load_more env ;;
     match ctl with
     | Break => ret tt
     | Next new_height no_change_count =>
         scroll_loop env fuel max_scrolls (scrolls + 1) no_change_count new_height
     end) (after [EvHeight; EvScroll] s).
Proof.
  intros Heq Hge. rewrite turn.
  destruct (Z.eqb_spec new last) as [_|?]; [|done].
  destruct (Z.geb_spec (nc + 1) 3) as [_|?]; [|lia]. reflexivity.
Qed.

End Turn.

Lemma finishes_scroll_to_load_all (max_scrolls : Z) :
  finishes (_scroll_to_load_all env max_scrolls).
Proof.
  unfold _scroll_to_load_all. apply finishes_bind; [auto with scraper|].
  intros last. apply finishes_scroll_loop. lia.
Qed.

Lemma sessions_scroll_to_load_all (max_scrolls : Z) :
  keeps_sessions (_scroll_to_load_all env max_scrolls).
Proof.
  unfold _scroll_to_load_all. apply sessions_bind; [auto with scraper|].
  intros last. apply sessions_scroll_loop.
Qed.

Lemma tools_scroll_to_load_all (max_scrolls : Z) :
  keeps_tools (_scroll_to_load_all env max_scrolls).
Proof.
  unfold _scroll_to_load_all. apply tools_bind; [auto with scraper|].
  intros last. apply tools_scroll_loop.
Qed.

Lemma scrolls_scroll_to_load_all (max_scrolls : Z) :
  scrolls_at_most (Z.to_nat max_scrolls) (_scroll_to_load_all env max_scrolls).
Proof.
  unfold _scroll_to_load_all.
  apply (scrolls_bind 0 (Z.to_nat max_scrolls)
           (driver_request EvHeight (scroll_height env)));
    [apply (scrolls_driver_request EvHeight)|].
  intros last. eapply scrolls_weaken; [|apply scrolls_scroll_loop]. lia.
Qed.

End WithEnv.

#[export] Hint Resolve finishes_driver_request sessions_driver_request
  tools_driver_request finishes_try_load_more sessions_try_load_more
  tools_try_load_more finishes_scroll_to_load_all sessions_scroll_to_load_all
  tools_scroll_to_load_all : scraper.

End ScraperFacts.

(** ** Claims about the scroll loop *)

Module ScrollClaims.

Import FutureToolsScraper Props EffectFacts ScraperFacts Examples.

(** C7 (as stated, refuted). A page that stands still shows two load-more
    controls; the second is displayed at all times, the first is hidden.
    The loop looks at the first control only: it stops after three scrolls
    of a budget of ten and clicks nothing. *)
Lemma hidden_first_control_not_clicked :
  (forall t, find_buttons hidden_first_env t = inr [1; 2])
  /\ (forall t, is_displayed hidden_first_env t 2 = inr true)
  /\ fst (_scroll_to_load_all hidden_first_env 10 session_open) = Ret tt
  /\ log (snd (_scroll_to_load_all hidden_first_env 10 session_open))
     = [EvDisplayed 1; EvFindButtons; EvHeight; EvScroll; EvHeight; EvScroll;
        EvHeight; EvScroll; EvHeight].
Proof. repeat split. Qed.

(** C7 (amended). [_scroll_to_load_all] always comes back (fuel beyond the
    budget changes nothing) and asks for at most [max_scrolls] scrolls. The
    counter counts the scroll attempts in a row that left the height as it
    was: a changed height restarts it, an unchanged one adds one. In a turn
    where the height stands still for the third time in a row:
    - when no control is located, or the first one located is not
      displayed, or looking for it fails, the loop ends at once, with no
      click;
    - when the first control located is displayed and the click and the
      reading of the height after it succeed, there is that one click, the
      counter restarts at zero and the loop goes on with the next turn;
    - when the click or the reading after it raises, the loop ends. *)
Theorem scroll_loop_bounded_and_stable (env : Env) (max_scrolls : Z) :
  (forall s, fst (_scroll_to_load_all env max_scrolls s) <> Diverge)
  /\ (forall fuel last s,
        (Z.to_nat max_scrolls <= fuel)%nat ->
        scroll_loop env fuel max_scrolls 0 0 last s
        = scroll_loop env (Z.to_nat max_scrolls) max_scrolls 0 0 last s)
  /\ (forall s,
        (scroll_count (log (snd (_scroll_to_load_all env max_scrolls s)))
         <= scroll_count (log s) + Z.to_nat max_scrolls)%nat)
  /\ (forall fuel scrolls nc last new s d,
        driver s = Some d ->
        (scrolls < max_scrolls)%Z ->
        scroll_to_bottom env (length (log s)) = inr tt ->
        scroll_height env (S (length (log s))) = inr new ->
        (new <> last ->
         scroll_loop env (S fuel) max_scrolls scrolls nc last s
         = scroll_loop env fuel max_scrolls (scrolls + 1) 0 new
             (after [EvHeight; EvScroll] s))
        /\ (new = last -> (nc + 1 < 3)%Z ->
            scroll_loop env (S fuel) max_scrolls scrolls nc last s
            = scroll_loop env fuel max_scrolls (scrolls + 1) (nc + 1) new
                (after [EvHeight; EvScroll] s))
        /\ (new = last -> (nc + 1 >= 3)%Z ->
            (clickable env (S (S (length (log s)))) = None ->
             exists s',
               scroll_loop env (S fuel) max_scrolls scrolls nc last s = (Ret tt, s')
               /\ scroll_count (log s') = S (scroll_count (log s))
               /\ List.filter is_click (log s') = List.filter is_click (log s))
            /\ (forall first h,
                  clickable env (S (S (length (log s)))) = Some first ->
                  click env (S (S (S (S (length (log s)))))) first = inr tt ->
                  scroll_height env (S (S (S (S (S (length (log s))))))) = inr h ->
                  scroll_loop env (S fuel) max_scrolls scrolls nc last s
                  = scroll_loop env fuel max_scrolls (scrolls + 1) 0 h
                      (after [EvHeight; EvClick first; EvDisplayed first;
                              EvFindButtons; EvHeight; EvScroll] s))
            /\ (forall first e,
                  clickable env (S (S (length (log s)))) = Some first ->
                  click env (S (S (S (S (length (log s)))))) first = inl e
                  \/ click env (S (S (S (S (length (log s)))))) first = inr tt
                     /\ scroll_height env (S (S (S (S (S (length (log s)))))))
                        = inl e ->
                  exists s',
                    scroll_loop env (S fuel) max_scrolls scrolls nc last s
                    = (Ret tt, s')
                    /\ scroll_count (log s') = S (scroll_count (log s))))).
Proof.
  split; [apply finishes_scroll_to_load_all|].
  split; [intros fuel last s Hfuel; apply scroll_loop_fuel; lia|].
  split; [apply scrolls_scroll_to_load_all|].
  intros fuel scrolls nc last new s d Hd Hlt Hscroll Hheight.
  split; [by apply (turn_changed env _ _ _ _ _ _ _ d)|].
  split; [by apply (turn_still env _ _ _ _ _ _ _ d)|].
  intros Heq Hstalled.
  rewrite (turn_stalled env fuel max_scrolls scrolls nc last new s d) by assumption.
  assert (Hd' : driver (after [EvHeight; EvScroll] s) = Some d) by exact Hd.
  split; [|split].
  - intros Hnone.
    destruct (load_more_none env _ d Hd' Hnone) as (s' & Hrun & _ & Hcount & Hclicks).
    exists s'. unfold bind. rewrite Hrun. by repeat split.
  - intros first h Hsome Hclick Hh.
    unfold bind. rewrite (load_more_click env _ d Hd' first h) by assumption.
    reflexivity.
  - intros first e Hsome Hfail.
    destruct (load_more_click_fails env _ d Hd' first e Hsome Hfail)
      as (s' & Hrun & Hcount).
    exists s'. unfold bind. rewrite Hrun. by split.
Qed.

(** A third still turn in a row, on a page without a control (the loop
    ends) and on a page with one visible control (it is clicked and the
    loop goes on). *)
Lemma scroll_loop_bounded_and_stable_witness :
  (exists s',
     scroll_loop (static_env (page_of [])) 8 10 2 2 1080 session_open = (Ret tt, s')
     /\ scroll_count (log s') = S (scroll_count (log session_open))
     /\ List.filter is_click (log s') = List.filter is_click (log session_open))
  /\ scroll_loop load_more_env 8 10 2 2 1080 session_open
     = scroll_loop load_more_env 7 10 (2 + 1) 0 1080
         (after [EvHeight; EvClick 7; EvDisplayed 7; EvFindButtons; EvHeight; EvScroll]
            session_open).
Proof.
  split.
  - destruct (scroll_loop_bounded_and_stable (static_env (page_of [])) 10)
      as (_ & _ & _ & Hturn).
    destruct (Hturn 7%nat 2%Z 2%Z 1080%Z 1080%Z session_open 0%nat)
      as (_ & _ & Hstalled); [reflexivity|lia|reflexivity|reflexivity|].
    destruct Hstalled as (Hstop & _); [reflexivity|lia|].
    apply Hstop. reflexivity.
  - destruct (scroll_loop_bounded_and_stable load_more_env 10)
      as (_ & _ & _ & Hturn).
    destruct (Hturn 7%nat 2%Z 2%Z 1080%Z 1080%Z session_open 0%nat)
      as (_ & _ & Hstalled); [reflexivity|lia|reflexivity|reflexivity|].
    destruct Hstalled as (_ & Hclick & _); [reflexivity|lia|].
    apply Hclick; reflexivity.
Defined.

(** The scenario of the specification: the height stands still for three
    scrolls in a row and there is nothing to click; the loop stops after
    those three scrolls, whatever the budget beyond three. *)
Lemma still_page_stops_after_three (env : Env) (max_scrolls h : Z) (s : State) (d : nat) :
  driver s = Some d ->
  (3 <= max_scrolls)%Z ->
  scroll_height env (length (log s)) = inr h ->
  scroll_to_bottom env (1 + length (log s)) = inr tt ->
  scroll_height env (2 + length (log s)) = inr h ->
  scroll_to_bottom env (3 + length (log s)) = inr tt ->
  scroll_height env (4 + length (log s)) = inr h ->
  scroll_to_bottom env (5 + length (log s)) = inr tt ->
  scroll_height env (6 + length (log s)) = inr h ->
  clickable env (7 + length (log s)) = None ->
  exists s',
    _scroll_to_load_all env max_scrolls s = (Ret tt, s')
    /\ scroll_count (log s') = (3 + scroll_count (log s))%nat
    /\ List.filter is_click (log s') = List.filter is_click (log s).
Proof.
  intros Hd Hmax H0 S1 H1 S2 H2 S3 H3 Hnone.
  unfold _scroll_to_load_all, bind, driver_request, bind, the_driver, request.
  rewrite Hd, H0.
  destruct (Z.to_nat max_scrolls) as [|[|[|fuel]]] eqn:Efuel; try lia.
  set (s1 := record_event EvHeight s).
  rewrite (turn_still env _ max_scrolls 0 0 h h s1 d) by (done || lia).
  rewrite (turn_still env _ max_scrolls (0 + 1) (0 + 1) h h _ d) by (done || lia).
  rewrite (turn_stalled env _ max_scrolls (0 + 1 + 1) (0 + 1 + 1) h h _ d)
    by (done || lia).
  unfold bind.
  match goal with
  | |- context [try_load_more env ?st] =>
      destruct (load_more_none env st d) as (s' & -> & _ & Hcount & Hclicks);
        [exact Hd|exact Hnone|]
  end.
  exists s'. split; [reflexivity|]. by split.
Qed.

End ScrollClaims.

(** ** A batch of cards and the skeleton of a scrape *)

Module BatchFacts.

Import FutureToolsScraper Props EffectFacts CardFacts ScraperFacts.

Section WithEnv.

Context (env : Env).

(** [_parse_tool_card] always returns; it asks for the time when it emits
    a record and for nothing else. *)
Lemma parse_run (card : pyobj) (s : State) :
  exists o,
    _parse_tool_card env card s
    = (Ret o, match o with Some _ => record_event EvNow s | None => s end).
Proof.
  destruct card as [|tag]; [by exists None|].
  rewrite parse_tag. destruct (name_element tag) as [e|]; [|by exists None].
  by exists (Some (tool_record tag e (now env (length (log s))))).
Qed.

Lemma finishes_parse (card : pyobj) : finishes (_parse_tool_card env card).
Proof. intros s. destruct (parse_run card s) as [o ->]. discriminate. Qed.

Lemma sessions_parse (card : pyobj) : keeps_sessions (_parse_tool_card env card).
Proof. intros s. destruct (parse_run card s) as [[r|] ->]; by split. Qed.

Lemma tools_parse (card : pyobj) : keeps_tools (_parse_tool_card env card).
Proof. intros s. by destruct (parse_run card s) as [[r|] ->]. Qed.

Hint Resolve finishes_parse sessions_parse : scraper.

Lemma finishes_parse_all (cards : list pyobj) : finishes (parse_all env cards).
Proof.
  apply finishes_for_each. intros card.
  apply finishes_bind; [auto with scraper|]. intros []; auto with scraper.
Qed.

Lemma sessions_parse_all (cards : list pyobj) : keeps_sessions (parse_all env cards).
Proof.
  apply sessions_for_each. intros card.
  apply sessions_bind; [auto with scraper|]. intros []; auto with scraper.
Qed.

Lemma finishes_parse_matching c p (cards : list pyobj) :
  finishes (parse_matching env c p cards).
Proof.
  apply finishes_for_each. intros card.
  apply finishes_bind; [auto with scraper|]. intros [t|]; [|auto with scraper].
  destruct (_ && _ && _); [auto with scraper|].
  destruct (_ && _); auto with scraper.
Qed.

Lemma sessions_parse_matching c p (cards : list pyobj) :
  keeps_sessions (parse_matching env c p cards).
Proof.
  apply sessions_for_each. intros card.
  apply sessions_bind; [auto with scraper|]. intros [t|]; [|auto with scraper].
  destruct (_ && _ && _); [auto with scraper|].
  destruct (_ && _); auto with scraper.
Qed.

(** A loop over cards never raises: every turn returns. *)
Lemma for_each_returns {A} (l : list A) (body : A -> M unit) (s : State) :
  (forall x s, exists s', body x s = (Ret tt, s')) ->
  exists s', for_each l body s = (Ret tt, s').
Proof.
  intros Hb. revert s. induction l as [|x l IH]; intros s; simpl; [by eexists|].
  unfold bind. destruct (Hb x s) as [s' ->]. apply IH.
Qed.

Lemma for_each_app {A} (l1 l2 : list A) (body : A -> M unit) (s s1 : State) :
  for_each l1 body s = (Ret tt, s1) ->
  for_each (l1 ++ l2) body s = for_each l2 body s1.
Proof.
  revert s. induction l1 as [|x l1 IH]; intros s; simpl.
  - by intros [= ->].
  - unfold bind. destruct (body x s) as [[[]|e|] s']; try discriminate. apply IH.
Qed.

Lemma parse_all_returns (cards : list pyobj) (s : State) :
  exists s', parse_all env cards s = (Ret tt, s').
Proof.
  apply for_each_returns. intros card s0. unfold bind.
  destruct (parse_run card s0) as [[r|] ->]; by eexists.
Qed.

(** *** One turn of the card loops *)

Lemma parse_all_cons (card : pyobj) (cards : list pyobj) (s : State) :
  parse_all env (card :: cards) s
  = match card with
    | PyNone => parse_all env cards s
    | PyTag tag =>
        match name_element tag with
        | None => parse_all env cards s
        | Some name_elem =>
            parse_all env cards
              (emit (tool_record tag name_elem (now env (length (log s)))) s)
        end
    end.
Proof.
  unfold parse_all. simpl. unfold bind at 1 2.
  destruct card as [|tag]; [reflexivity|].
  rewrite parse_tag. by destruct (name_element tag).
Qed.

(** The [try] block raises on no tag: it needs [card.find]. *)
Lemma try_block_raises (card : pyobj) (s s' : State) (e : exn) :
  _parse_tool_card_try env card s = (Raise e, s') -> card = PyNone /\ s' = s.
Proof.
  destruct card as [|tag]; [by intros [= _ <-]|].
  unfold _parse_tool_card_try, bind, card_tag, ret. simpl.
  destruct (name_element tag); discriminate.
Qed.

Lemma try_block_tag (tag : node) (s : State) :
  exists o s', _parse_tool_card_try env (PyTag tag) s = (Ret o, s').
Proof.
  unfold _parse_tool_card_try, bind, card_tag, ret. simpl.
  destruct (name_element tag); by eexists _, _.
Qed.

(** The records a batch appends are those of its cards, in their order. *)
Lemma parse_all_records (cards : list pyobj) (s : State) :
  exists new s',
    parse_all env cards s = (Ret tt, s')
    /\ tools s' = tools s ++ new
    /\ Forall2 same_fields new (omap MoreProps.card_record cards).
Proof.
  revert s. induction cards as [|card cards IH]; intros s.
  - exists [], s. rewrite app_nil_r. by repeat split; constructor.
  - rewrite parse_all_cons. destruct card as [|tag]; [apply IH|].
    cbn [omap list_omap MoreProps.card_record].
    fold (omap MoreProps.card_record cards).
    destruct (name_element tag) as [name_elem|] eqn:Hname; [|apply IH].
    destruct (IH (emit (tool_record tag name_elem (now env (length (log s)))) s))
      as (new & s' & -> & Htools & Hsame).
    exists (tool_record tag name_elem (now env (length (log s))) :: new), s'.
    split; [done|]. split; [by rewrite Htools; simpl; rewrite <- app_assoc|].
    constructor; [by repeat split|done].
Qed.

Lemma parse_matching_cons c p (card : pyobj) (cards : list pyobj) (s : State) :
  parse_matching env c p (card :: cards) s
  = match card with
    | PyNone => parse_matching env c p cards s
    | PyTag tag =>
        match name_element tag with
        | None => parse_matching env c p cards s
        | Some name_elem =>
            let r := tool_record tag name_elem (now env (length (log s))) in
            parse_matching env c p cards
              (if dropped c p r then record_event EvNow s else emit r s)
        end
    end.
Proof.
  unfold parse_matching. simpl. unfold bind at 1 2.
  destruct card as [|tag]; [reflexivity|].
  rewrite parse_tag. destruct (name_element tag) as [e|]; [|reflexivity].
  cbv zeta. unfold dropped.
  destruct (_ && _ && _); [reflexivity|]. simpl.
  by destruct (_ && _).
Qed.

(** The records the filtering batch appends are those of its cards that
    neither test drops, in their order. *)
Lemma parse_matching_records c p (cards : list pyobj) (s : State) :
  exists new s',
    parse_matching env c p cards s = (Ret tt, s')
    /\ tools s' = tools s ++ new
    /\ Forall2 same_fields new
         (List.filter (fun r => negb (dropped c p r))
            (omap MoreProps.card_record cards)).
Proof.
  revert s. induction cards as [|card cards IH]; intros s.
  - exists [], s. rewrite app_nil_r. by repeat split; constructor.
  - rewrite parse_matching_cons. destruct card as [|tag]; [apply IH|].
    cbn [omap list_omap MoreProps.card_record].
    fold (omap MoreProps.card_record cards).
    destruct (name_element tag) as [name_elem|] eqn:Hname; [|apply IH].
    cbv zeta. cbn [List.filter].
    change (dropped c p (tool_record tag name_elem ""))
      with (dropped c p (tool_record tag name_elem (now env (length (log s))))).
    destruct (dropped c p (tool_record tag name_elem (now env (length (log s)))));
      cbn [negb].
    + destruct (IH (record_event EvNow s)) as (new & s' & -> & Htools & Hsame).
      by exists new, s'.
    + destruct (IH (emit (tool_record tag name_elem (now env (length (log s)))) s))
        as (new & s' & -> & Htools & Hsame).
      exists (tool_record tag name_elem (now env (length (log s))) :: new), s'.
      split; [done|]. split; [by rewrite Htools; simpl; rewrite <- app_assoc|].
      constructor; [by repeat split|done].
Qed.

(** *** Closing the session *)

Lemma quit_shrinks (open : gset nat) (d : nat) : open ∖ {[d]} ⊆ open.
Proof. intros x Hx. by apply elem_of_difference in Hx as [Hx _]. Qed.

Lemma start_quit_same (open : gset nat) (d : nat) :
  d ∉ open -> ({[d]} ∪ open) ∖ {[d]} = open.
Proof.
  intros Hd. apply set_eq. intros x.
  rewrite elem_of_difference, elem_of_union, elem_of_singleton.
  split; [by intros [[->|?] ?]|].
  intros Hx. split; [by right|]. by intros ->.
Qed.

Lemma start_quit_shrinks (open : gset nat) (d : nat) :
  ({[d]} ∪ open) ∖ {[d]} ⊆ open.
Proof.
  intros x Hx. apply elem_of_difference in Hx as [Hx Hne].
  by apply elem_of_union in Hx as [Hx|Hx].
Qed.

Lemma close_run (s : State) :
  exists s',
    _close_driver s = (Ret tt, s')
    /\ driver s' = None /\ tools s' = tools s
    /\ live s' = match driver s with Some d => live s ∖ {[d]} | None => live s end.
Proof.
  unfold _close_driver. destruct (driver s) eqn:E; eexists; by repeat split.
Qed.

(** *** The [try] block up to the parsed page *)

Lemma scrape_body_run (url : string) (max_scrolls : Z) (s0 : State) :
  exists (r : exn + node) (s1 : State),
    tools s1 = tools s0 /\ started s0 s1
    /\ (s1 = record_event EvChrome s0
        \/ chrome_start env (length (log s0)) = inr tt)
    /\ (forall e, chrome_start env (length (log s0)) = inl e -> r = inl e)
    /\ (forall e, driver_get env (S (length (log s0))) url = inl e ->
                  exists e', r = inl e')
    /\ forall k,
         scrape_body env url max_scrolls k s0
         = match r with inl e => (Raise e, s1) | inr soup => k soup s1 end.
Proof.
  unfold scrape_body.
  destruct (chrome_start env (length (log s0))) as [e|[]] eqn:Estart.
  - exists (inl e), (record_event EvChrome s0).
    split; [done|]. split; [by left|]. split; [by left|].
    split; [by intros ? [= ->]|]. split; [by eexists|].
    intros k. unfold bind at 1. unfold _setup_driver, bind, request.
    rewrite Estart. reflexivity.
  - set (sa := {| driver := Some (fresh (live s0)); tools := tools s0;
                  live := {[fresh (live s0)]} ∪ live s0;
                  log := EvChrome :: log s0 |}).
    set (rest := (driver_request (EvGet url) (fun t => driver_get env t url) ;;;
                  _scroll_to_load_all env max_scrolls ;;;
                  driver_request EvSource (page_soup env)) : M node).
    assert (Hfin : finishes rest).
    { unfold rest. apply finishes_bind; [auto with scraper|]. intros ?.
      apply finishes_bind; [apply finishes_scroll_to_load_all|auto with scraper]. }
    assert (Hses : keeps_sessions rest).
    { unfold rest. apply sessions_bind; [auto with scraper|]. intros ?.
      apply sessions_bind; [apply sessions_scroll_to_load_all|auto with scraper]. }
    assert (Htools : keeps_tools rest).
    { unfold rest. apply tools_bind; [auto with scraper|]. intros ?.
      apply tools_bind; [apply tools_scroll_to_load_all|auto with scraper]. }
    assert (Hrun : forall k : node -> M unit,
               (_setup_driver env ;;;
                driver_request (EvGet url) (fun t => driver_get env t url) ;;;
                _scroll_to_load_all env max_scrolls ;;;
                soup <- driver_request EvSource (page_soup env) ;; k soup) s0
               = bind rest k sa).
    { intros k. unfold bind at 1. unfold _setup_driver, bind at 1, request.
      rewrite Estart. fold sa. unfold rest. rewrite bind_assoc.
      apply bind_ext. intros _ s'. by rewrite bind_assoc. }
    assert (Hget : forall e, driver_get env (S (length (log s0))) url = inl e ->
                             exists e', fst (rest sa) = Raise e').
    { intros e He. unfold rest, bind at 1, driver_request, bind at 1, the_driver,
        request. simpl. rewrite He. by eexists. }
    specialize (Hfin sa). specialize (Hses sa). specialize (Htools sa).
    destruct (rest sa) as [[soup|e|] s1] eqn:Erest; simpl in *; [| |done].
    + exists (inr soup), s1. split; [done|].
      split; [right; exists (fresh (live s0)); split; [apply is_fresh|done]|].
      split; [by right|]. split; [intros ? [=]|].
      split; [intros e He; destruct (Hget e He) as [e' [=]]|].
      intros k. rewrite Hrun. unfold bind. by rewrite Erest.
    + exists (inl e), s1. split; [done|].
      split; [right; exists (fresh (live s0)); split; [apply is_fresh|done]|].
      split; [by right|]. split; [intros ? [=]|]. split; [by eexists|].
      intros k. rewrite Hrun. unfold bind. by rewrite Erest.
Qed.

(** *** A whole scrape *)

(** Whatever is done with the parsed page, as long as it comes back and
    leaves the session alone: the scrape returns its result list, with
    [self.driver] cleared and no session left open that was not open
    before; and it returns the empty list when the browser did not start
    or the page did not load. *)
Lemma scrape_with_run (url : string) (max_scrolls : Z) (k : node -> M unit)
      (s : State) :
  (forall soup, finishes (k soup)) ->
  (forall soup, keeps_sessions (k soup)) ->
  exists s',
    scrape_with env url max_scrolls k s = (Ret (tools s'), s')
    /\ driver s' = None
    /\ live s' ⊆ live s
    /\ (driver s = None -> live s' = live s)
    /\ ((exists e, chrome_start env (length (log s)) = inl e)
        \/ (exists e, driver_get env (S (length (log s))) url = inl e) ->
        tools s' = []).
Proof.
  intros Hfin Hses. unfold scrape_with, bind, set_tools.
  set (s0 := {| driver := driver s; tools := []; live := live s; log := log s |}).
  destruct (scrape_body_run url max_scrolls s0)
    as (r & s1 & Htools & Hstarted & _ & Hstart & Hget & Hk).
  unfold try_finally, try_except. rewrite Hk.
  assert (Hclose : forall s2 : State,
             tools s2 = match r with inl _ => tools s1 | inr _ => tools s2 end ->
             driver s2 = driver s1 -> live s2 = live s1 ->
             exists s',
               (let (o, s3) :=
                  match _close_driver s2 with
                  | (Ret _, s'') => (Ret tt, s'')
                  | (Raise e, s'') => (Raise e, s'')
                  | (Diverge, s'') => (Diverge, s'')
                  end in
                match o with
                | Ret _ => get_tools s3
                | Raise e => (Raise e, s3)
                | Diverge => (Diverge, s3)
                end) = (Ret (tools s'), s')
               /\ driver s' = None /\ live s' ⊆ live s
               /\ (driver s = None -> live s' = live s)
               /\ ((exists e, chrome_start env (length (log s)) = inl e)
                   \/ (exists e, driver_get env (S (length (log s))) url = inl e) ->
                   tools s' = [])).
  { intros s2 Ht2 Hd2 Hl2.
    destruct (close_run s2) as (s' & -> & Hd' & Ht' & Hl').
    exists s'. split; [reflexivity|]. split; [done|]. split; [|split].
    - rewrite Hl', Hd2, Hl2.
      destruct Hstarted as [[-> ->]|(session & _ & -> & ->)]; simpl;
        [destruct (driver s)|]; auto using quit_shrinks, start_quit_shrinks.
    - intros Hidle. rewrite Hl', Hd2, Hl2.
      destruct Hstarted as [[-> ->]|(session & Hfresh & -> & ->)]; simpl.
      + by rewrite Hidle.
      + by apply start_quit_same.
    - intros Hfail. rewrite Ht', Ht2.
      assert (exists e, r = inl e) as [e ->].
      { destruct Hfail as [[e He]|[e He]]; [exists e; by apply Hstart|].
        by apply Hget in He. }
      by rewrite Htools. }
  destruct r as [e|soup].
  - simpl. by apply Hclose.
  - specialize (Hfin soup s1). destruct (Hses soup s1) as [Hd Hl].
    destruct (k soup s1) as [[[]|e|] s2]; simpl in *; [| |done];
      by apply Hclose.
Qed.

End WithEnv.

End BatchFacts.

(** ** The three scrape methods *)

Module EntryPoints.

Import FutureToolsScraper Props EffectFacts CardFacts ScraperFacts BatchFacts.

Lemma newly_added_skeleton (env : Env) :
  scrape_newly_added env
  = scrape_with env NEWLY_ADDED_URL 10
      (fun soup => parse_all env (map PyTag (tool_cards soup))).
Proof. reflexivity. Qed.

Lemma all_tools_skeleton (env : Env) (max_pages : option Z) :
  scrape_all_tools env max_pages
  = scrape_with env BASE_URL 100
      (fun soup => parse_all env (map PyTag (tool_cards soup))).
Proof. reflexivity. Qed.

Lemma by_category_skeleton (env : Env) (categories pricing_filters : option (list string)) :
  scrape_by_category env categories pricing_filters
  = scrape_with env BASE_URL 100
      (fun soup =>
         parse_matching env (default CATEGORIES categories) pricing_filters
           (map PyTag (tool_cards soup))).
Proof. by destruct categories. Qed.

Section Runs.

Context (env : Env) (s : State).

Lemma newly_added_run :
  exists s',
    scrape_newly_added env s = (Ret (tools s'), s')
    /\ driver s' = None /\ live s' ⊆ live s
    /\ (driver s = None -> live s' = live s)
    /\ ((exists e, chrome_start env (length (log s)) = inl e)
        \/ (exists e, driver_get env (S (length (log s))) NEWLY_ADDED_URL = inl e) ->
        tools s' = []).
Proof.
  rewrite newly_added_skeleton.
  apply scrape_with_run; intros soup;
    [apply finishes_parse_all|apply sessions_parse_all].
Qed.

Lemma by_category_run (categories pricing_filters : option (list string)) :
  exists s',
    scrape_by_category env categories pricing_filters s = (Ret (tools s'), s')
    /\ driver s' = None /\ live s' ⊆ live s
    /\ (driver s = None -> live s' = live s)
    /\ ((exists e, chrome_start env (length (log s)) = inl e)
        \/ (exists e, driver_get env (S (length (log s))) BASE_URL = inl e) ->
        tools s' = []).
Proof.
  rewrite by_category_skeleton.
  apply scrape_with_run; intros soup;
    [apply finishes_parse_matching|apply sessions_parse_matching].
Qed.

Lemma all_tools_run (max_pages : option Z) :
  exists s',
    scrape_all_tools env max_pages s = (Ret (tools s'), s')
    /\ driver s' = None /\ live s' ⊆ live s
    /\ (driver s = None -> live s' = live s)
    /\ ((exists e, chrome_start env (length (log s)) = inl e)
        \/ (exists e, driver_get env (S (length (log s))) BASE_URL = inl e) ->
        tools s' = []).
Proof.
  rewrite all_tools_skeleton.
  apply scrape_with_run; intros soup;
    [apply finishes_parse_all|apply sessions_parse_all].
Qed.

End Runs.

End EntryPoints.

(** ** Claims about sessions and failures *)

Module SessionClaims.

Import FutureToolsScraper Props EffectFacts CardFacts ScraperFacts BatchFacts
  EntryPoints Examples.

(** C8. Whatever the browser does (start, navigation, scrolling and page
    reading may each raise) and whatever state the scraper is called in,
    each of the three scrape methods returns with [self.driver] set to
    [None] and with no session open that was not open before the call: the
    session the call started has been quit. Called on a scraper that holds
    no session, it leaves the open sessions exactly as they were, so the
    next call starts from the same footing. *)
Theorem session_released_on_every_exit
        (env : Env) (categories pricing_filters : option (list string))
        (max_pages : option Z) (s : State) :
  (exists s',
     scrape_newly_added env s = (Ret (tools s'), s')
     /\ driver s' = None /\ live s' ⊆ live s
     /\ (driver s = None -> live s' = live s))
  /\ (exists s',
        scrape_by_category env categories pricing_filters s = (Ret (tools s'), s')
        /\ driver s' = None /\ live s' ⊆ live s
        /\ (driver s = None -> live s' = live s))
  /\ (exists s',
        scrape_all_tools env max_pages s = (Ret (tools s'), s')
        /\ driver s' = None /\ live s' ⊆ live s
        /\ (driver s = None -> live s' = live s)).
Proof.
  destruct (newly_added_run env s) as (s1 & ? & ? & ? & ? & _),
    (by_category_run env s categories pricing_filters) as (s2 & ? & ? & ? & ? & _),
    (all_tools_run env s max_pages) as (s3 & ? & ? & ? & ? & _).
  split; [by exists s1|]. split; [by exists s2|by exists s3].
Qed.

(** The same on a run: Chrome starts, the page loads and has one card;
    afterwards the scraper holds no session and none is open. *)
Lemma session_released_on_every_exit_witness :
  exists s',
    scrape_newly_added (static_env (page_of [full_card])) idle = (Ret (tools s'), s')
    /\ driver s' = None /\ live s' = live idle.
Proof.
  destruct (session_released_on_every_exit (static_env (page_of [full_card]))
              None None None idle) as ((s' & Hrun & Hdriver & _ & Hlive) & _).
  exists s'. split; [exact Hrun|]. split; [exact Hdriver|].
  apply Hlive. reflexivity.
Defined.

(** C9. An exception in the [try] block of [_parse_tool_card] is caught
    there: the method returns [None] and leaves the scraper as it was, so
    the failed card adds no record. In a batch only that card is skipped:
    the batch runs as it does without the card, the cards before it and
    the cards after it each give their record, in page order (for
    [scrape_by_category], those that the two tests keep). The method never
    raises. No scrape method raises: each returns a list, and the list is
    empty when Chrome does not start or the page does not load. On a tag
    the [try] block does not raise; the handler is for a card that is not
    one. *)
Theorem failures_are_contained (env : Env) :
  (forall card s e s',
     _parse_tool_card_try env card s = (Raise e, s') ->
     _parse_tool_card env card s = (Ret None, s')
     /\ s' = s
     /\ (forall pre post s0,
           parse_all env pre s0 = (Ret tt, s) ->
           parse_all env (pre ++ card :: post) s0 = parse_all env post s'
           /\ parse_all env (pre ++ card :: post) s0 = parse_all env (pre ++ post) s0
           /\ exists before after s_end,
                tools s = tools s0 ++ before
                /\ parse_all env (pre ++ card :: post) s0 = (Ret tt, s_end)
                /\ tools s_end = tools s0 ++ before ++ after
                /\ Forall2 same_fields before (omap MoreProps.card_record pre)
                /\ Forall2 same_fields after (omap MoreProps.card_record post))
     /\ (forall c p pre post s0,
           parse_matching env c p pre s0 = (Ret tt, s) ->
           parse_matching env c p (pre ++ card :: post) s0
           = parse_matching env c p post s'
           /\ parse_matching env c p (pre ++ card :: post) s0
              = parse_matching env c p (pre ++ post) s0
           /\ exists before after s_end,
                tools s = tools s0 ++ before
                /\ parse_matching env c p (pre ++ card :: post) s0 = (Ret tt, s_end)
                /\ tools s_end = tools s0 ++ before ++ after
                /\ Forall2 same_fields before
                     (List.filter (fun r => negb (dropped c p r))
                        (omap MoreProps.card_record pre))
                /\ Forall2 same_fields after
                     (List.filter (fun r => negb (dropped c p r))
                        (omap MoreProps.card_record post))))
  /\ (forall card s, exists o s', _parse_tool_card env card s = (Ret o, s'))
  /\ (forall categories pricing_filters max_pages s,
        (exists l, fst (scrape_newly_added env s) = Ret l)
        /\ (exists l, fst (scrape_by_category env categories pricing_filters s) = Ret l)
        /\ (exists l, fst (scrape_all_tools env max_pages s) = Ret l))
  /\ (forall categories pricing_filters max_pages s e,
        chrome_start env (length (log s)) = inl e ->
        fst (scrape_newly_added env s) = Ret []
        /\ fst (scrape_by_category env categories pricing_filters s) = Ret []
        /\ fst (scrape_all_tools env max_pages s) = Ret [])
  /\ (forall categories pricing_filters max_pages s e,
        (driver_get env (S (length (log s))) NEWLY_ADDED_URL = inl e ->
         fst (scrape_newly_added env s) = Ret [])
        /\ (driver_get env (S (length (log s))) BASE_URL = inl e ->
            fst (scrape_by_category env categories pricing_filters s) = Ret []
            /\ fst (scrape_all_tools env max_pages s) = Ret []))
  /\ (forall tag s, exists o s', _parse_tool_card_try env (PyTag tag) s = (Ret o, s')).
Proof.
  split; [|split; [|split; [|split; [|split]]]].
  - intros card s e s' Hraise.
    assert (Hnone : _parse_tool_card env card s = (Ret None, s')).
    { unfold _parse_tool_card, try_except. by rewrite Hraise. }
    destruct (try_block_raises env card s s' e Hraise) as [-> ->].
    split; [exact Hnone|]. split; [done|]. split.
    + intros pre post s0 Hpre.
      assert (Hskip : parse_all env (pre ++ PyNone :: post) s0 = parse_all env post s).
      { unfold parse_all. rewrite (for_each_app _ _ _ _ _ Hpre). simpl.
        unfold bind at 1 2. by rewrite Hnone. }
      split; [exact Hskip|]. split.
      { rewrite Hskip. unfold parse_all. by rewrite (for_each_app _ _ _ _ _ Hpre). }
      destruct (parse_all_records env pre s0) as (before & s1 & Hrun & Hbefore & Hsame).
      rewrite Hpre in Hrun. injection Hrun as <-.
      destruct (parse_all_records env post s) as (after & s_end & Hpost & Hafter & Hsame').
      exists before, after, s_end. split; [done|]. split; [by rewrite Hskip|].
      split; [by rewrite Hafter, Hbefore, <- app_assoc|done].
    + intros c p pre post s0 Hpre.
      assert (Hskip : parse_matching env c p (pre ++ PyNone :: post) s0
                      = parse_matching env c p post s).
      { unfold parse_matching. rewrite (for_each_app _ _ _ _ _ Hpre). simpl.
        unfold bind at 1 2. by rewrite Hnone. }
      split; [exact Hskip|]. split.
      { rewrite Hskip. unfold parse_matching.
        by rewrite (for_each_app _ _ _ _ _ Hpre). }
      destruct (parse_matching_records env c p pre s0)
        as (before & s1 & Hrun & Hbefore & Hsame).
      rewrite Hpre in Hrun. injection Hrun as <-.
      destruct (parse_matching_records env c p post s)
        as (after & s_end & Hpost & Hafter & Hsame').
      exists before, after, s_end. split; [done|]. split; [by rewrite Hskip|].
      split; [by rewrite Hafter, Hbefore, <- app_assoc|done].
  - intros card s. destruct (parse_run env card s) as [o Ho]. eauto.
  - intros c p mp s.
    destruct (newly_added_run env s) as (s1 & -> & _),
      (by_category_run env s c p) as (s2 & -> & _),
      (all_tools_run env s mp) as (s3 & -> & _).
    simpl. repeat split; by eexists.
  - intros c p mp s e He.
    destruct (newly_added_run env s) as (s1 & -> & _ & _ & _ & H1),
      (by_category_run env s c p) as (s2 & -> & _ & _ & _ & H2),
      (all_tools_run env s mp) as (s3 & -> & _ & _ & _ & H3). simpl.
    rewrite H1, H2, H3 by (left; eauto). done.
  - intros c p mp s e.
    destruct (newly_added_run env s) as (s1 & -> & _ & _ & _ & H1),
      (by_category_run env s c p) as (s2 & -> & _ & _ & _ & H2),
      (all_tools_run env s mp) as (s3 & -> & _ & _ & _ & H3). simpl.
    split; [intros He; rewrite H1 by (right; eauto); done|].
    intros He. rewrite H2, H3 by (right; eauto). done.
  - apply try_block_tag.
Qed.

(** A batch of three with [None] in the middle: [None] raises in the
    [try] block and is skipped, the card before it and the card after it
    give their records; without Chrome every scrape returns the empty
    list. *)
Lemma failures_are_contained_witness :
  _parse_tool_card (static_env (page_of [])) PyNone idle = (Ret None, idle)
  /\ parse_all (static_env (page_of []))
       ([PyTag Examples.free_card] ++ PyNone :: [PyTag Examples.trial_card]) idle
     = parse_all (static_env (page_of [])) [PyTag Examples.trial_card]
         (snd (parse_all (static_env (page_of [])) [PyTag Examples.free_card] idle))
  /\ (exists before after s_end,
        parse_all (static_env (page_of []))
          ([PyTag Examples.free_card] ++ PyNone :: [PyTag Examples.trial_card]) idle
        = (Ret tt, s_end)
        /\ tools s_end = before ++ after
        /\ Forall2 same_fields before
             (omap MoreProps.card_record [PyTag Examples.free_card])
        /\ Forall2 same_fields after
             (omap MoreProps.card_record [PyTag Examples.trial_card]))
  /\ fst (scrape_newly_added no_chrome_env idle) = Ret []
  /\ fst (scrape_by_category no_chrome_env (Some ["Chat"]) None idle) = Ret []
  /\ fst (scrape_all_tools no_chrome_env None idle) = Ret [].
Proof.
  destruct (failures_are_contained (static_env (page_of [])))
    as (Hcard & _ & _ & _ & _ & _).
  destruct (Hcard PyNone
              (snd (parse_all (static_env (page_of [])) [PyTag Examples.free_card] idle))
              (AttributeError "'NoneType' object has no attribute 'find'")
              (snd (parse_all (static_env (page_of [])) [PyTag Examples.free_card] idle))
              eq_refl) as (_ & _ & Hbatch & _).
  destruct (Hbatch [PyTag Examples.free_card] [PyTag Examples.trial_card] idle eq_refl)
    as (Hskip & _ & before & after & s_end & _ & Hrun & Htools & Hbefore & Hafter).
  destruct (failures_are_contained no_chrome_env) as (_ & _ & _ & Hstart & _).
  split; [reflexivity|]. split; [exact Hskip|].
  split; [by exists before, after, s_end|].
  apply (Hstart (Some ["Chat"]) None None idle
           (WebDriverException "chromedriver not found")).
  reflexivity.
Defined.

End SessionClaims.

(** ** The category filter and repeated extraction *)

Module FilterFacts.

Import FutureToolsScraper Props EffectFacts CardFacts ScraperFacts BatchFacts
  EntryPoints.

Lemma any_label_in_spec (wanted : list string) (field : string) :
  any_label_in wanted field = true <-> has_label_in wanted field.
Proof.
  unfold any_label_in, has_label_in. rewrite existsb_exists, Exists_exists.
  split; intros (x & Hx & Hw); exists x.
  - split; [by apply list_elem_of_In|by apply mem_true].
  - split; [by apply list_elem_of_In|by apply mem_true].
Qed.

Lemma any_label_in_false (wanted : list string) (field : string) :
  any_label_in wanted field = false <-> ~ has_label_in wanted field.
Proof.
  rewrite <- any_label_in_spec. by destruct (any_label_in wanted field).
Qed.

(** The tests of the loop drop a record exactly when [kept] fails. *)
Lemma dropped_spec (categories pricing_filters : option (list string)) (r : ToolData.t) :
  dropped (default CATEGORIES categories) pricing_filters r = false
  <-> kept categories pricing_filters r.
Proof.
  unfold dropped, kept. rewrite orb_false_iff. apply Morphisms_Prop.and_iff_morphism.
  - destruct categories as [c|]; simpl.
    + destruct c as [|x c]; simpl; [by split; auto|].
      destruct (bool_decide_reflect (x :: c = CATEGORIES)) as [Heq|Hne]; simpl.
      * split; [intros _|done]. right. right. left. by rewrite Heq.
      * rewrite negb_false_iff, any_label_in_spec.
        split; [intros H; by do 3 right|].
        intros [?|[?|[?|?]]]; [done|done|congruence|done].
    + split; [intros _; by left|done].
  - destruct pricing_filters as [p|]; simpl; [|by split; auto].
    destruct p as [|x p]; simpl; [by split; auto|].
    rewrite negb_false_iff, any_label_in_spec.
    split; [intros H; by do 2 right|]. intros [?|[?|?]]; done.
Qed.

Section WithEnv.

Context (env : Env) (categories pricing_filters : option (list string)).

(** The filtering loop appends what the plain loop appends and [kept]
    lets through. *)
Lemma loops_filter (cards : list pyobj) (sa sc : State) :
  log sc = log sa ->
  tools sc = filter (kept categories pricing_filters) (tools sa) ->
  exists sa' sc',
    parse_all env cards sa = (Ret tt, sa')
    /\ parse_matching env (default CATEGORIES categories) pricing_filters cards sc
       = (Ret tt, sc')
    /\ tools sc' = filter (kept categories pricing_filters) (tools sa').
Proof.
  revert sa sc. induction cards as [|card cards IH]; intros sa sc Hlog Htools.
  - by exists sa, sc.
  - rewrite parse_all_cons, parse_matching_cons.
    destruct card as [|tag]; [by apply IH|].
    destruct (name_element tag) as [e|]; [|by apply IH].
    cbv zeta. rewrite Hlog.
    set (r := tool_record tag e (now env (length (log sa)))).
    apply IH.
    + destruct (dropped _ _ r); simpl; by rewrite Hlog.
    + destruct (dropped _ _ r) eqn:Hdrop; simpl; rewrite filter_app, <- Htools.
      * rewrite filter_cons_False, filter_nil, app_nil_r; [done|].
        intros Hkept. apply dropped_spec in Hkept. congruence.
      * rewrite filter_cons_True; [done|]. by apply dropped_spec.
Qed.

(** [scrape_by_category] returns the records of [scrape_all_tools] that
    [kept] lets through. *)
Lemma by_category_filters_all (max_pages : option Z) (s : State) :
  exists l,
    fst (scrape_all_tools env max_pages s) = Ret l
    /\ fst (scrape_by_category env categories pricing_filters s)
       = Ret (filter (kept categories pricing_filters) l).
Proof.
  rewrite all_tools_skeleton, by_category_skeleton.
  unfold scrape_with, bind, set_tools.
  set (s0 := {| driver := driver s; tools := []; live := live s; log := log s |}).
  destruct (scrape_body_run env BASE_URL 100 s0)
    as (r & s1 & Htools & _ & _ & _ & _ & Hk).
  unfold try_finally, try_except. rewrite !Hk.
  destruct r as [e|soup].
  - simpl. destruct (close_run s1) as (s' & -> & _ & Ht' & _). simpl.
    exists (tools s'). split; [done|]. by rewrite Ht', Htools.
  - destruct (loops_filter (map PyTag (tool_cards soup)) s1 s1 eq_refl)
      as (sa & sc & -> & -> & Hfilter); [by rewrite Htools|].
    destruct (close_run sa) as (sa' & -> & _ & Hta & _).
    destruct (close_run sc) as (sc' & -> & _ & Htc & _). simpl.
    exists (tools sa'). split; [done|]. by rewrite Hta, Htc, Hfilter.
Qed.

End WithEnv.

(** Two extractions of the same cards, on any two browsers and clocks. *)
Lemma parse_all_same_fields (env1 env2 : Env) (cards : list pyobj) (s1 s2 : State) :
  Forall2 same_fields (tools s1) (tools s2) ->
  exists s1' s2',
    parse_all env1 cards s1 = (Ret tt, s1')
    /\ parse_all env2 cards s2 = (Ret tt, s2')
    /\ Forall2 same_fields (tools s1') (tools s2').
Proof.
  revert s1 s2. induction cards as [|card cards IH]; intros s1 s2 Hsame.
  - by exists s1, s2.
  - rewrite !parse_all_cons.
    destruct card as [|tag]; [by apply IH|].
    destruct (name_element tag) as [e|]; [|by apply IH].
    apply IH. simpl. apply Forall2_app; [done|].
    constructor; [|constructor]. by repeat split.
Qed.

End FilterFacts.

(** ** Claims about filtering and repeated extraction *)

Module ExtractionClaims.

Import FutureToolsScraper Props FilterFacts Examples.

(** C2 (as stated, refuted). Called with the full category list, a scrape
    returns a card that has no category at all: its record reads
    "Uncategorized", which is in no requested set. *)
Lemma full_category_list_filters_nothing :
  exists r,
    fst (scrape_by_category (static_env (page_of [heading_card "Widget"]))
           (Some CATEGORIES) None idle) = Ret [r]
    /\ ToolData.categories r = "Uncategorized"
    /\ ~ claimed_keep (Some CATEGORIES) None r.
Proof.
  eexists. split; [vm_compute; reflexivity|]. split; [reflexivity|].
  intros H. apply (bool_decide_pack _) in H. vm_compute in H. exact H.
Qed.

(** C2 (amended). On the same browser, [scrape_by_category] returns the
    records of the unfiltered scrape for which:
    ([categories] is [None], is empty, is the full category list, or holds
    one of the record's ", "-separated category labels) and
    ([pricing_filters] is [None], is empty, or holds one of the record's
    ", "-separated pricing labels);
    so its output is a subsequence of the unfiltered one and every record
    in it satisfies that test. *)
Theorem category_filter_keeps_exactly
        (env : Env) (categories pricing_filters : option (list string))
        (max_pages : option Z) (s : State) :
  exists l,
    fst (scrape_all_tools env max_pages s) = Ret l
    /\ fst (scrape_by_category env categories pricing_filters s)
       = Ret (filter (kept categories pricing_filters) l)
    /\ sublist (filter (kept categories pricing_filters) l) l
    /\ Forall (kept categories pricing_filters)
         (filter (kept categories pricing_filters) l).
Proof.
  destruct (by_category_filters_all env categories pricing_filters max_pages s)
    as (l & Hall & Hcat).
  exists l. split; [done|]. split; [done|]. split; [apply sublist_filter|].
  apply Forall_forall. intros r Hr. by apply list_elem_of_filter in Hr as [Hr _].
Qed.

(** C6. Extracting the cards of one parsed page twice, on any two
    browsers, clocks and scraper states, gives record lists of the same
    length whose records agree on name, description, categories, pricing
    and url; only [scraped_at] may differ. *)
Theorem extraction_repeats_up_to_timestamp
        (env1 env2 : Env) (s1 s2 : State) (soup : node) :
  exists l1 l2,
    fst ((set_tools [] ;;; parse_all env1 (map PyTag (tool_cards soup)) ;;; get_tools) s1)
      = Ret l1
    /\ fst ((set_tools [] ;;; parse_all env2 (map PyTag (tool_cards soup)) ;;; get_tools) s2)
       = Ret l2
    /\ length l1 = length l2
    /\ Forall2 same_fields l1 l2.
Proof.
  unfold bind at 1 3. unfold set_tools.
  set (t1 := {| driver := driver s1; tools := []; live := live s1; log := log s1 |}).
  set (t2 := {| driver := driver s2; tools := []; live := live s2; log := log s2 |}).
  destruct (parse_all_same_fields env1 env2 (map PyTag (tool_cards soup)) t1 t2)
    as (t1' & t2' & H1 & H2 & Hsame); [constructor|].
  unfold bind. rewrite H1, H2. simpl.
  exists (tools t1'), (tools t2'). repeat split; try done.
  by eapply Forall2_length.
Qed.

(** Two scrapes of one page at different times: the records differ in
    [scraped_at] and in nothing else. *)
Example two_scrapes_two_timestamps :
  exists r1 r2,
    fst (scrape_newly_added (static_env (page_of [full_card])) idle) = Ret [r1]
    /\ fst (scrape_newly_added (later_env (page_of [full_card])) idle) = Ret [r2]
    /\ same_fields r1 r2
    /\ ToolData.scraped_at r1 <> ToolData.scraped_at r2.
Proof.
  eexists _, _. split; [vm_compute; reflexivity|]. split; [vm_compute; reflexivity|].
  split; [by repeat split|discriminate].
Qed.

End ExtractionClaims.

(** ** Joining and splitting labels *)

Module LabelFacts.

Lemma append_cons (c : ascii) (a b : string) :
  String c a +:+ b = String c (a +:+ b).
Proof. reflexivity. Qed.

Lemma append_nil_l (s : string) : "" +:+ s = s.
Proof. reflexivity. Qed.

Lemma append_nil_r (s : string) : s +:+ "" = s.
Proof.
  induction s as [|c s IH]; [done|]. by rewrite append_cons, IH.
Qed.

Lemma append_assoc (a b c : string) : (a +:+ b) +:+ c = a +:+ (b +:+ c).
Proof.
  induction a as [|x a IH]; [done|]. by rewrite !append_cons, IH.
Qed.

Lemma prefix_nil (s : string) : String.prefix "" s = true.
Proof. by destruct s. Qed.

Lemma prefix_step (a b : ascii) (p s : string) :
  String.prefix (String a p) (String b s)
  = if ascii_dec a b then String.prefix p s else false.
Proof. reflexivity. Qed.

Lemma prefix_cons (c : ascii) (p s : string) :
  String.prefix (String c p) (String c s) = String.prefix p s.
Proof. rewrite prefix_step. by destruct (ascii_dec c c). Qed.

Lemma prefix_contains (p s : string) :
  String.prefix p s = true -> Py.contains p s = true.
Proof. intros H. destruct s; simpl in *; by rewrite H. Qed.

Lemma contains_cons (x : string) (c : ascii) (s : string) :
  Py.contains x s = true -> Py.contains x (String c s) = true.
Proof. intros H. cbn [Py.contains]. rewrite H. apply orb_true_r. Qed.

(** A label without ", " in it, read by [split]: the whole label is one
    piece. *)
Lemma split_go_label (cur x : string) :
  Py.contains ", " x = false ->
  Py.split_go ", " 0 cur x = [cur +:+ x].
Proof.
  revert cur. induction x as [|c x IH]; intros cur Hx.
  - cbn [Py.split_go]. by rewrite append_nil_r.
  - cbn [Py.contains] in Hx. apply orb_false_iff in Hx as [Hpre Hrest].
    cbn [Py.split_go]. rewrite Hpre, IH by done.
    by rewrite append_assoc, append_cons, append_nil_l.
Qed.

(** The same label followed by a separator: the piece ends there. *)
Lemma split_go_label_sep (cur x rest : string) :
  Py.contains ", " x = false ->
  Py.split_go ", " 0 cur (x +:+ ", " +:+ rest)
  = (cur +:+ x) :: Py.split_go ", " 0 "" rest.
Proof.
  revert cur. induction x as [|c x IH]; intros cur Hx.
  - rewrite append_nil_r, append_nil_l, !append_cons, append_nil_l.
    cbn [Py.split_go]. rewrite !prefix_cons, prefix_nil. reflexivity.
  - cbn [Py.contains] in Hx. apply orb_false_iff in Hx as [Hpre Hrest].
    rewrite append_cons. cbn [Py.split_go].
    assert (Hno : String.prefix ", " (String c (x +:+ ", " +:+ rest)) = false).
    { rewrite prefix_step in Hpre |- *.
      destruct (ascii_dec "," c) as [_|]; [|done].
      destruct x as [|c' x]; [by rewrite append_nil_l, append_cons|].
      rewrite append_cons. rewrite prefix_step in Hpre |- *.
      destruct (ascii_dec " " c'); [|done]. by rewrite prefix_nil in Hpre. }
    rewrite Hno, IH by done.
    by rewrite append_assoc, append_cons, append_nil_l.
Qed.

(** What [", ".join] writes, [split(", ")] reads back, as long as no
    label holds the separator. *)
Lemma split_join (l : list string) :
  l <> [] ->
  Forall (fun x => Py.contains ", " x = false) l ->
  Py.split ", " (Py.join ", " l) = l.
Proof.
  intros Hne Hall. unfold Py.split.
  induction l as [|x l IH]; [done|].
  inversion Hall as [|? ? Hx Hl]; subst.
  destruct l as [|y l].
  - cbn [Py.join]. by rewrite split_go_label.
  - change (Py.join ", " (x :: y :: l))
      with (x +:+ ", " +:+ Py.join ", " (y :: l)).
    rewrite split_go_label_sep by done. rewrite append_nil_l.
    by rewrite IH.
Qed.

(** Every piece [split] returns occurs in the string it splits. *)
Lemma split_go_pieces (sep : string) (s : string) :
  forall (skip : nat) (cur x : string),
    x ∈ Py.split_go sep skip cur s ->
    Py.contains x s = true
    \/ exists p, x = cur +:+ p /\ Py.contains p s = true
                 /\ (skip = 0%nat -> String.prefix p s = true).
Proof.
  induction s as [|c rest IH]; intros skip cur x Hx.
  - destruct skip; cbn [Py.split_go] in Hx;
      apply list_elem_of_singleton in Hx as ->;
      right; exists ""; by rewrite append_nil_r.
  - destruct skip as [|k]; cbn [Py.split_go] in Hx.
    + destruct (String.prefix sep (String c rest)) eqn:Hsep.
      * apply elem_of_cons in Hx as [->|Hx].
        { right. exists "". rewrite append_nil_r.
          split; [done|]. split; [|intros _; apply prefix_nil].
          apply prefix_contains, prefix_nil. }
        left. apply contains_cons.
        destruct (IH _ _ _ Hx) as [?|(p & -> & ? & _)]; [done|].
        by rewrite append_nil_l.
      * destruct (IH _ _ _ Hx) as [?|(p & -> & _ & Hp)];
          [left; by apply contains_cons|].
        right. exists (String c p).
        rewrite append_assoc, append_cons, append_nil_l.
        assert (String.prefix (String c p) (String c rest) = true)
          by (rewrite prefix_cons; by apply Hp).
        split; [done|]. split; [by apply prefix_contains|done].
    + destruct (IH _ _ _ Hx) as [?|(p & -> & Hp & _)];
        [left; by apply contains_cons|].
      right. exists p. split; [done|]. split; [by apply contains_cons|done].
Qed.

Lemma split_piece_contained (sep s x : string) :
  x ∈ Py.split sep s -> Py.contains x s = true.
Proof.
  intros Hx. destruct (split_go_pieces sep s 0 "" x Hx) as [?|(p & -> & ? & _)];
    [done|by rewrite append_nil_l].
Qed.

End LabelFacts.

(** ** More about the fields of a record *)

Module RecordFacts.

Import FutureToolsScraper Props MoreProps PricingFacts CardFacts LabelFacts.

(** What [find] returns is below the node and passes the filters. *)
Lemma find_matches (tag : string) (fc fh : option Soup.attr_filter) (n e : node) :
  Soup.find tag fc fh n = Some e ->
  Soup.matches tag fc fh e = true /\ In e (Soup.descendants n).
Proof.
  unfold Soup.find, Soup.find_all. intros Hhead.
  assert (Hin : In e (List.filter (Soup.matches tag fc fh) (Soup.descendants n))).
  { destruct (List.filter _ _) as [|y l]; [done|].
    injection Hhead as ->. by left. }
  apply filter_In in Hin as [? ?]. by split.
Qed.

Lemma card_url_tool_url (card : node) : tool_url (card_url card).
Proof.
  unfold card_url.
  destruct (Soup.find "a" None (Some tool_path) card) as [e|] eqn:Hfind; [|by left].
  apply find_matches in Hfind as [Hm _].
  destruct e as [|t cls [href|] children]; try by left.
  destruct (Py.truthy href) eqn:Ht; [|by left].
  right. exists href. split; [done|].
  unfold Soup.matches in Hm. apply andb_true_iff in Hm as [_ Hm].
  unfold tool_path in Hm. by rewrite Ht in Hm.
Qed.

Lemma vocabulary_no_separator :
  Forall (fun x => Py.contains ", " x = false) vocabulary.
Proof. repeat constructor. Qed.

(** The pricing field, split again, is the list of labels it was joined
    from, or the sentinel alone. *)
Lemma pricing_field_splits (all_text : string) :
  Py.split ", " (joined_or "Check tool page" (pricing_labels all_text))
  = if Py.nonempty (pricing_labels all_text) then pricing_labels all_text
    else ["Check tool page"].
Proof.
  unfold joined_or.
  destruct (Py.nonempty (pricing_labels all_text)) eqn:Hne; [|reflexivity].
  apply split_join; [by apply nonempty_true|].
  pose proof (pricing_labels_vocabulary all_text) as Hvoc.
  apply Forall_forall. intros x Hx.
  apply (proj1 (Forall_forall _ _) Hvoc) in Hx.
  by apply (proj1 (Forall_forall _ _) vocabulary_no_separator).
Qed.

(** *** The loops that collect category labels *)

Section Dedup.

Context {A : Type} (text : A -> string) (ok : string -> bool).

Let step (acc : list string) (x : A) : list string :=
  if ok (text x) && negb (Py.mem (text x) acc) then acc ++ [text x] else acc.

Lemma fold_dedup (l : list A) (acc : list string) :
  NoDup acc ->
  exists new,
    fold_left step l acc = acc ++ new
    /\ NoDup (acc ++ new)
    /\ sublist new (map text l)
    /\ (forall t, t ∈ new <-> (t ∉ acc) /\ ok t = true /\ t ∈ map text l).
Proof.
  revert acc. induction l as [|x l IH]; intros acc Hacc.
  - exists []. rewrite app_nil_r. split; [done|]. split; [done|].
    split; [constructor|]. intros t. split; [by intros ?%elem_of_nil|].
    by intros (_ & _ & ?%elem_of_nil).
  - cbn [fold_left map]. unfold step at 2.
    destruct (ok (text x)) eqn:Hok; cbn [andb].
    + destruct (Py.mem (text x) acc) eqn:Hmem; cbn [negb].
      * apply mem_true in Hmem.
        destruct (IH acc Hacc) as (new & -> & Hnd & Hsub & Hin).
        exists new. split; [done|]. split; [done|].
        split; [by constructor|]. intros t. rewrite Hin, elem_of_cons.
        split; [by intros (? & ? & ?); auto|].
        intros (Hn & ? & [->|?]); by auto.
      * assert (Hnew : text x ∉ acc).
        { intros H. apply mem_true in H. congruence. }
        destruct (IH (acc ++ [text x])) as (new & -> & Hnd & Hsub & Hin).
        { apply NoDup_app. split; [done|].
          split; [|apply NoDup_singleton].
          intros y Hy ->%list_elem_of_singleton. done. }
        exists (text x :: new). rewrite <- app_assoc in *. cbn [app] in *.
        split; [done|]. split; [done|].
        split; [by constructor|]. intros t.
        rewrite elem_of_cons, Hin, elem_of_app, list_elem_of_singleton, elem_of_cons.
        split.
        { intros [->|(Hn & ? & ?)]; [by auto|].
          split; [by auto|]. by auto. }
        intros (Hn & Ht & [->|Hl]); [by left|].
        destruct (decide (t = text x)) as [->|Hne]; [by left|].
        right. split; [|done]. by intros [?|?].
    + destruct (IH acc Hacc) as (new & -> & Hnd & Hsub & Hin).
      exists new. split; [done|]. split; [done|].
      split; [by constructor|]. intros t. rewrite Hin, elem_of_cons.
      split; [by intros (? & ? & ?); auto|].
      intros (Hn & Ht & [->|?]); [congruence|by auto].
Qed.

Lemma filter_twice {B} (f g : B -> bool) (l : list B) :
  List.filter f (List.filter g l) = List.filter (fun x => g x && f x) l.
Proof.
  induction l as [|x l IH]; simpl; [done|].
  destruct (g x); simpl; [destruct (f x)|]; by rewrite IH.
Qed.

Lemma mem_snoc (y x : string) (acc : list string) :
  Py.mem y (acc ++ [x]) = Py.mem y acc || String.eqb y x.
Proof. unfold Py.mem. rewrite existsb_app. simpl. by rewrite orb_false_r. Qed.

(** The loop with an accumulator is the recursion from the head. *)
Lemma fold_first_occurrences (l : list A) (acc : list string) :
  fold_left step l acc
  = acc ++ List.filter (fun y => negb (Py.mem y acc))
             (first_occurrences (List.filter ok (map text l))).
Proof.
  revert acc. induction l as [|x l IH]; intros acc.
  - simpl. by rewrite app_nil_r.
  - cbn [fold_left map List.filter]. unfold step at 2.
    destruct (ok (text x)) eqn:Hok; cbn [andb]; [|apply IH].
    cbn [first_occurrences List.filter].
    destruct (Py.mem (text x) acc) eqn:Hmem; cbn [negb].
    + rewrite IH, filter_twice. f_equal. apply filter_ext. intros y.
      destruct (String.eqb_spec y (text x)) as [->|_]; [by rewrite Hmem|done].
    + rewrite IH, filter_twice, <- app_assoc. cbn [app]. do 2 f_equal.
      apply filter_ext. intros y. rewrite mem_snoc.
      by destruct (Py.mem y acc), (String.eqb y (text x)).
Qed.

End Dedup.

Lemma filter_no_mem (l : list string) :
  List.filter (fun y => negb (Py.mem y [])) l = l.
Proof.
  induction l as [|x l IH]; [done|].
  change (x :: List.filter (fun y => negb (Py.mem y [])) l = x :: l).
  by rewrite IH.
Qed.

Lemma container_labels_first (category_divs : list node) :
  container_labels category_divs
  = first_occurrences
      (List.filter Py.truthy (map Soup.get_text_strip category_divs)).
Proof.
  unfold container_labels.
  etrans;
    [exact (fold_first_occurrences Soup.get_text_strip Py.truthy category_divs [])|].
  by rewrite filter_no_mem.
Qed.

Lemma link_labels_first (category_links : list node) :
  link_labels category_links
  = first_occurrences
      (List.filter (fun t => Py.truthy t && negb (Py.mem t [""; "category"]))
         (map Soup.get_text_strip category_links)).
Proof.
  unfold link_labels.
  etrans;
    [exact (fold_first_occurrences Soup.get_text_strip
              (fun t => Py.truthy t && negb (Py.mem t [""; "category"]))
              category_links [])|].
  by rewrite filter_no_mem.
Qed.

Lemma container_labels_dedup (category_divs : list node) :
  NoDup (container_labels category_divs)
  /\ sublist (container_labels category_divs)
       (map Soup.get_text_strip category_divs)
  /\ (forall t, t ∈ container_labels category_divs
                <-> t <> "" /\ t ∈ map Soup.get_text_strip category_divs).
Proof.
  destruct (fold_dedup Soup.get_text_strip Py.truthy category_divs [])
    as (new & Hfold & Hnd & Hsub & Hin); [constructor|].
  unfold container_labels. cbv zeta in *. rewrite Hfold. cbn [app] in *.
  split; [done|]. split; [done|]. intros t. rewrite Hin.
  split.
  - intros (_ & Ht & ?). split; [|done]. by intros ->.
  - intros (Ht & ?). split; [apply not_elem_of_nil|]. split; [|done].
    by destruct t.
Qed.

Lemma link_labels_dedup (category_links : list node) :
  NoDup (link_labels category_links)
  /\ sublist (link_labels category_links)
       (map Soup.get_text_strip category_links)
  /\ (forall t, t ∈ link_labels category_links
                <-> t <> "" /\ t <> "category"
                    /\ t ∈ map Soup.get_text_strip category_links).
Proof.
  destruct (fold_dedup Soup.get_text_strip
              (fun t => Py.truthy t && negb (Py.mem t [""; "category"]))
              category_links [])
    as (new & Hfold & Hnd & Hsub & Hin); [constructor|].
  unfold link_labels. cbv zeta in *. rewrite Hfold. cbn [app] in *.
  split; [done|]. split; [done|]. intros t. rewrite Hin.
  assert (Hok : Py.truthy t && negb (Py.mem t [""; "category"]) = true
                <-> t <> "" /\ t <> "category").
  { rewrite andb_true_iff, negb_true_iff. split.
    - intros [Ht Hm]. split; [by intros ->|]. intros ->. by vm_compute in Hm.
    - intros [Ht Hc]. split; [by destruct t|].
      destruct (Py.mem t [""; "category"]) eqn:Hm; [|done].
      apply mem_true in Hm.
      apply elem_of_cons in Hm as [->|Hm]; [done|].
      by apply list_elem_of_singleton in Hm as ->. }
  rewrite Hok. split; [by intros (_ & [? ?] & ?)|].
  intros (? & ? & ?). split; [apply not_elem_of_nil|]. by split.
Qed.

End RecordFacts.

(** ** What every result list holds *)

Module ResultFacts.

Import FutureToolsScraper Props MoreProps EffectFacts CardFacts ScraperFacts
  BatchFacts EntryPoints.

Section WithEnv.

Context (env : Env).

(** A property of the result list that holds when it is empty and that
    the card loop keeps, holds of what a scrape returns. *)
Lemma scrape_with_inv (I : list ToolData.t -> Prop) (url : string)
      (max_scrolls : Z) (k : node -> M unit) :
  I [] ->
  (forall soup s1, I (tools s1) -> I (tools (snd (k soup s1)))) ->
  forall s l, fst (scrape_with env url max_scrolls k s) = Ret l -> I l.
Proof.
  intros Hnil Hk s l. unfold scrape_with, bind, set_tools.
  set (s0 := {| driver := driver s; tools := []; live := live s; log := log s |}).
  destruct (scrape_body_run env url max_scrolls s0)
    as (r & s1 & Htools & _ & _ & _ & _ & Hrun).
  unfold try_finally, try_except. rewrite Hrun.
  assert (Hs1 : I (tools s1)) by (by rewrite Htools).
  destruct r as [e|soup].
  - simpl. destruct (close_run s1) as (s' & -> & _ & Ht & _). simpl.
    intros [= <-]. by rewrite Ht.
  - specialize (Hk soup s1 Hs1).
    destruct (k soup s1) as [[[]|e|] s2]; simpl in *; [| |done];
      destruct (close_run s2) as (s' & -> & _ & Ht & _); simpl;
      intros [= <-]; by rewrite Ht.
Qed.

Lemma parse_all_scraped (cards : list pyobj) (s : State) :
  Forall scraped (tools s) ->
  Forall scraped (tools (snd (parse_all env cards s))).
Proof.
  revert s. induction cards as [|card cards IH]; intros s Hs; [done|].
  rewrite parse_all_cons. destruct card as [|tag]; [by apply IH|].
  destruct (name_element tag) as [e|] eqn:He; [|by apply IH].
  apply IH. simpl. apply Forall_app. split; [done|].
  constructor; [|constructor]. by exists tag, e, (now env (length (log s))).
Qed.

Lemma parse_matching_scraped c p (cards : list pyobj) (s : State) :
  Forall scraped (tools s) ->
  Forall scraped (tools (snd (parse_matching env c p cards s))).
Proof.
  revert s. induction cards as [|card cards IH]; intros s Hs; [done|].
  rewrite parse_matching_cons. destruct card as [|tag]; [by apply IH|].
  destruct (name_element tag) as [e|] eqn:He; [|by apply IH].
  cbv zeta. apply IH. destruct (dropped _ _ _); simpl; [done|].
  apply Forall_app. split; [done|].
  constructor; [|constructor]. by exists tag, e, (now env (length (log s))).
Qed.

(** Every record a scrape method returns was built by [_parse_tool_card]. *)
Lemma newly_added_scraped (s : State) (l : list ToolData.t) :
  fst (scrape_newly_added env s) = Ret l -> Forall scraped l.
Proof.
  rewrite newly_added_skeleton. apply scrape_with_inv; [done|].
  intros soup s1. apply parse_all_scraped.
Qed.

Lemma all_tools_scraped (max_pages : option Z) (s : State) (l : list ToolData.t) :
  fst (scrape_all_tools env max_pages s) = Ret l -> Forall scraped l.
Proof.
  rewrite all_tools_skeleton. apply scrape_with_inv; [done|].
  intros soup s1. apply parse_all_scraped.
Qed.

Lemma by_category_scraped c p (s : State) (l : list ToolData.t) :
  fst (scrape_by_category env c p s) = Ret l -> Forall scraped l.
Proof.
  rewrite by_category_skeleton. apply scrape_with_inv; [done|].
  intros soup s1. apply parse_matching_scraped.
Qed.

End WithEnv.

Lemma filter_none {A} (P : A -> Prop) `{forall x, Decision (P x)} (l : list A) :
  Forall (fun x => ~ P x) l -> filter P l = [].
Proof.
  induction 1 as [|x l Hx Hl IH]; [done|]. by rewrite filter_cons_False.
Qed.

Lemma filter_all {A} (P : A -> Prop) `{forall x, Decision (P x)} (l : list A) :
  Forall P l -> filter P l = l.
Proof.
  induction 1 as [|x l Hx Hl IH]; [done|]. rewrite filter_cons_True by done.
  by f_equal.
Qed.

End ResultFacts.

(** ** Further properties of the records and of the category filter *)

Module RecordProperties.

Import FutureToolsScraper Props MoreProps PricingFacts CardFacts LabelFacts
  RecordFacts EntryPoints FilterFacts ResultFacts Examples.

(** X1. [split(", ")] reads back what [", ".join] wrote: for a non-empty
    list of labels none of which holds ", ", splitting the joined string
    gives the list again. This is how [scrape_by_category] recovers the
    labels that [_parse_tool_card] joined. *)
Theorem labels_round_trip (labels : list string) :
  labels <> [] ->
  Forall (fun x => Py.contains ", " x = false) labels ->
  Py.split ", " (Py.join ", " labels) = labels.
Proof. apply split_join. Qed.

Lemma labels_round_trip_witness :
  Py.split ", " (Py.join ", " ["Chat"; "Text-To-Speech"; "For Fun"])
  = ["Chat"; "Text-To-Speech"; "For Fun"].
Proof.
  apply labels_round_trip; [discriminate|]. repeat constructor.
Defined.

(** X2. The pricing field of an emitted record, split on ", ", is the list
    of pricing labels found on the card, or the sentinel "Check tool page"
    alone when none was found; so every piece is a label of the vocabulary
    or the sentinel. *)
Theorem pricing_splits_into_labels (env : Env) (tag : node) (s : State) (r : ToolData.t) :
  fst (_parse_tool_card env (PyTag tag) s) = Ret (Some r) ->
  Py.split ", " (ToolData.pricing r)
  = (if Py.nonempty (pricing_labels (Py.lower (Soup.get_text tag)))
     then pricing_labels (Py.lower (Soup.get_text tag))
     else ["Check tool page"])
  /\ Forall (fun x => x ∈ vocabulary \/ x = "Check tool page")
       (Py.split ", " (ToolData.pricing r)).
Proof.
  intros Hr. apply parse_emits in Hr as (tag' & e & [= <-] & _ & ->). simpl.
  rewrite pricing_field_splits. split; [done|].
  destruct (Py.nonempty _).
  - eapply Forall_impl; [apply pricing_labels_vocabulary|]. by left.
  - constructor; [by right|constructor].
Qed.

Lemma pricing_splits_into_labels_witness :
  exists r,
    fst (_parse_tool_card (static_env (page_of [])) (PyTag full_card) idle)
      = Ret (Some r)
    /\ Py.split ", " (ToolData.pricing r) = ["Paid"; "GitHub"].
Proof.
  eexists. split; [vm_compute; reflexivity|].
  refine (eq_trans
            (proj1 (pricing_splits_into_labels (static_env (page_of [])) full_card
                      idle _ _)) _);
    vm_compute; reflexivity.
Defined.

Lemma scraped_pricing_pieces (r : ToolData.t) :
  scraped r ->
  Forall (fun x => x ∈ vocabulary \/ x = "Check tool page")
    (Py.split ", " (ToolData.pricing r)).
Proof.
  intros (tag & e & stamp & _ & ->). simpl. rewrite pricing_field_splits.
  destruct (Py.nonempty _).
  - eapply Forall_impl; [apply pricing_labels_vocabulary|]. by left.
  - constructor; [by right|constructor].
Qed.

(** X3. A pricing filter none of whose entries is a label of the
    vocabulary or the sentinel matches no record: [scrape_by_category]
    returns the empty list, whatever the page. "Google Colab", which
    [PRICING_FILTERS] offers, is such an entry. *)
Theorem unknown_pricing_filter_matches_nothing
        (env : Env) (categories : option (list string)) (wanted : list string)
        (s : State) :
  wanted <> [] ->
  Forall (fun x => (x ∉ vocabulary) /\ x <> "Check tool page") wanted ->
  fst (scrape_by_category env categories (Some wanted) s) = Ret [].
Proof.
  intros Hne Hunknown.
  destruct (by_category_filters_all env categories (Some wanted) None s)
    as (l & Hall & ->).
  f_equal. apply filter_none.
  eapply Forall_impl; [apply (all_tools_scraped env None s l Hall)|].
  intros r Hr [_ [?|[[= ?]|Hlabel]]]; [done|done|].
  apply Exists_exists in Hlabel as (x & Hx & Hw).
  apply (proj1 (Forall_forall _ _) (scraped_pricing_pieces r Hr)) in Hx.
  apply (proj1 (Forall_forall _ _) Hunknown) in Hw as [? ?].
  by destruct Hx.
Qed.

Lemma unknown_pricing_filter_matches_nothing_witness :
  In "Google Colab" PRICING_FILTERS
  /\ fst (scrape_by_category (static_env (page_of [full_card; free_card]))
            None (Some ["Google Colab"]) idle) = Ret [].
Proof.
  split; [vm_compute; tauto|].
  apply unknown_pricing_filter_matches_nothing; [discriminate|].
  constructor; [|constructor]. split; [|discriminate].
  unfold vocabulary, canonical_labels. intros H.
  repeat (apply elem_of_cons in H as [H|H]; [discriminate|]).
  by apply elem_of_nil in H.
Defined.

(** X4. The category labels of a card hold no label twice. Each of the two
    loops gives exactly the first occurrence of every text it accepts, in
    page order: the container loop accepts the non-empty texts, the link
    loop the non-empty texts other than "category". *)
Theorem category_labels_deduplicated :
  (forall category_divs,
     container_labels category_divs
     = first_occurrences
         (List.filter Py.truthy (map Soup.get_text_strip category_divs))
     /\ NoDup (container_labels category_divs)
     /\ sublist (container_labels category_divs)
          (map Soup.get_text_strip category_divs)
     /\ (forall t, t ∈ container_labels category_divs
                   <-> t <> "" /\ t ∈ map Soup.get_text_strip category_divs))
  /\ (forall category_links,
        link_labels category_links
        = first_occurrences
            (List.filter (fun t => Py.truthy t && negb (Py.mem t [""; "category"]))
               (map Soup.get_text_strip category_links))
        /\ NoDup (link_labels category_links)
        /\ sublist (link_labels category_links)
             (map Soup.get_text_strip category_links)
        /\ (forall t, t ∈ link_labels category_links
                      <-> t <> "" /\ t <> "category"
                          /\ t ∈ map Soup.get_text_strip category_links))
  /\ (forall card, NoDup (category_labels card)).
Proof.
  split; [intros divs; split;
            [apply container_labels_first|apply container_labels_dedup]|].
  split; [intros links; split; [apply link_labels_first|apply link_labels_dedup]|].
  intros card. unfold category_labels.
  destruct (Soup.find "div" _ None card) as [c|]; cbv zeta.
  - destruct (Py.nonempty (container_labels _)); simpl;
      [apply container_labels_dedup|apply link_labels_dedup].
  - simpl. apply link_labels_dedup.
Qed.

(** X5. Every record that a scrape method returns has a url that is empty
    or is the site's address followed by a path that starts with
    "/tools/". *)
Theorem urls_point_into_site
        (env : Env) (categories pricing_filters : option (list string))
        (max_pages : option Z) (s : State) :
  (exists l, fst (scrape_newly_added env s) = Ret l
             /\ Forall (fun r => tool_url (ToolData.url r)) l)
  /\ (exists l, fst (scrape_by_category env categories pricing_filters s) = Ret l
                /\ Forall (fun r => tool_url (ToolData.url r)) l)
  /\ (exists l, fst (scrape_all_tools env max_pages s) = Ret l
                /\ Forall (fun r => tool_url (ToolData.url r)) l).
Proof.
  assert (Hurl : forall l, Forall scraped l ->
                           Forall (fun r => tool_url (ToolData.url r)) l).
  { intros l Hl. eapply Forall_impl; [exact Hl|].
    intros r (tag & e & stamp & _ & ->). apply card_url_tool_url. }
  destruct (newly_added_run env s) as (s1 & H1 & _),
    (by_category_run env s categories pricing_filters) as (s2 & H2 & _),
    (all_tools_run env s max_pages) as (s3 & H3 & _).
  split; [|split].
  - exists (tools s1). rewrite H1. split; [done|].
    apply Hurl, (newly_added_scraped env s). by rewrite H1.
  - exists (tools s2). rewrite H2. split; [done|].
    apply Hurl, (by_category_scraped env categories pricing_filters s).
    by rewrite H2.
  - exists (tools s3). rewrite H3. split; [done|].
    apply Hurl, (all_tools_scraped env max_pages s). by rewrite H3.
Qed.

(** X11. Called with no category filter (none given, an empty list, or
    the full list) and no pricing filter (none given or an empty list),
    [scrape_by_category] returns what [scrape_all_tools] returns. *)
Theorem by_category_defaults_to_all
        (env : Env) (categories pricing_filters : option (list string))
        (max_pages : option Z) (s : State) :
  categories = None \/ categories = Some [] \/ categories = Some CATEGORIES ->
  pricing_filters = None \/ pricing_filters = Some [] ->
  fst (scrape_by_category env categories pricing_filters s)
  = fst (scrape_all_tools env max_pages s).
Proof.
  intros Hc Hp.
  destruct (by_category_filters_all env categories pricing_filters max_pages s)
    as (l & -> & ->).
  f_equal. apply filter_all, Forall_forall. intros r _. split.
  - destruct Hc as [?|[?|?]]; by auto.
  - destruct Hp; by auto.
Qed.

Lemma by_category_defaults_to_all_witness :
  fst (scrape_by_category (static_env (page_of [full_card; free_card])) None None idle)
  = fst (scrape_all_tools (static_env (page_of [full_card; free_card])) None idle).
Proof. apply by_category_defaults_to_all; by left. Defined.

(** X12. The two filters of [scrape_by_category] work apart: filtering by
    categories and pricing gives the result of filtering by categories
    alone, filtered by pricing, and the other way round. *)
Theorem category_and_pricing_filters_compose
        (env : Env) (categories pricing_filters : option (list string)) (s : State) :
  exists by_category by_pricing,
    fst (scrape_by_category env categories None s) = Ret by_category
    /\ fst (scrape_by_category env None pricing_filters s) = Ret by_pricing
    /\ fst (scrape_by_category env categories pricing_filters s)
       = Ret (filter (kept None pricing_filters) by_category)
    /\ fst (scrape_by_category env categories pricing_filters s)
       = Ret (filter (kept categories None) by_pricing).
Proof.
  destruct (by_category_filters_all env categories pricing_filters None s)
    as (l & Hall & ->).
  destruct (by_category_filters_all env categories None None s) as (l1 & H1 & ->).
  destruct (by_category_filters_all env None pricing_filters None s) as (l2 & H2 & ->).
  rewrite Hall in H1, H2. injection H1 as <-. injection H2 as <-.
  eexists _, _. split; [done|]. split; [done|].
  rewrite !list_filter_filter.
  split; f_equal; apply list_filter_iff; intros r; unfold kept; tauto.
Qed.

End RecordProperties.

(** ** Further properties of the card loop, the session and the scroll loop *)

Module LoopFacts.

Import FutureToolsScraper Props MoreProps EffectFacts CardFacts ScraperFacts
  BatchFacts.

Lemma replicate_snoc {A} (n : nat) (x : A) (l : list A) :
  replicate n x ++ x :: l = x :: replicate n x ++ l.
Proof. induction n as [|n IH]; simpl; [done|]. by rewrite IH. Qed.

Lemma concat_replicate_comm {A} (n : nat) (x : list A) :
  concat (replicate n x) ++ x = x ++ concat (replicate n x).
Proof.
  induction n as [|n IH]; simpl; [by rewrite app_nil_r|].
  by rewrite <- app_assoc, IH.
Qed.

Section Bounds.

Context {A B : Type} (p : event -> bool).

Lemma emits_weaken (n n' : nat) (m : M A) :
  n <= n' -> emits_at_most p n m -> emits_at_most p n' m.
Proof. intros Hle Hm s. specialize (Hm s). lia. Qed.

Lemma emits_ret (a : A) : emits_at_most p 0 (ret a).
Proof. intros s. simpl. lia. Qed.

Lemma emits_request (ev : event) (answer : nat -> exn + A) :
  emits_at_most p 1 (request ev answer).
Proof.
  intros s. unfold request, count_events.
  destruct (answer _); simpl; destruct (p ev); simpl; lia.
Qed.

Lemma emits_request_other (ev : event) (answer : nat -> exn + A) :
  p ev = false -> emits_at_most p 0 (request ev answer).
Proof.
  intros Hev s. unfold request, count_events.
  destruct (answer _); simpl; rewrite Hev; lia.
Qed.

Lemma emits_bind (n1 n2 : nat) (m : M A) (k : A -> M B) :
  emits_at_most p n1 m -> (forall a, emits_at_most p n2 (k a)) ->
  emits_at_most p (n1 + n2) (bind m k).
Proof.
  intros Hm Hk s. unfold bind. specialize (Hm s).
  destruct (m s) as [[a|e|] s']; simpl in *; [|lia..].
  specialize (Hk a s'). lia.
Qed.

Lemma emits_try_except (n1 n2 : nat) (m : M A) (h : exn -> M A) :
  emits_at_most p n1 m -> (forall e, emits_at_most p n2 (h e)) ->
  emits_at_most p (n1 + n2) (try_except m h).
Proof.
  intros Hm Hh s. unfold try_except. specialize (Hm s).
  destruct (m s) as [[a|e|] s']; simpl in *; [lia| |lia].
  specialize (Hh e s'). lia.
Qed.

End Bounds.

Lemma emits_driver_request {A} (p : event -> bool) ev (answer : nat -> exn + A) :
  emits_at_most p 1 (driver_request ev answer).
Proof.
  unfold driver_request. apply (emits_bind p 0 1); [|intros _; apply emits_request].
  intros s. unfold the_driver. destruct (driver s); simpl; lia.
Qed.

Lemma emits_driver_request_other {A} (p : event -> bool) ev (answer : nat -> exn + A) :
  p ev = false -> emits_at_most p 0 (driver_request ev answer).
Proof.
  intros Hev. unfold driver_request.
  apply (emits_bind p 0 0); [|intros _; by apply emits_request_other].
  intros s. unfold the_driver. destruct (driver s); simpl; lia.
Qed.

Section WithEnv.

Context (env : Env).

Lemma clicks_try_load_more : emits_at_most is_click 1 (try_load_more env).
Proof.
  unfold try_load_more.
  apply (emits_try_except is_click 1 0); [|intros _; apply emits_ret].
  apply (emits_bind is_click 0 1); [by apply emits_driver_request_other|].
  intros [|first rest]; [eapply emits_weaken; [|apply emits_ret]; lia|].
  apply (emits_bind is_click 0 1); [by apply emits_request_other|].
  intros []; [|eapply emits_weaken; [|apply emits_ret]; lia].
  apply (emits_bind is_click 1 0); [apply emits_request|]. intros _.
  apply (emits_bind is_click 0 0); [by apply emits_driver_request_other|].
  intros h. apply emits_ret.
Qed.

Lemma requests_try_load_more : emits_at_most any_event 4 (try_load_more env).
Proof.
  unfold try_load_more.
  apply (emits_try_except any_event 4 0); [|intros _; apply emits_ret].
  apply (emits_bind any_event 1 3); [apply emits_driver_request|].
  intros [|first rest]; [eapply emits_weaken; [|apply emits_ret]; lia|].
  apply (emits_bind any_event 1 2); [apply emits_request|].
  intros []; [|eapply emits_weaken; [|apply emits_ret]; lia].
  apply (emits_bind any_event 1 1); [apply emits_request|]. intros _.
  apply (emits_bind any_event 1 0); [apply emits_driver_request|].
  intros h. apply emits_ret.
Qed.

(** A turn of the loop makes at most [per_turn] requests of the kind [p]
    when the load-more attempt makes at most [attempt] and the two requests
    that open a turn make at most [opening]. *)
Lemma emits_scroll_loop (p : event -> bool) (opening attempt : nat)
      (fuel : nat) (max_scrolls scrolls nc last : Z) :
  emits_at_most p opening
    (driver_request EvScroll (scroll_to_bottom env) ;;;
     driver_request EvHeight (scroll_height env)) ->
  emits_at_most p attempt (try_load_more env) ->
  emits_at_most p ((opening + attempt) * Z.to_nat (max_scrolls - scrolls))
    (scroll_loop env fuel max_scrolls scrolls nc last).
Proof.
  intros Hopen Hattempt. revert scrolls nc last.
  induction fuel as [|fuel IH]; intros scrolls nc last; simpl;
    destruct (Z.ltb_spec scrolls max_scrolls) as [Hlt|Hge];
    try (intros s; simpl; apply Nat.le_add_r).
  replace (Z.to_nat (max_scrolls - scrolls))
    with (S (Z.to_nat (max_scrolls - (scrolls + 1)))) by lia.
  rewrite Nat.mul_succ_r.
  pose proof (fun c h => IH (scrolls + 1)%Z c h) as IH'.
  remember ((opening + attempt) * Z.to_nat (max_scrolls - (scrolls + 1)))%nat
    as budget eqn:Hbudget.
  clear IH Hbudget.
  intros s. specialize (Hopen s). unfold bind in Hopen |- *.
  destruct (driver_request EvScroll (scroll_to_bottom env) s) as [[[]|e|] s1];
    simpl in *; [|lia..].
  destruct (driver_request EvHeight (scroll_height env) s1) as [[h|e|] s2];
    simpl in *; [|lia..].
  match goal with
  | |- context [(if (h =? last)%Z then ?a else ?b) s2] =>
      assert (Hctl : emits_at_most p attempt (if (h =? last)%Z then a else b));
        [|specialize (Hctl s2);
          destruct ((if (h =? last)%Z then a else b) s2) as [[[|h' c]|e|] s3]]
  end; simpl in *; [|lia| |lia..].
  { destruct (h =? last)%Z; [|eapply emits_weaken; [|apply emits_ret]; lia].
    destruct (nc + 1 >=? 3)%Z; [done|].
    eapply emits_weaken; [|apply emits_ret]; lia. }
  specialize (IH' c h' s3). lia.
Qed.

Lemma opening_clicks :
  emits_at_most is_click 0
    (driver_request EvScroll (scroll_to_bottom env) ;;;
     driver_request EvHeight (scroll_height env)).
Proof.
  apply (emits_bind is_click 0 0); [by apply emits_driver_request_other|].
  intros _. by apply emits_driver_request_other.
Qed.

Lemma opening_requests :
  emits_at_most any_event 2
    (driver_request EvScroll (scroll_to_bottom env) ;;;
     driver_request EvHeight (scroll_height env)).
Proof.
  apply (emits_bind any_event 1 1); [apply emits_driver_request|].
  intros _. apply emits_driver_request.
Qed.

Lemma count_any (l : list event) : count_events any_event l = length l.
Proof.
  unfold count_events. induction l as [|x l IH]; simpl; [done|]. by rewrite IH.
Qed.

(** *** A page that grows at every scroll *)

Lemma growing_loop (max_scrolls : Z) (d : nat) (n : nat) :
  forall (fuel : nat) (scrolls nc : Z) (s : State) (heights : nat -> Z),
    driver s = Some d ->
    Z.to_nat (max_scrolls - scrolls) = n ->
    n <= fuel ->
    (forall i, i < n ->
               scroll_to_bottom env (length (log s) + 2 * i) = inr tt
               /\ scroll_height env (length (log s) + 2 * i + 1)
                  = inr (heights (S i))
               /\ heights (S i) <> heights i) ->
    scroll_loop env fuel max_scrolls scrolls nc (heights 0%nat) s
    = (Ret tt, after (concat (replicate n [EvHeight; EvScroll])) s).
Proof.
  induction n as [|n IH]; intros fuel scrolls nc s heights Hd Hn Hfuel Hgrow.
  - destruct s, fuel; simpl;
      destruct (Z.ltb_spec scrolls max_scrolls); (reflexivity || lia).
  - destruct fuel as [|fuel]; [lia|].
    destruct (Hgrow 0%nat) as (Hscroll & Hheight & Hne); [lia|].
    rewrite Nat.mul_0_r, Nat.add_0_r in Hscroll, Hheight.
    rewrite Nat.add_1_r in Hheight.
    rewrite (turn_changed env fuel max_scrolls scrolls nc (heights 0%nat)
               (heights 1%nat) s d) by (done || lia).
    rewrite (IH fuel (scrolls + 1)%Z 0%Z _ (fun i => heights (S i)));
      [|done|lia|lia|].
    + unfold after. simpl. f_equal. f_equal.
      change (EvHeight :: EvScroll :: log s) with ([EvHeight; EvScroll] ++ log s).
      rewrite app_assoc, concat_replicate_comm. by rewrite <- !app_assoc.
    + intros i Hi. destruct (Hgrow (S i)) as (H1 & H2 & H3); [lia|].
      simpl length.
      replace (S (S (length (log s))) + 2 * i)%nat
        with (length (log s) + 2 * S i)%nat by lia.
      by split.
Qed.

End WithEnv.

End LoopFacts.

Module LoopProperties.

Import FutureToolsScraper Props MoreProps EffectFacts CardFacts ScraperFacts
  BatchFacts LoopFacts Examples MoreExamples.

(** X6. The card loop appends one record per card that has a name element,
    in the order of the cards, and nothing else: the new records agree
    field by field with the records of the cards, each is stamped with its
    own reading of the clock, and the clock is the only thing asked for. *)
Theorem records_follow_page_order (env : Env) (cards : list pyobj) (s : State) :
  exists new,
    parse_all env cards s
    = (Ret tt, {| driver := driver s; tools := tools s ++ new; live := live s;
                  log := replicate (length new) EvNow ++ log s |})
    /\ Forall2 same_fields new (omap card_record cards)
    /\ map ToolData.scraped_at new
       = map (fun i => now env (length (log s) + i)) (seq 0 (length new)).
Proof.
  revert s. induction cards as [|card cards IH]; intros s.
  - exists []. rewrite app_nil_r. destruct s. by repeat split; constructor.
  - rewrite parse_all_cons. destruct card as [|tag]; [apply IH|].
    cbn [omap list_omap card_record]. fold (omap card_record cards).
    destruct (name_element tag) as [e|] eqn:He; [|apply IH].
    set (r := tool_record tag e (now env (length (log s)))).
    destruct (IH (emit r s)) as (new & -> & Hsame & Hstamps).
    exists (r :: new). split; [|split].
    + simpl. f_equal. f_equal; [by rewrite <- app_assoc|].
      apply replicate_snoc.
    + constructor; [by repeat split|done].
    + cbn [map length seq]. f_equal; [simpl; f_equal; lia|].
      rewrite Hstamps, <- seq_shift, map_map. simpl length.
      apply map_ext. intros i. f_equal. lia.
Qed.

(** X7. Closing twice is closing once: the second [_close_driver] finds
    no driver and does nothing, so a session is quit at most once; and
    with no driver to begin with nothing happens at all. *)
Theorem close_driver_idempotent (s : State) :
  (_close_driver ;;; _close_driver) s = _close_driver s
  /\ driver (snd (_close_driver s)) = None
  /\ log (snd (_close_driver s))
     = match driver s with Some d => EvQuit d :: log s | None => log s end.
Proof.
  unfold bind, _close_driver. destruct (driver s) eqn:Hd; simpl; [done|].
  by rewrite Hd.
Qed.

(** X8. [_setup_driver] never closes a session: started twice in a row
    with Chrome coming up both times, it leaves the first session open and
    out of reach, since [_close_driver] then quits the second one only. *)
Theorem second_setup_leaks_first_session (env : Env) (s : State) :
  chrome_start env (length (log s)) = inr tt ->
  chrome_start env (S (length (log s))) = inr tt ->
  exists first second s',
    (_setup_driver env ;;; _setup_driver env ;;; _close_driver) s = (Ret tt, s')
    /\ (first ∉ live s) /\ first <> second
    /\ driver s' = None
    /\ live s' = {[first]} ∪ live s
    /\ log s' = EvQuit second :: EvChrome :: EvChrome :: log s.
Proof.
  intros H1 H2.
  exists (fresh (live s)), (fresh ({[fresh (live s)]} ∪ live s)).
  unfold bind, _setup_driver, bind, request. rewrite H1. simpl. rewrite H2. simpl.
  eexists. split; [reflexivity|]. simpl.
  pose proof (is_fresh (live s)) as Hf1.
  pose proof (is_fresh ({[fresh (live s)]} ∪ live s)) as Hf2.
  split; [done|]. split.
  { intros Heq. apply Hf2. rewrite <- Heq. apply elem_of_union. left.
    by apply elem_of_singleton. }
  split; [done|]. split; [|done].
  by apply start_quit_same.
Qed.

Lemma second_setup_leaks_first_session_witness :
  exists first second s',
    (_setup_driver (static_env (page_of [])) ;;;
     _setup_driver (static_env (page_of [])) ;;; _close_driver) idle = (Ret tt, s')
    /\ (first ∉ live idle) /\ first <> second
    /\ driver s' = None
    /\ live s' = {[first]} ∪ live idle
    /\ log s' = EvQuit second :: EvChrome :: EvChrome :: log idle.
Proof.
  apply (second_setup_leaks_first_session (static_env (page_of [])) idle);
    reflexivity.
Defined.

(** X9. Running out of budget is an ordinary end: on a page whose height
    changes at every scroll (all requests succeeding), the loop scrolls
    exactly [max_scrolls] times, looks for no control, clicks nothing and
    returns. *)
Theorem growing_page_uses_whole_budget
        (env : Env) (max_scrolls : Z) (heights : nat -> Z) (s : State) (d : nat) :
  driver s = Some d ->
  scroll_height env (length (log s)) = inr (heights 0%nat) ->
  (forall i, i < Z.to_nat max_scrolls ->
             scroll_to_bottom env (length (log s) + 1 + 2 * i) = inr tt
             /\ scroll_height env (length (log s) + 2 + 2 * i) = inr (heights (S i))
             /\ heights (S i) <> heights i) ->
  _scroll_to_load_all env max_scrolls s
  = (Ret tt,
     after (concat (replicate (Z.to_nat max_scrolls) [EvHeight; EvScroll])
            ++ [EvHeight]) s).
Proof.
  intros Hd H0 Hgrow.
  unfold _scroll_to_load_all, bind, driver_request, bind, the_driver, request.
  rewrite Hd, H0.
  rewrite (growing_loop env max_scrolls d (Z.to_nat max_scrolls)
             (Z.to_nat max_scrolls) 0 0 (record_event EvHeight s) heights);
    [|done|lia|lia|].
  - unfold after. simpl. f_equal. f_equal. by rewrite <- app_assoc.
  - intros i Hi. destruct (Hgrow i Hi) as (Hs & Hh & Hne). simpl length.
    replace (S (length (log s)) + 2 * i)%nat
      with (length (log s) + 1 + 2 * i)%nat by lia.
    replace (length (log s) + 1 + 2 * i + 1)%nat
      with (length (log s) + 2 + 2 * i)%nat by lia.
    by split.
Qed.

Lemma growing_page_uses_whole_budget_witness :
  _scroll_to_load_all growing_env 3 session_open
  = (Ret tt,
     after [EvHeight; EvScroll; EvHeight; EvScroll; EvHeight; EvScroll; EvHeight]
       session_open).
Proof.
  apply (growing_page_uses_whole_budget growing_env 3
           (fun i => Z.of_nat (2 * i)) session_open 0%nat); [reflexivity..|].
  intros i Hi. split; [reflexivity|]. split; [simpl; f_equal; lia|lia].
Defined.

(** X10. The scroll loop costs the browser a bounded number of calls: at
    most one click per turn, hence at most [max_scrolls] clicks, and at
    most [1 + 6 * max_scrolls] requests in all. *)
Theorem scroll_requests_bounded (env : Env) (max_scrolls : Z) (s : State) :
  count_events is_click (log (snd (_scroll_to_load_all env max_scrolls s)))
  <= count_events is_click (log s) + Z.to_nat max_scrolls
  /\ length (log (snd (_scroll_to_load_all env max_scrolls s)))
     <= length (log s) + 1 + 6 * Z.to_nat max_scrolls.
Proof.
  split.
  - assert (H : emits_at_most is_click (0 + (0 + 1) * Z.to_nat (max_scrolls - 0))
                  (_scroll_to_load_all env max_scrolls)).
    { unfold _scroll_to_load_all. apply emits_bind.
      - by apply emits_driver_request_other.
      - intros last. apply emits_scroll_loop;
          [apply opening_clicks|apply clicks_try_load_more]. }
    specialize (H s). lia.
  - assert (H : emits_at_most any_event (1 + (2 + 4) * Z.to_nat (max_scrolls - 0))
                  (_scroll_to_load_all env max_scrolls)).
    { unfold _scroll_to_load_all. apply emits_bind.
      - apply emits_driver_request.
      - intros last. apply emits_scroll_loop;
          [apply opening_requests|apply requests_try_load_more]. }
    specialize (H s). rewrite !count_any in H. lia.
Qed.

End LoopProperties.

(** ** The dashboard *)

Module DashboardFacts.

Import FutureToolsScraper Props MoreProps PricingFacts LabelFacts App.

(** *** Pagination *)

(** A page inside the list is the chunk of ten that starts at its first
    index. *)
Lemma page_tools_chunk {A} (l : list A) (i : nat) :
  10 * i < length l ->
  page_tools l (Z.of_nat i + 1) = take 10 (drop (10 * i) l).
Proof.
  intros Hi. unfold page_tools, slice, end_idx, start_idx, slice_index,
    tools_per_page.
  replace (Z.of_nat i + 1 - 1)%Z with (Z.of_nat i) by lia.
  destruct (Z.ltb_spec (Z.of_nat i * 10) 0) as [?|_]; [lia|].
  destruct (Z.ltb_spec (Z.min (Z.of_nat i * 10 + 10) (Z.of_nat (length l))) 0)
    as [?|_]; [lia|].
  replace (Z.to_nat (Z.min (Z.of_nat i * 10) (Z.of_nat (length l))))
    with (10 * i)%nat by lia.
  destruct (decide (10 * i + 10 <= length l)) as [Hfull|Hshort].
  - f_equal. lia.
  - rewrite !take_ge; [done|rewrite length_drop; lia..].
Qed.

Lemma chunks_concat {A} (l : list A) (k : nat) :
  concat (map (fun i => take 10 (drop (10 * i) l)) (seq 0 k)) = take (10 * k) l.
Proof.
  induction k as [|k IH]; [by rewrite Nat.mul_0_r|].
  rewrite seq_S, map_app, concat_app, IH. simpl. rewrite app_nil_r.
  rewrite take_take_drop. f_equal. lia.
Qed.

Lemma pages_in_list (n : Z) (i : nat) :
  (1 <= n)%Z -> i < Z.to_nat (total_pages n) -> (10 * Z.of_nat i < n)%Z.
Proof.
  unfold total_pages, tools_per_page. intros Hn Hi.
  pose proof (Z.mul_div_le (n - 1) 10 ltac:(lia)).
  pose proof (Z.div_pos (n - 1) 10 ltac:(lia) ltac:(lia)). lia.
Qed.

(** *** The filters *)

Lemma filter_sublist {A} (f : A -> bool) (l : list A) :
  sublist (List.filter f l) l.
Proof.
  induction l as [|x l IH]; simpl; [constructor|].
  destruct (f x); by constructor.
Qed.

Lemma filter_filter_and {A} (f g : A -> bool) (l : list A) :
  List.filter f (List.filter g l) = List.filter (fun x => g x && f x) l.
Proof.
  induction l as [|x l IH]; simpl; [done|].
  destruct (g x); simpl; [destruct (f x)|]; by rewrite IH.
Qed.

Lemma filter_if {A} (b : bool) (f : A -> bool) (l : list A) :
  (if b then List.filter f l else l) = List.filter (fun x => negb b || f x) l.
Proof.
  destruct b; simpl; [done|].
  induction l as [|x l IH]; simpl; [done|]. by rewrite <- IH.
Qed.

Lemma filter_id {A} (f : A -> bool) (l : list A) :
  Forall (fun x => f x = true) l -> List.filter f l = l.
Proof. induction 1 as [|x l Hx _ IH]; simpl; [done|]. by rewrite Hx, IH. Qed.

Lemma filter_passes {A} (f : A -> bool) (l : list A) :
  Forall (fun x => f x = true) (List.filter f l).
Proof.
  induction l as [|x l IH]; simpl; [constructor|].
  destruct (f x) eqn:Hx; [by constructor|done].
Qed.

(** A comprehension whose test raises on no row is a filter; it returns
    exactly when the test returns on every row. *)
Lemma comprehension_inr {A} (test : A -> exn + bool) (l kept : list A) :
  comprehension test l = inr kept ->
  Forall (fun x => exists keep, test x = inr keep) l
  /\ kept = List.filter
              (fun x => match test x with inr true => true | _ => false end) l.
Proof.
  revert kept. induction l as [|x l IH]; intros kept; simpl.
  - intros [= <-]. by split; [constructor|].
  - destruct (test x) as [e|keep] eqn:Hx; [done|].
    destruct (comprehension test l) as [e|rest]; [done|].
    intros [= <-]. destruct (IH rest eq_refl) as [Hall ->].
    split; [constructor; [by exists keep|done]|]. by destruct keep.
Qed.

Lemma comprehension_returns {A} (test : A -> exn + bool) (l : list A) :
  Forall (fun x => exists keep, test x = inr keep) l ->
  exists kept, comprehension test l = inr kept.
Proof.
  induction 1 as [|x l [keep Hx] _ [rest IH]]; simpl; [by eexists|].
  rewrite Hx, IH. by eexists.
Qed.

Lemma comprehension_kept {A} (test : A -> exn + bool) (l : list A) :
  Forall (fun x => test x = inr true) l -> comprehension test l = inr l.
Proof. induction 1 as [|x l Hx _ IH]; simpl; [done|]. by rewrite Hx, IH. Qed.

(** The test of the search returns on the rows it can read. *)
Lemma matches_search_returns (search_query : string) (row : Row.t) :
  (exists keep, matches_search search_query row = inr keep)
  <-> searchable search_query row.
Proof.
  unfold matches_search, searchable.
  destruct (Row.name row) as [name| |]; simpl.
  - destruct (Py.contains (Py.lower search_query) (Py.lower name)) eqn:Hname.
    + split; [intros _; exists name; by auto|by eexists].
    + destruct (Row.description row) as [description| |]; simpl.
      * split; [intros _; exists name; split; [done|]; right; by exists description
               |by eexists].
      * split; [by intros [? ?]|].
        intros (? & [= <-] & [?|[? ?]]); [congruence|done].
      * split; [by intros [? ?]|].
        intros (? & [= <-] & [?|[? ?]]); [congruence|done].
  - split; [by intros [? ?]|by intros (? & ? & _)].
  - split; [by intros [? ?]|by intros (? & ? & _)].
Qed.

(** The two selections as one test. *)
Lemma selections_filter (filter_categories filter_pricing : list string)
      (l : list Row.t) :
  (if Py.nonempty filter_pricing
   then List.filter (fun t => any_within filter_pricing (Row.pricing t))
          (if Py.nonempty filter_categories
           then List.filter
                  (fun t => any_within filter_categories (Row.categories t)) l
           else l)
   else if Py.nonempty filter_categories
        then List.filter (fun t => any_within filter_categories (Row.categories t)) l
        else l)
  = List.filter
      (fun t =>
         (negb (Py.nonempty filter_categories)
          || any_within filter_categories (Row.categories t))
         && (negb (Py.nonempty filter_pricing)
             || any_within filter_pricing (Row.pricing t)))
      l.
Proof.
  rewrite (filter_if (Py.nonempty filter_categories)).
  rewrite (filter_if (Py.nonempty filter_pricing)).
  by rewrite filter_filter_and.
Qed.

(** The three filters: the search, which can raise, then one test. *)
Lemma filtered_tools_filter (search_query : string)
      (filter_categories filter_pricing : list string) (tools_data : list Row.t) :
  filtered_tools search_query filter_categories filter_pricing tools_data
  = match (if Py.truthy search_query
           then comprehension (matches_search search_query) tools_data
           else inr tools_data) with
    | inl e => inl e
    | inr found =>
        inr (List.filter
               (fun t =>
                  (negb (Py.nonempty filter_categories)
                   || any_within filter_categories (Row.categories t))
                  && (negb (Py.nonempty filter_pricing)
                      || any_within filter_pricing (Row.pricing t)))
               found)
    end.
Proof.
  unfold filtered_tools. cbv zeta.
  destruct (if Py.truthy search_query then _ else _) as [e|found]; [done|].
  f_equal. apply selections_filter.
Qed.

(** *** The options of the filter widgets *)

Lemma options_of_spec (skipped : string) (fields : list string) (x : string) :
  x ∈ options_of skipped fields
  <-> x <> "" /\ x <> skipped
      /\ exists field, In field fields /\ In x (Py.split ", " field).
Proof.
  unfold options_of.
  enough (Hgen : forall acc : gset string,
             x ∈ fold_left
                   (fun all field =>
                      all ∪ list_to_set
                              (List.filter
                                 (fun x => Py.truthy x && negb (String.eqb x skipped))
                                 (Py.split ", " field)))
                   fields acc
             <-> x ∈ acc
                 \/ (x <> "" /\ x <> skipped
                     /\ exists field, In field fields /\ In x (Py.split ", " field))).
  { rewrite Hgen. split; [intros [?%not_elem_of_empty|?]; done|by right]. }
  induction fields as [|field fields IH]; intros acc; simpl.
  - split; [by left|]. intros [?|(_ & _ & ? & [] & _)]. done.
  - rewrite IH, elem_of_union, elem_of_list_to_set, list_elem_of_In, filter_In,
      andb_true_iff, negb_true_iff, String.eqb_neq.
    split.
    + intros [[?|(Hx & Ht & Hs)]|(? & ? & f & ? & ?)].
      * by left.
      * right. split; [by intros ->|]. split; [done|]. exists field. by split; [left|].
      * right. split; [done|]. split; [done|]. exists f. by split; [right|].
    + intros [?|(Hne & Hs & f & [<-|Hf] & Hx)].
      * by left; left.
      * left. right. split; [done|]. split; [by destruct x|done].
      * right. split; [done|]. split; [done|]. by exists f.
Qed.

(** *** The statistics *)

(** For a record of the scraper, "Free" occurs in the pricing field
    exactly when one of Free, Free Trial, Freemium is among its labels. *)
Lemma free_word_labels (all_text : string) :
  Py.contains "Free" (joined_or "Check tool page" (pricing_labels all_text))
  = any_label_in free_labels (joined_or "Check tool page" (pricing_labels all_text)).
Proof.
  rewrite pricing_labels_eq, keyword_labels_filter.
  unfold pricing_keywords. simpl.
  destruct (Py.contains "paid" all_text), (Py.contains "free trial" all_text),
    (Py.contains "freemium" all_text), (Py.contains "open source" all_text),
    (Py.contains "github" all_text), (Py.contains "free" all_text);
    vm_compute; reflexivity.
Qed.

Lemma paid_word_labels (all_text : string) :
  Py.contains "Paid" (joined_or "Check tool page" (pricing_labels all_text))
  = any_label_in ["Paid"] (joined_or "Check tool page" (pricing_labels all_text)).
Proof.
  rewrite pricing_labels_eq, keyword_labels_filter.
  unfold pricing_keywords. simpl.
  destruct (Py.contains "paid" all_text), (Py.contains "free trial" all_text),
    (Py.contains "freemium" all_text), (Py.contains "open source" all_text),
    (Py.contains "github" all_text), (Py.contains "free" all_text);
    vm_compute; reflexivity.
Qed.

(** *** The two ways of matching a selection *)

Lemma filter_sublist_impl {A} (f g : A -> bool) (l : list A) :
  (forall x, f x = true -> g x = true) ->
  sublist (List.filter f l) (List.filter g l).
Proof.
  intros Himpl. induction l as [|x l IH]; simpl; [constructor|].
  destruct (f x) eqn:Hf.
  - rewrite (Himpl x Hf). by constructor.
  - destruct (g x); [by constructor|done].
Qed.

(** A label of the field that is in the selection is a text of the
    selection that occurs in the field. *)
Lemma any_label_within (wanted : list string) (field : string) :
  any_label_in wanted field = true -> any_within wanted field = true.
Proof.
  unfold any_label_in, any_within. rewrite !existsb_exists.
  intros (x & Hx & Hmem). exists x. split.
  - apply list_elem_of_In. by apply mem_true.
  - apply (split_piece_contained ", "). by apply list_elem_of_In.
Qed.

Lemma lower_truthy (s : string) : Py.truthy (Py.lower s) = Py.truthy s.
Proof. by destruct s. Qed.

Lemma records_of_scraped (cards : list node) :
  Forall scraped_row (MoreExamples.records_of cards).
Proof.
  unfold MoreExamples.records_of.
  induction cards as [|card cards IH]; [constructor|].
  cbn [omap list_omap card_record].
  destruct (name_element card) as [name_elem|] eqn:Hname; [|done].
  cbn [map]. constructor; [|done].
  exists (tool_record card name_elem ""). split; [|done].
  by exists card, name_elem, "".
Qed.

End DashboardFacts.

(** ** Properties of the dashboard *)

Module DashboardProperties.

Import FutureToolsScraper Props MoreProps Examples MoreExamples PricingFacts
  LabelFacts RecordProperties DashboardFacts App.

(** X13. Pagination ([main]): for a non-empty list and a page number in
    the range of the widget, the page shown has between one and ten tools,
    every page before the last has ten, and the tools shown are tools of
    the list, in its order. *)
Theorem page_sizes {A} (filtered : list A) (page : Z) :
  filtered <> [] ->
  (1 <= page <= total_pages (Z.of_nat (length filtered)))%Z ->
  1 <= length (page_tools filtered page) <= 10
  /\ ((page < total_pages (Z.of_nat (length filtered)))%Z ->
      length (page_tools filtered page) = 10)
  /\ sublist (page_tools filtered page) filtered.
Proof.
  intros Hne [Hlo Hhi].
  assert (Hn : (1 <= Z.of_nat (length filtered))%Z)
    by (destruct filtered; [done|simpl; lia]).
  remember (Z.to_nat (page - 1)) as i eqn:Hi.
  assert (Hpage : page = (Z.of_nat i + 1)%Z) by lia. subst page.
  assert (Hin : i < Z.to_nat (total_pages (Z.of_nat (length filtered)))) by lia.
  pose proof (pages_in_list _ i Hn Hin) as Hstart.
  rewrite page_tools_chunk by lia.
  rewrite length_take, length_drop. split; [lia|]. split.
  - intros Hlt.
    assert (Hnext : S i < Z.to_nat (total_pages (Z.of_nat (length filtered)))) by lia.
    pose proof (pages_in_list _ (S i) Hn Hnext). lia.
  - etrans; [apply sublist_take|apply sublist_drop].
Qed.

Lemma page_sizes_witness :
  1 <= length (page_tools (seq 0 23) 3) <= 10
  /\ ((3 < total_pages (Z.of_nat (length (seq 0 23))))%Z ->
      length (page_tools (seq 0 23) 3) = 10)
  /\ sublist (page_tools (seq 0 23) 3) (seq 0 23).
Proof.
  apply (page_sizes (seq 0 23) 3); [done|].
  vm_compute. split; discriminate.
Defined.

(** X14. Pagination ([main]): the pages 1 to [total_pages] of a non-empty
    list, one after the other, are the list: no tool is left out and none
    is shown twice. *)
Theorem pages_partition {A} (filtered : list A) :
  filtered <> [] ->
  concat (map (fun p => page_tools filtered (Z.of_nat p + 1))
            (seq 0 (Z.to_nat (total_pages (Z.of_nat (length filtered))))))
  = filtered.
Proof.
  intros Hne.
  assert (Hn : (1 <= Z.of_nat (length filtered))%Z)
    by (destruct filtered; [done|simpl; lia]).
  rewrite (map_ext_in _ (fun i => take 10 (drop (10 * i) filtered))).
  - rewrite chunks_concat. apply take_ge.
    unfold total_pages, tools_per_page.
    pose proof (Z.div_mod (Z.of_nat (length filtered) - 1) 10 ltac:(lia)).
    pose proof (Z.mod_pos_bound (Z.of_nat (length filtered) - 1) 10 ltac:(lia)).
    pose proof (Z.div_pos (Z.of_nat (length filtered) - 1) 10 ltac:(lia) ltac:(lia)).
    lia.
  - intros i Hi%in_seq. apply page_tools_chunk.
    pose proof (pages_in_list _ i Hn ltac:(lia)). lia.
Qed.

Lemma pages_partition_witness :
  concat (map (fun p => page_tools (seq 0 23) (Z.of_nat p + 1))
            (seq 0 (Z.to_nat (total_pages (Z.of_nat (length (seq 0 23)))))))
  = seq 0 23.
Proof. by apply (pages_partition (seq 0 23)). Defined.

(** X15. The dashboard's category and pricing filters ([main]) test
    whether a selected text occurs in the field; the filters of
    [scrape_by_category] test whether a selected text is one of the
    field's labels. With no search text the dashboard's filters return,
    and every tool the second test keeps, the first keeps. *)
Theorem dashboard_filters_keep_label_matches
        (wanted : list string) (tools_data : list Row.t) :
  (exists kept,
     filtered_tools "" wanted [] tools_data = inr kept
     /\ sublist
          (List.filter (fun t => any_label_in wanted (Row.categories t)) tools_data)
          kept)
  /\ (exists kept,
        filtered_tools "" [] wanted tools_data = inr kept
        /\ sublist
             (List.filter (fun t => any_label_in wanted (Row.pricing t)) tools_data)
             kept).
Proof.
  rewrite !filtered_tools_filter. cbn [Py.truthy].
  split; (eexists; split; [reflexivity|]); apply filter_sublist_impl; intros t Ht;
    simpl; rewrite (any_label_within _ _ Ht); by rewrite orb_true_r.
Qed.

(** X16. The statistics ([main]) on rows of the scraper, as scraped or
    read back from the cache: the count of free tools is the number of rows
    with one of the labels Free, Free Trial and Freemium, so a Freemium
    tool counts as free; the count of paid tools is the number of rows with
    the label Paid. *)
Theorem free_and_paid_counts (tools_data : list Row.t) :
  Forall scraped_row tools_data ->
  free_tools tools_data
  = length (List.filter (fun t => any_label_in free_labels (Row.pricing t))
              tools_data)
  /\ paid_tools tools_data
     = length (List.filter (fun t => any_label_in ["Paid"] (Row.pricing t))
                 tools_data).
Proof.
  intros Hall. rewrite Forall_forall in Hall. unfold free_tools, paid_tools.
  split; f_equal; apply filter_ext_in; intros t Ht%list_elem_of_In;
    destruct (Hall t Ht) as (r & (tag & name_elem & stamp & _ & ->) & _ & ->);
    simpl; [apply free_word_labels|apply paid_word_labels].
Qed.

Lemma free_and_paid_counts_witness :
  free_tools (records_of [trial_card; full_card; free_card]) = 2
  /\ paid_tools (records_of [trial_card; full_card; free_card]) = 1.
Proof.
  destruct (free_and_paid_counts _
              (records_of_scraped [trial_card; full_card; free_card]))
    as [Hfree Hpaid].
  split; [rewrite Hfree|rewrite Hpaid]; vm_compute; reflexivity.
Defined.

(** X17. The options of the two filter widgets ([main]): a text is
    offered as a category exactly when it is a non-empty piece, other than
    Uncategorized, of the categories field of some tool, split at comma
    and space; likewise for pricing, with Not specified left out. *)
Theorem filter_options (tools_data : list Row.t) (x : string) :
  (x ∈ all_categories tools_data
   <-> x <> "" /\ x <> "Uncategorized"
       /\ exists t, t ∈ tools_data /\ x ∈ Py.split ", " (Row.categories t))
  /\ (x ∈ all_pricing tools_data
      <-> x <> "" /\ x <> "Not specified"
          /\ exists t, t ∈ tools_data /\ x ∈ Py.split ", " (Row.pricing t)).
Proof.
  unfold all_categories, all_pricing. rewrite !options_of_spec.
  split; (split; intros (Hne & Hskip & Hex); (split; [done|]); (split; [done|])).
  - destruct Hex as (field & (t & <- & Ht)%in_map_iff & Hx).
    exists t. by rewrite !list_elem_of_In.
  - destruct Hex as (t & Ht%list_elem_of_In & Hx%list_elem_of_In).
    exists (Row.categories t). split; [|done]. apply in_map_iff. by exists t.
  - destruct Hex as (field & (t & <- & Ht)%in_map_iff & Hx).
    exists t. by rewrite !list_elem_of_In.
  - destruct Hex as (t & Ht%list_elem_of_In & Hx%list_elem_of_In).
    exists (Row.pricing t). split; [|done]. apply in_map_iff. by exists t.
Qed.

(** X18. The pricing options on rows of the scraper, as scraped or read
    back from the cache ([main] after [_parse_tool_card]): every option is
    one of the six pricing labels or the text Check tool page, and that
    text is an option as soon as one row has it as its pricing: the scraper
    never writes the text Not specified that the dashboard leaves out. *)
Theorem pricing_options_of_scraped (tools_data : list Row.t) :
  Forall scraped_row tools_data ->
  (forall x, x ∈ all_pricing tools_data -> x ∈ vocabulary \/ x = "Check tool page")
  /\ (forall t, t ∈ tools_data -> Row.pricing t = "Check tool page" ->
      "Check tool page" ∈ all_pricing tools_data).
Proof.
  intros Hall. rewrite Forall_forall in Hall. unfold all_pricing. split.
  - intros x (_ & _ & field & (t & <- & Ht%list_elem_of_In)%in_map_iff
               & Hx%list_elem_of_In)%options_of_spec.
    destruct (Hall t Ht) as (r & Hr & _ & Hpricing). rewrite Hpricing in Hx.
    pose proof (scraped_pricing_pieces r Hr) as Hpieces.
    rewrite Forall_forall in Hpieces. by apply Hpieces.
  - intros t Ht Hp. apply options_of_spec. split; [done|]. split; [done|].
    exists (Row.pricing t). split.
    + apply in_map_iff. exists t. by rewrite <- list_elem_of_In.
    + rewrite Hp. by left.
Qed.

Lemma pricing_options_of_scraped_witness :
  "Check tool page" ∈ all_pricing (records_of [full_card; heading_card "Plain"]).
Proof.
  destruct (pricing_options_of_scraped _
              (records_of_scraped [full_card; heading_card "Plain"]))
    as [_ Hsentinel].
  eapply Hsentinel;
    [vm_compute; apply list_elem_of_further, list_elem_of_here|reflexivity].
Defined.

(** X19. The three filters of the dashboard ([main]) return a list
    exactly when the search text is empty or the search can test every
    row: a row whose name is not a string, or whose name does not hold the
    text and whose description is not a string, makes them raise. When
    they return, they have only removed tools and kept the order, and
    filtering the result again changes nothing; with an empty search text
    and empty selections they remove nothing. *)
Theorem filters_narrow
        (search_query : string) (filter_categories filter_pricing : list string)
        (tools_data : list Row.t) :
  ((exists kept,
      filtered_tools search_query filter_categories filter_pricing tools_data
      = inr kept)
   <-> search_query = "" \/ Forall (searchable search_query) tools_data)
  /\ (forall kept,
        filtered_tools search_query filter_categories filter_pricing tools_data
        = inr kept ->
        sublist kept tools_data
        /\ filtered_tools search_query filter_categories filter_pricing kept
           = inr kept)
  /\ filtered_tools "" [] [] tools_data = inr tools_data.
Proof.
  split; [|split].
  - rewrite filtered_tools_filter. destruct search_query as [|c q]; cbn [Py.truthy].
    + split; [by left|by eexists].
    + split.
      * intros [kept Hkept]. right.
        destruct (comprehension (matches_search (String c q)) tools_data)
          as [e|found] eqn:Hfound; [done|].
        apply comprehension_inr in Hfound as [Hall _].
        eapply Forall_impl; [exact Hall|]. intros row.
        apply matches_search_returns.
      * intros [?|Hall]; [done|].
        destruct (comprehension_returns (matches_search (String c q)) tools_data)
          as [found ->]; [|by eexists].
        eapply Forall_impl; [exact Hall|]. intros row.
        apply matches_search_returns.
  - intros kept. rewrite !filtered_tools_filter.
    set (selected := fun t : Row.t =>
           (negb (Py.nonempty filter_categories)
            || any_within filter_categories (Row.categories t))
           && (negb (Py.nonempty filter_pricing)
               || any_within filter_pricing (Row.pricing t))).
    destruct (Py.truthy search_query).
    + destruct (comprehension (matches_search search_query) tools_data)
        as [e|found] eqn:Hfound; [done|].
      intros [= <-]. apply comprehension_inr in Hfound as [_ ->].
      split; [etrans; apply filter_sublist|].
      rewrite comprehension_kept.
      * f_equal. apply filter_id, filter_passes.
      * rewrite filter_filter_and. eapply Forall_impl; [apply filter_passes|].
        intros row [Hrow _]%andb_true_iff.
        by destruct (matches_search search_query row) as [|[|]].
    + intros [= <-]. split; [apply filter_sublist|].
      f_equal. apply filter_id, filter_passes.
  - rewrite filtered_tools_filter. cbn [Py.truthy Py.nonempty negb orb andb].
    f_equal. apply filter_id. by apply Forall_forall.
Qed.

(** A row read back from the cache with a float for its description: the
    search for "chat" keeps the rows whose name holds it, and raises as
    soon as one name does not. *)
Lemma filters_narrow_witness :
  filtered_tools "chat" [] ["Free"]
    [cached "ChatPal" "Chat" "Free"; tool "Painter" "Art" "Paid";
     cached "Chatter" "Chat" "Freemium"]
  = inr [cached "ChatPal" "Chat" "Free"; cached "Chatter" "Chat" "Freemium"]
  /\ sublist [cached "ChatPal" "Chat" "Free"; cached "Chatter" "Chat" "Freemium"]
       [cached "ChatPal" "Chat" "Free"; tool "Painter" "Art" "Paid";
        cached "Chatter" "Chat" "Freemium"]
  /\ filtered_tools "chat" [] ["Free"]
       [cached "ChatPal" "Chat" "Free"; cached "Chatter" "Chat" "Freemium"]
     = inr [cached "ChatPal" "Chat" "Free"; cached "Chatter" "Chat" "Freemium"]
  /\ ~ (exists kept,
          filtered_tools "chat" [] []
            [cached "ChatPal" "Chat" "Free"; cached "Painter" "Art" "Paid"]
          = inr kept).
Proof.
  destruct (filters_narrow "chat" [] ["Free"]
              [cached "ChatPal" "Chat" "Free"; tool "Painter" "Art" "Paid";
               cached "Chatter" "Chat" "Freemium"]) as (_ & Hkept & _).
  destruct (Hkept [cached "ChatPal" "Chat" "Free"; cached "Chatter" "Chat" "Freemium"])
    as [Hsub Hagain]; [vm_compute; reflexivity|].
  split; [vm_compute; reflexivity|]. split; [exact Hsub|]. split; [exact Hagain|].
  destruct (filters_narrow "chat" [] []
              [cached "ChatPal" "Chat" "Free"; cached "Painter" "Art" "Paid"])
    as (Hreturns & _).
  intros [[=]|Hall]%Hreturns.
  apply Forall_cons in Hall as [_ Hall]. apply Forall_cons in Hall as [Hrow _].
  destruct Hrow as (name & [= <-] & [Hname|[description Hd]]); [|discriminate Hd].
  by vm_compute in Hname.
Defined.

(** X20. The search of the dashboard ([main]) ignores the case of the
    text typed: two texts with the same lower-case form give the same
    outcome, the same list or the same exception, on every list of rows. *)
Theorem search_ignores_case
        (typed other : string) (filter_categories filter_pricing : list string)
        (tools_data : list Row.t) :
  Py.lower typed = Py.lower other ->
  filtered_tools typed filter_categories filter_pricing tools_data
  = filtered_tools other filter_categories filter_pricing tools_data.
Proof.
  intros Hlower. unfold filtered_tools, matches_search. cbv zeta.
  rewrite <- (lower_truthy typed), <- (lower_truthy other).
  by rewrite Hlower.
Qed.

Lemma search_ignores_case_witness :
  filtered_tools "CHAT" [] ["Free"]
    [tool "ChatPal" "Chat" "Free"; tool "Painter" "Art" "Paid";
     cached "Chatter" "Chat" "Freemium"]
  = filtered_tools "chat" [] ["Free"]
      [tool "ChatPal" "Chat" "Free"; tool "Painter" "Art" "Paid";
       cached "Chatter" "Chat" "Freemium"].
Proof. by apply search_ignores_case. Defined.

End DashboardProperties.
